(** * tfsdk.Attribute: schema conversion, validation walk, plan modification

    A shallow embedding of [tfsdk/attribute.go].  Go interfaces whose
    implementations live outside that file are either type classes
    ([attr.Type]) or records of the results of their methods; Go maps are
    association lists whose order stands for the iteration order of the
    map, which the language leaves unspecified. *)

From Stdlib Require Import String Ascii List Bool ZArith NArith Lia.
From Stdlib Require Import Permutation Sorted DecimalString.
Import ListNotations.
Open Scope string_scope.
Open Scope list_scope.

#[local] Set Warnings "-register-all".

(** ** package tftypes (terraform-plugin-go) *)
Module tftypes.

Inductive AttributePathStep : Type :=
| AttributeName (name : string)
| ElementKeyInt (idx : Z)
| ElementKeyString (key : string).

(** A path is its sequence of steps; a [*AttributePath] is identified with
    the path it points to. *)
Definition AttributePath : Type := list AttributePathStep.

Definition NewAttributePath : AttributePath := [].

Definition WithAttributeName (p : AttributePath) (name : string) : AttributePath :=
  p ++ [AttributeName name].

Definition WithElementKeyInt (p : AttributePath) (idx : Z) : AttributePath :=
  p ++ [ElementKeyInt idx].

Definition WithElementKeyString (p : AttributePath) (key : string) : AttributePath :=
  p ++ [ElementKeyString key].

(** [AttributePathError]: an error message together with the path it is
    about, as built by [path.NewErrorf]. *)
Record AttributePathError : Type := mkAttributePathError {
  Path : AttributePath;
  Error : string
}.

Definition NewErrorf (p : AttributePath) (msg : string) : AttributePathError :=
  mkAttributePathError p msg.

(** The wire-level type tokens ([tftypes.Type]). *)
Inductive Type_ : Type :=
| String
| Number
| Bool
| DynamicPseudoType
| List (ElementType : Type_)
| Set_ (ElementType : Type_)
| Map (ElementType : Type_)
| Object (AttributeTypes : list (string * Type_))
| Tuple (ElementTypes : list Type_).

(** The rendering of a path in messages ([AttributePath.String]) belongs to
    the library; it is a parameter of the development. *)
Class PathStringer : Type := { PathString : AttributePath -> string }.

End tftypes.

(** ** package attr *)
Module attr.

(** The interface [attr.Type], for the two methods [attribute.go] calls. *)
Class Type_ (T : Type) : Type := {
  Equal : T -> T -> bool;
  TerraformType : T -> tftypes.Type_
}.

(** What [ToTerraformValue] returns: an [interface{}] that is nil for a null
    value, and an error. *)
Inductive TerraformValue : Type :=
| UnknownValue
| KnownValue (repr : string).

(** The interface [attr.Value] as [attribute.go] observes it: its dynamic
    type ([types.List], [types.Map] or another implementation, named by its
    Go type) and the outcome of [ToTerraformValue]. *)
Inductive Value : Type :=
| List (Elems : list Value) (tfValue : option TerraformValue) (err : option string)
| Map (Elems : list (string * Value)) (tfValue : option TerraformValue) (err : option string)
| Other (goType : string) (tfValue : option TerraformValue) (err : option string).

Definition ToTerraformValue (v : Value) : option TerraformValue * option string :=
  match v with
  | List _ tf e => (tf, e)
  | Map _ tf e => (tf, e)
  | Other _ tf e => (tf, e)
  end.

(** The type assertions [v.(types.List)] and [v.(types.Map)] on a possibly
    nil interface value. *)
Definition asList (v : option Value) : option (list Value) :=
  match v with
  | Some (List elems _ _) => Some elems
  | _ => None
  end.

Definition asMap (v : option Value) : option (list (string * Value)) :=
  match v with
  | Some (Map elems _ _) => Some elems
  | _ => None
  end.

(** The verb [%T] applied to an [attr.Value]. *)
Definition goTypeName (v : option Value) : string :=
  match v with
  | None => "<nil>"
  | Some (List _ _ _) => "types.List"
  | Some (Map _ _ _) => "types.Map"
  | Some (Other n _ _) => n
  end.

End attr.

(** ** package types *)
Module types.

(** Stand-ins for the value types and values of package types, which is
    outside [attribute.go]: three primitive types and the string values, for
    the examples. *)
Inductive Primitive : Type := StringType | NumberType | BoolType.

Definition Primitive_eqb (t u : Primitive) : bool :=
  match t, u with
  | StringType, StringType => true
  | NumberType, NumberType => true
  | BoolType, BoolType => true
  | _, _ => false
  end.

Definition primitiveType : attr.Type_ Primitive :=
  attr.Build_Type_ Primitive Primitive_eqb
    (fun t => match t with
              | StringType => tftypes.String
              | NumberType => tftypes.Number
              | BoolType => tftypes.Bool
              end).

Definition StringValue (s : string) : attr.Value :=
  attr.Other "types.String" (Some (attr.KnownValue s)) None.

Definition NullString : attr.Value := attr.Other "types.String" None None.

End types.

(** ** package tfprotov6 (terraform-plugin-go) *)
Module tfprotov6.

Inductive DiagnosticSeverity : Type :=
| DiagnosticSeverityInvalid
| DiagnosticSeverityError
| DiagnosticSeverityWarning.

Record Diagnostic : Type := mkDiagnostic {
  Severity : DiagnosticSeverity;
  Summary : string;
  Detail : string;
  Attribute : option tftypes.AttributePath
}.

(** [StringKindPlain] is the zero value. *)
Inductive StringKind : Type :=
| StringKindPlain
| StringKindMarkdown.

Inductive SchemaObjectNestingMode : Type :=
| SchemaObjectNestingModeInvalid
| SchemaObjectNestingModeSingle
| SchemaObjectNestingModeList
| SchemaObjectNestingModeSet
| SchemaObjectNestingModeMap.

(** [SchemaAttribute] and [SchemaObject]; the slice of children holds
    pointers, so an entry may be nil. *)
Inductive SchemaAttribute : Type := mkSchemaAttribute {
  Name : string;
  Type_ : option tftypes.Type_;
  NestedType : option SchemaObject;
  Description : string;
  Required : bool;
  Optional : bool;
  Computed : bool;
  Sensitive : bool;
  DescriptionKind : StringKind;
  Deprecated : bool
}
with SchemaObject : Type := mkSchemaObject {
  Attributes : list (option SchemaAttribute);
  Nesting : SchemaObjectNestingMode;
  MinItems : Z;
  MaxItems : Z
}.

Definition setType (ty : option tftypes.Type_) (s : SchemaAttribute) : SchemaAttribute :=
  mkSchemaAttribute (Name s) ty (NestedType s) (Description s) (Required s)
    (Optional s) (Computed s) (Sensitive s) (DescriptionKind s) (Deprecated s).

Definition setNestedType (o : option SchemaObject) (s : SchemaAttribute) : SchemaAttribute :=
  mkSchemaAttribute (Name s) (Type_ s) o (Description s) (Required s)
    (Optional s) (Computed s) (Sensitive s) (DescriptionKind s) (Deprecated s).

Definition setDescription (d : string) (k : StringKind) (s : SchemaAttribute) : SchemaAttribute :=
  mkSchemaAttribute (Name s) (Type_ s) (NestedType s) d (Required s)
    (Optional s) (Computed s) (Sensitive s) k (Deprecated s).

Definition setDeprecated (b : bool) (s : SchemaAttribute) : SchemaAttribute :=
  mkSchemaAttribute (Name s) (Type_ s) (NestedType s) (Description s) (Required s)
    (Optional s) (Computed s) (Sensitive s) (DescriptionKind s) b.

Definition setNesting (n : SchemaObjectNestingMode) (o : SchemaObject) : SchemaObject :=
  mkSchemaObject (Attributes o) n (MinItems o) (MaxItems o).

Definition setAttributes (l : list (option SchemaAttribute)) (o : SchemaObject) : SchemaObject :=
  mkSchemaObject l (Nesting o) (MinItems o) (MaxItems o).

End tfprotov6.

(** ** package internal/diagnostics *)
Module diagnostics.

(** Modelled from the spec: [diagnostics.DiagsHasErrors] is declared in
    internal/diagnostics; it tells whether a list of diagnostics holds one of
    error severity. *)
Definition isError (d : tfprotov6.Diagnostic) : bool :=
  match tfprotov6.Severity d with
  | tfprotov6.DiagnosticSeverityError => true
  | _ => false
  end.

Definition DiagsHasErrors (diags : list tfprotov6.Diagnostic) : bool :=
  existsb isError diags.

End diagnostics.

(** ** package sort *)
Module sort.

(** [sort.Slice] belongs to the Go library.  The development is parametric
    in it: a sorter is any function that meets the contract of the library,
    stated by [SorterLaws]: the result is a permutation of the input and,
    when [less] is asymmetric and its complement transitive on the entries
    (a strict weak ordering), no entry of the result is greater than a later
    one.  The sort need not be stable. *)
Class Sorter : Type := {
  Slice : forall {A : Type}, (A -> A -> bool) -> list A -> list A
}.

Class SorterLaws `{Sorter} : Prop := {
  Slice_permutation :
    forall (A : Type) (less : A -> A -> bool) (l : list A),
      Permutation (Slice less l) l;
  Slice_sorted :
    forall (A : Type) (less : A -> A -> bool) (l : list A),
      (forall x y, In x l -> In y l -> less x y = true -> less y x = false) ->
      (forall x y z, In x l -> In y l -> In z l ->
                     less y x = false -> less z y = false -> less z x = false) ->
      StronglySorted (fun x y => less y x = false) (Slice less l)
}.

(** A sorter to run the examples with: straight insertion. *)
Fixpoint insert {A : Type} (less : A -> A -> bool) (x : A) (l : list A) : list A :=
  match l with
  | [] => [x]
  | y :: l' => if less y x then y :: insert less x l' else x :: l
  end.

Fixpoint insertionSort {A : Type} (less : A -> A -> bool) (l : list A) : list A :=
  match l with
  | [] => []
  | x :: l' => insert less x (insertionSort less l')
  end.

Definition insertionSorter : Sorter := Build_Sorter (@insertionSort).

End sort.

(** ** package tfsdk *)
Module tfsdk.

(** The accessors [Config], [State] and [Plan]: [GetAttribute] resolves the
    value at a path and may report diagnostics.  Their implementation is
    outside [attribute.go], so an accessor is the function it computes. *)
Record Accessor : Type := mkAccessor {
  GetAttribute : tftypes.AttributePath -> option attr.Value * list tfprotov6.Diagnostic
}.

Definition Config : Type := Accessor.

Definition State : Type := Accessor.

Definition Plan : Type := Accessor.

Module ValidateAttributeRequest.
Record t : Type := mk {
  AttributePath : tftypes.AttributePath;
  AttributeConfig : option attr.Value;
  Config : tfsdk.Config
}.
End ValidateAttributeRequest.

Module ValidateAttributeResponse.
Record t : Type := mk {
  Diagnostics : list tfprotov6.Diagnostic
}.
End ValidateAttributeResponse.

Module ModifyAttributePlanRequest.
Record t : Type := mk {
  AttributePath : tftypes.AttributePath;
  Config : tfsdk.Config;
  State : tfsdk.State;
  Plan : tfsdk.Plan;
  AttributeConfig : option attr.Value;
  AttributeState : option attr.Value;
  AttributePlan : option attr.Value;
  ProviderMeta : tfsdk.Config
}.
End ModifyAttributePlanRequest.

Module ModifyAttributePlanResponse.
Record t : Type := mk {
  AttributePlan : option attr.Value;
  Diagnostics : list tfprotov6.Diagnostic
}.
End ModifyAttributePlanResponse.

(** The hooks.  A hook receives the request and the response built so far
    (a pointer in Go) and leaves the response it has written to. *)
Record AttributeValidator : Type := mkAttributeValidator {
  Validate : ValidateAttributeRequest.t -> ValidateAttributeResponse.t ->
             ValidateAttributeResponse.t
}.

Record AttributePlanModifier : Type := mkAttributePlanModifier {
  Modify : ModifyAttributePlanRequest.t -> ModifyAttributePlanResponse.t ->
           ModifyAttributePlanResponse.t
}.

Definition AttributePlanModifiers : Type := list AttributePlanModifier.

(** Modelled from the spec: [NestingMode] and its constants are declared in
    nested_attributes.go; the spec names the modes single, list, set and map,
    and the code treats every other value of the underlying [uint8] as
    unrecognized. *)
Definition NestingMode : Type := N.

Definition NestingModeUnknown : NestingMode := 0%N.

Definition NestingModeSingle : NestingMode := 1%N.

Definition NestingModeList : NestingMode := 2%N.

Definition NestingModeSet : NestingMode := 3%N.

Definition NestingModeMap : NestingMode := 4%N.

(** The verb [%v] applied to a [NestingMode]. *)
Definition fmt_v_NestingMode (nm : NestingMode) : string :=
  NilZero.string_of_uint (N.to_uint nm).

(** The interface [NestedAttributes], as the results of its getters; [A] is
    the type of the children. *)
Record NestedAttributesOf (A : Type) : Type := mkNestedAttributes {
  GetAttributes : list (string * A);
  GetNestingMode : NestingMode;
  GetMinItems : Z;
  GetMaxItems : Z
}.
Arguments mkNestedAttributes {A}.
Arguments GetAttributes {A}.
Arguments GetNestingMode {A}.
Arguments GetMinItems {A}.
Arguments GetMaxItems {A}.

(** Ghost state of the two walks: the calls they make, in program order. *)
Inductive Source : Type := FromConfig | FromState | FromPlan.

Inductive Event : Type :=
| Enter (path : tftypes.AttributePath)
| Resolve (src : Source) (path : tftypes.AttributePath)
| RunValidator (idx : nat) (req : ValidateAttributeRequest.t)
| RunPlanModifier (idx : nat) (req : ModifyAttributePlanRequest.t).

Definition Log : Type := list Event.

(** Whether a statement of the function body fell through or returned. *)
Inductive Flow : Type := Continue | Return.

Definition newline : string := String "010"%char EmptyString.

Section AttributeModel.
Context {AttrType : Type}.

Inductive Attribute : Type := mkAttribute {
  Type_ : option AttrType;
  Attributes : option (NestedAttributesOf Attribute);
  Description : string;
  MarkdownDescription : string;
  Required : bool;
  Optional : bool;
  Computed : bool;
  Sensitive : bool;
  DeprecationMessage : string;
  Validators : list AttributeValidator;
  PlanModifiers : AttributePlanModifiers
}.

Definition NestedAttributes : Type := NestedAttributesOf Attribute.

End AttributeModel.
Arguments Attribute : clear implicits.
Arguments NestedAttributes : clear implicits.

Section AttributeFunctions.
Context {AttrType : Type} `{!attr.Type_ AttrType} `{!tftypes.PathStringer} `{!sort.Sorter}.

(** [m[key]] on a Go map. *)
Fixpoint lookup {A : Type} (key : string) (m : list (string * A)) : option A :=
  match m with
  | [] => None
  | (k, v) :: m' => if String.eqb k key then Some v else lookup key m'
  end.

(** Modelled from the spec: [NestedAttributes.Equal] is declared in
    nested_attributes.go.  The spec asks for a recursive equality of nested
    attributes: the same nesting mode and bounds, the same child names, and
    children that are equal as attributes ([rec]). *)
Definition NestedAttributes_Equal (rec : Attribute AttrType -> Attribute AttrType -> bool)
    (n o : NestedAttributes AttrType) : bool :=
  N.eqb (GetNestingMode n) (GetNestingMode o)
  && Z.eqb (GetMinItems n) (GetMinItems o)
  && Z.eqb (GetMaxItems n) (GetMaxItems o)
  && Nat.eqb (length (GetAttributes n)) (length (GetAttributes o))
  && forallb (fun kv => match lookup (fst kv) (GetAttributes o) with
                        | Some v' => rec (snd kv) v'
                        | None => false
                        end) (GetAttributes n).

Definition isNil {A : Type} (x : option A) : bool :=
  match x with None => true | Some _ => false end.

Definition notNil {A : Type} (x : option A) : bool := negb (isNil x).

(** [Attribute.Equal]. *)
Definition Equal_body (rec : Attribute AttrType -> Attribute AttrType -> bool) (a o : Attribute AttrType) : bool :=
  if isNil (Type_ a) && notNil (Type_ o) then false
  else if notNil (Type_ a) && isNil (Type_ o) then false
  else if match Type_ a, Type_ o with
          | Some ta, Some to => negb (attr.Equal ta to)
          | _, _ => false
          end then false
  else if isNil (Attributes a) && notNil (Attributes o) then false
  else if notNil (Attributes a) && isNil (Attributes o) then false
  else if match Attributes a, Attributes o with
          | Some na, Some no => negb (NestedAttributes_Equal rec na no)
          | _, _ => false
          end then false
  else if negb (String.eqb (Description a) (Description o)) then false
  else if negb (String.eqb (MarkdownDescription a) (MarkdownDescription o)) then false
  else if negb (Bool.eqb (Required a) (Required o)) then false
  else if negb (Bool.eqb (Optional a) (Optional o)) then false
  else if negb (Bool.eqb (Computed a) (Computed o)) then false
  else if negb (Bool.eqb (Sensitive a) (Sensitive o)) then false
  else if negb (String.eqb (DeprecationMessage a) (DeprecationMessage o)) then false
  else true.

Fixpoint Equal (a o : Attribute AttrType) {struct a} : bool := Equal_body Equal a o.

(** [a.Attributes != nil && len(a.Attributes.GetAttributes()) > 0]. *)
Definition attributesSet (a : Attribute AttrType) : bool :=
  match Attributes a with
  | Some na => Nat.ltb 0 (length (GetAttributes na))
  | None => false
  end.

(** [a.Attributes == nil || len(a.Attributes.GetAttributes()) < 1]. *)
Definition attributesUnset (a : Attribute AttrType) : bool :=
  match Attributes a with
  | Some na => Nat.ltb (length (GetAttributes na)) 1
  | None => true
  end.

(** The closure given to [sort.Slice], on the entries themselves. *)
Definition lessByName (x y : option tfprotov6.SchemaAttribute) : bool :=
  match x with
  | None => true
  | Some sx =>
      match y with
      | None => false
      | Some sy => String.ltb (tfprotov6.Name sx) (tfprotov6.Name sy)
      end
  end.

(** The [switch] on the nesting mode in [tfprotov6SchemaAttribute]; [None]
    is the default case. *)
Definition wireNestingMode (nm : NestingMode) : option tfprotov6.SchemaObjectNestingMode :=
  if N.eqb nm NestingModeSingle then Some tfprotov6.SchemaObjectNestingModeSingle
  else if N.eqb nm NestingModeList then Some tfprotov6.SchemaObjectNestingModeList
  else if N.eqb nm NestingModeSet then Some tfprotov6.SchemaObjectNestingModeSet
  else if N.eqb nm NestingModeMap then Some tfprotov6.SchemaObjectNestingModeMap
  else None.

Definition SchemaResult : Type :=
  (option tfprotov6.SchemaAttribute * option tftypes.AttributePathError)%type.

(** The loop over [a.Attributes.GetAttributes()]: the children converted so
    far are [acc]; the first error ends the loop. *)
Fixpoint convertNested (rec : Attribute AttrType -> string -> tftypes.AttributePath -> SchemaResult)
    (path : tftypes.AttributePath) (attrs : list (string * Attribute AttrType))
    (acc : list (option tfprotov6.SchemaAttribute))
    : list (option tfprotov6.SchemaAttribute) * option tftypes.AttributePathError :=
  match attrs with
  | [] => (acc, None)
  | (nestedName, nestedA) :: rest =>
      let '(nestedSchemaAttribute, err) :=
        rec nestedA nestedName (tftypes.WithAttributeName path nestedName) in
      match err with
      | Some e => (acc, Some e)
      | None => convertNested rec path rest (acc ++ [nestedSchemaAttribute])
      end
  end.

(** The first statements of [tfprotov6SchemaAttribute]: the fields of the
    wire attribute that do not depend on the kind of the attribute. *)
Definition schemaAttributeHeader (a : Attribute AttrType) (name : string)
    : tfprotov6.SchemaAttribute :=
  let schemaAttribute :=
    tfprotov6.mkSchemaAttribute name None None EmptyString (Required a) (Optional a)
      (Computed a) (Sensitive a) tfprotov6.StringKindPlain false in
  let schemaAttribute :=
    if negb (String.eqb (DeprecationMessage a) EmptyString)
    then tfprotov6.setDeprecated true schemaAttribute
    else schemaAttribute in
  let schemaAttribute :=
    if negb (String.eqb (Description a) EmptyString)
    then tfprotov6.setDescription (Description a) tfprotov6.StringKindPlain schemaAttribute
    else schemaAttribute in
  let schemaAttribute :=
    if negb (String.eqb (MarkdownDescription a) EmptyString)
    then tfprotov6.setDescription (MarkdownDescription a) tfprotov6.StringKindMarkdown
           schemaAttribute
    else schemaAttribute in
  schemaAttribute.

(** [Attribute.tfprotov6SchemaAttribute]: the pair of the Go function's two
    results.  [(None, None)] stands for the nil dereference of
    [a.Attributes], which the two checks before it exclude. *)
Definition tfprotov6SchemaAttribute_body
    (rec : Attribute AttrType -> string -> tftypes.AttributePath -> SchemaResult)
    (a : Attribute AttrType) (name : string) (path : tftypes.AttributePath) : SchemaResult :=
  let schemaAttribute := schemaAttributeHeader a name in
  if attributesSet a && notNil (Type_ a) then
    (None, Some (tftypes.NewErrorf path "can't have both Attributes and Type set"))
  else if attributesUnset a && isNil (Type_ a) then
    (None, Some (tftypes.NewErrorf path "must have Attributes or Type set"))
  else
    match Type_ a with
    | Some ty =>
        (Some (tfprotov6.setType (Some (attr.TerraformType ty)) schemaAttribute), None)
    | None =>
        match Attributes a with
        | None => (None, None)
        | Some attrs =>
            let object :=
              tfprotov6.mkSchemaObject [] tfprotov6.SchemaObjectNestingModeInvalid
                (GetMinItems attrs) (GetMaxItems attrs) in
            let nm := GetNestingMode attrs in
            match wireNestingMode nm with
            | None =>
                (None, Some (tftypes.NewErrorf path
                               ("unrecognized nesting mode " ++ fmt_v_NestingMode nm)))
            | Some nesting =>
                let object := tfprotov6.setNesting nesting object in
                let '(children, err) :=
                  convertNested rec path (GetAttributes attrs)
                    (tfprotov6.Attributes object) in
                match err with
                | Some e => (None, Some e)
                | None =>
                    let object :=
                      tfprotov6.setAttributes (sort.Slice lessByName children) object in
                    (Some (tfprotov6.setNestedType (Some object) schemaAttribute), None)
                end
            end
        end
    end.

Fixpoint tfprotov6SchemaAttribute (a : Attribute AttrType) (name : string)
    (path : tftypes.AttributePath) {struct a} : SchemaResult :=
  tfprotov6SchemaAttribute_body tfprotov6SchemaAttribute a name path.

(** *** validate *)

Definition appendDiagnostics (resp : ValidateAttributeResponse.t)
    (diags : list tfprotov6.Diagnostic) : ValidateAttributeResponse.t :=
  ValidateAttributeResponse.mk (ValidateAttributeResponse.Diagnostics resp ++ diags).

Definition providerProblem : string :=
  "This is always a problem with the provider and should be reported to the provider developer.".

Definition invalidDefinitionNeither (path : tftypes.AttributePath) : tfprotov6.Diagnostic :=
  tfprotov6.mkDiagnostic tfprotov6.DiagnosticSeverityError
    "Invalid Attribute Definition"
    ("Attribute must define either Attributes or Type. " ++ providerProblem)
    (Some path).

Definition invalidDefinitionBoth (path : tftypes.AttributePath) : tfprotov6.Diagnostic :=
  tfprotov6.mkDiagnostic tfprotov6.DiagnosticSeverityError
    "Invalid Attribute Definition"
    ("Attribute cannot define both Attributes and Type. " ++ providerProblem)
    (Some path).

(** The diagnostic built from [err] when the walk cannot go on. *)
Definition walkError (path : tftypes.AttributePath) (err : string) : tfprotov6.Diagnostic :=
  tfprotov6.mkDiagnostic tfprotov6.DiagnosticSeverityError
    "Attribute Validation Error"
    ("Attribute validation cannot walk schema. Report this to the provider developer:"
       ++ newline ++ newline ++ err)
    (Some path).

Definition unknownValueType (cfg : option attr.Value) (path : tftypes.AttributePath) : string :=
  "unknown attribute value type (" ++ attr.goTypeName cfg
    ++ ") for nesting mode (tfsdk.NestingMode) at path: " ++ tftypes.PathString path.

Definition unknownNestingMode (nm : NestingMode) (path : tftypes.AttributePath) : string :=
  "unknown attribute validation nesting mode (tfsdk.NestingMode: "
    ++ fmt_v_NestingMode nm ++ ") at path: " ++ tftypes.PathString path.

Definition convertError (path : tftypes.AttributePath) (err : string) : tfprotov6.Diagnostic :=
  tfprotov6.mkDiagnostic tfprotov6.DiagnosticSeverityError
    "Attribute Validation Error"
    ("Attribute validation cannot convert value. Report this to the provider developer:"
       ++ newline ++ newline ++ err)
    (Some path).

Definition deprecationWarning (path : tftypes.AttributePath) (msg : string)
    : tfprotov6.Diagnostic :=
  tfprotov6.mkDiagnostic tfprotov6.DiagnosticSeverityWarning
    "Attribute Deprecated" msg (Some path).

(** [for _, validator := range a.Validators]. *)
Fixpoint runValidators (idx : nat) (validators : list AttributeValidator)
    (req : ValidateAttributeRequest.t) (resp : ValidateAttributeResponse.t)
    : ValidateAttributeResponse.t * Log :=
  match validators with
  | [] => (resp, [])
  | validator :: rest =>
      let resp := Validate validator req resp in
      let '(resp, log) := runValidators (S idx) rest req resp in
      (resp, RunValidator idx req :: log)
  end.

Definition Walk : Type :=
  Attribute AttrType -> ValidateAttributeRequest.t -> ValidateAttributeResponse.t ->
  ValidateAttributeResponse.t * Log.

(** [for nestedName, nestedAttr := range a.Attributes.GetAttributes()], with
    the children's paths extending [base]. *)
Fixpoint validateNested (rec : Walk) (base : tftypes.AttributePath) (config : Config)
    (attrs : list (string * Attribute AttrType)) (resp : ValidateAttributeResponse.t)
    : ValidateAttributeResponse.t * Log :=
  match attrs with
  | [] => (resp, [])
  | (nestedName, nestedAttr) :: rest =>
      let nestedAttrReq :=
        ValidateAttributeRequest.mk (tftypes.WithAttributeName base nestedName) None config in
      let nestedAttrResp :=
        ValidateAttributeResponse.mk (ValidateAttributeResponse.Diagnostics resp) in
      let '(nestedAttrResp, log1) := rec nestedAttr nestedAttrReq nestedAttrResp in
      let resp :=
        ValidateAttributeResponse.mk (ValidateAttributeResponse.Diagnostics nestedAttrResp) in
      let '(resp, log2) := validateNested rec base config rest resp in
      (resp, log1 ++ log2)
  end.

(** [for idx := range l.Elems]. *)
Fixpoint validateListElems (rec : Walk) (path : tftypes.AttributePath) (config : Config)
    (attrs : list (string * Attribute AttrType)) (idx : nat) (elems : list attr.Value)
    (resp : ValidateAttributeResponse.t) : ValidateAttributeResponse.t * Log :=
  match elems with
  | [] => (resp, [])
  | _ :: rest =>
      let '(resp, log1) :=
        validateNested rec (tftypes.WithElementKeyInt path (Z.of_nat idx)) config attrs resp in
      let '(resp, log2) := validateListElems rec path config attrs (S idx) rest resp in
      (resp, log1 ++ log2)
  end.

(** [for key := range m.Elems]. *)
Fixpoint validateMapElems (rec : Walk) (path : tftypes.AttributePath) (config : Config)
    (attrs : list (string * Attribute AttrType)) (elems : list (string * attr.Value))
    (resp : ValidateAttributeResponse.t) : ValidateAttributeResponse.t * Log :=
  match elems with
  | [] => (resp, [])
  | (key, _) :: rest =>
      let '(resp, log1) :=
        validateNested rec (tftypes.WithElementKeyString path key) config attrs resp in
      let '(resp, log2) := validateMapElems rec path config attrs rest resp in
      (resp, log1 ++ log2)
  end.

(** The [switch nm] of [validate], for a non-nil [a.Attributes]. *)
Definition validateNestingMode (rec : Walk) (attributes : NestedAttributes AttrType)
    (req : ValidateAttributeRequest.t) (resp : ValidateAttributeResponse.t)
    : Flow * ValidateAttributeResponse.t * Log :=
  let path := ValidateAttributeRequest.AttributePath req in
  let config := ValidateAttributeRequest.Config req in
  let nm := GetNestingMode attributes in
  if N.eqb nm NestingModeList then
    match attr.asList (ValidateAttributeRequest.AttributeConfig req) with
    | None =>
        let err := unknownValueType (ValidateAttributeRequest.AttributeConfig req) path in
        (Return, appendDiagnostics resp [walkError path err], [])
    | Some elems =>
        let '(resp, log) :=
          validateListElems rec path config (GetAttributes attributes) 0 elems resp in
        (Continue, resp, log)
    end
  else if N.eqb nm NestingModeSet then
    (Continue, resp, [])
  else if N.eqb nm NestingModeMap then
    match attr.asMap (ValidateAttributeRequest.AttributeConfig req) with
    | None =>
        let err := unknownValueType (ValidateAttributeRequest.AttributeConfig req) path in
        (Return, appendDiagnostics resp [walkError path err], [])
    | Some elems =>
        let '(resp, log) :=
          validateMapElems rec path config (GetAttributes attributes) elems resp in
        (Continue, resp, log)
    end
  else if N.eqb nm NestingModeSingle then
    let '(resp, log) := validateNested rec path config (GetAttributes attributes) resp in
    (Continue, resp, log)
  else
    let err := unknownNestingMode nm path in
    (Return, appendDiagnostics resp [walkError path err], []).

(** The last statement of [validate]: the deprecation check on the value
    resolved at the path. *)
Definition validateDeprecation (a : Attribute AttrType) (path : tftypes.AttributePath)
    (attributeConfig : option attr.Value) (resp : ValidateAttributeResponse.t)
    : ValidateAttributeResponse.t :=
  if negb (String.eqb (DeprecationMessage a) EmptyString) && notNil attributeConfig then
    match attributeConfig with
    | None => resp
    | Some v =>
        let '(tfValue, err) := attr.ToTerraformValue v in
        match err with
        | Some e => appendDiagnostics resp [convertError path e]
        | None =>
            if notNil tfValue
            then appendDiagnostics resp [deprecationWarning path (DeprecationMessage a)]
            else resp
        end
    end
  else resp.

(** What [validate] does once the value is resolved without error:
    validators, children, deprecation. *)
Definition validateResolved (rec : Walk) (a : Attribute AttrType)
    (req : ValidateAttributeRequest.t) (resp : ValidateAttributeResponse.t)
    : ValidateAttributeResponse.t * Log :=
  let '(resp, logV) := runValidators 0 (Validators a) req resp in
  let '(flow, resp, logN) :=
    match Attributes a with
    | Some attributes => validateNestingMode rec attributes req resp
    | None => (Continue, resp, [])
    end in
  match flow with
  | Return => (resp, logV ++ logN)
  | Continue =>
      (validateDeprecation a (ValidateAttributeRequest.AttributePath req)
         (ValidateAttributeRequest.AttributeConfig req) resp,
       logV ++ logN)
  end.

(** [Attribute.validate]: the response after the call, and the calls made. *)
Definition validate_body (rec : Walk) (a : Attribute AttrType)
    (req : ValidateAttributeRequest.t) (resp : ValidateAttributeResponse.t)
    : ValidateAttributeResponse.t * Log :=
  let path := ValidateAttributeRequest.AttributePath req in
  if attributesUnset a && isNil (Type_ a) then
    (appendDiagnostics resp [invalidDefinitionNeither path], [Enter path])
  else if attributesSet a && notNil (Type_ a) then
    (appendDiagnostics resp [invalidDefinitionBoth path], [Enter path])
  else
    let '(attributeConfig, diags) :=
      GetAttribute (ValidateAttributeRequest.Config req) path in
    let resp := appendDiagnostics resp diags in
    if diagnostics.DiagsHasErrors diags then
      (resp, [Enter path; Resolve FromConfig path])
    else
      let req :=
        ValidateAttributeRequest.mk path attributeConfig
          (ValidateAttributeRequest.Config req) in
      let '(resp, log) := validateResolved rec a req resp in
      (resp, Enter path :: Resolve FromConfig path :: log).

Fixpoint validate (a : Attribute AttrType) (req : ValidateAttributeRequest.t)
    (resp : ValidateAttributeResponse.t) {struct a}
    : ValidateAttributeResponse.t * Log :=
  validate_body validate a req resp.

(** *** modifyPlan *)

Definition appendPlanDiagnostics (resp : ModifyAttributePlanResponse.t)
    (diags : list tfprotov6.Diagnostic) : ModifyAttributePlanResponse.t :=
  ModifyAttributePlanResponse.mk (ModifyAttributePlanResponse.AttributePlan resp)
    (ModifyAttributePlanResponse.Diagnostics resp ++ diags).

Definition setAttributePlan (plan : option attr.Value)
    (req : ModifyAttributePlanRequest.t) : ModifyAttributePlanRequest.t :=
  ModifyAttributePlanRequest.mk
    (ModifyAttributePlanRequest.AttributePath req)
    (ModifyAttributePlanRequest.Config req)
    (ModifyAttributePlanRequest.State req)
    (ModifyAttributePlanRequest.Plan req)
    (ModifyAttributePlanRequest.AttributeConfig req)
    (ModifyAttributePlanRequest.AttributeState req)
    plan
    (ModifyAttributePlanRequest.ProviderMeta req).

(** [for _, planModifier := range a.PlanModifiers]. *)
Fixpoint runPlanModifiers (idx : nat) (planModifiers : AttributePlanModifiers)
    (modifyReq : ModifyAttributePlanRequest.t) (resp : ModifyAttributePlanResponse.t)
    : ModifyAttributePlanResponse.t * Log :=
  match planModifiers with
  | [] => (resp, [])
  | planModifier :: rest =>
      let resp := Modify planModifier modifyReq resp in
      let next := setAttributePlan (ModifyAttributePlanResponse.AttributePlan resp) modifyReq in
      if diagnostics.DiagsHasErrors (ModifyAttributePlanResponse.Diagnostics resp) then
        (resp, [RunPlanModifier idx modifyReq])
      else
        let '(resp, log) := runPlanModifiers (S idx) rest next resp in
        (resp, RunPlanModifier idx modifyReq :: log)
  end.

(** The request handed to the first plan modifier. *)
Definition modifyRequest (req : ModifyAttributePlanRequest.t)
    (attrConfig attrState attrPlan : option attr.Value) : ModifyAttributePlanRequest.t :=
  ModifyAttributePlanRequest.mk
    (ModifyAttributePlanRequest.AttributePath req)
    (ModifyAttributePlanRequest.Config req)
    (ModifyAttributePlanRequest.State req)
    (ModifyAttributePlanRequest.Plan req)
    attrConfig attrState attrPlan
    (ModifyAttributePlanRequest.ProviderMeta req).

(** [Attribute.modifyPlan]: the response after the call, and the calls
    made. *)
Definition modifyPlan (a : Attribute AttrType) (req : ModifyAttributePlanRequest.t)
    (resp : ModifyAttributePlanResponse.t) : ModifyAttributePlanResponse.t * Log :=
  let path := ModifyAttributePlanRequest.AttributePath req in
  let '(attrConfig, diags) := GetAttribute (ModifyAttributePlanRequest.Config req) path in
  let resp := appendPlanDiagnostics resp diags in
  if diagnostics.DiagsHasErrors diags then
    (resp, [Enter path; Resolve FromConfig path])
  else
    let '(attrState, diags) := GetAttribute (ModifyAttributePlanRequest.State req) path in
    let resp := appendPlanDiagnostics resp diags in
    if diagnostics.DiagsHasErrors diags then
      (resp, [Enter path; Resolve FromConfig path; Resolve FromState path])
    else
      let '(attrPlan, diags) := GetAttribute (ModifyAttributePlanRequest.Plan req) path in
      let resp := appendPlanDiagnostics resp diags in
      if diagnostics.DiagsHasErrors diags then
        (resp, [Enter path; Resolve FromConfig path; Resolve FromState path;
                Resolve FromPlan path])
      else
        let modifyReq := modifyRequest req attrConfig attrState attrPlan in
        let '(resp, log) := runPlanModifiers 0 (PlanModifiers a) modifyReq resp in
        (resp, Enter path :: Resolve FromConfig path :: Resolve FromState path
                 :: Resolve FromPlan path :: log).

(** *** Vocabulary of the properties *)

(** The two results of converting the child [kv] of an attribute at
    [path]. *)
Definition childResult (rec : Attribute AttrType -> string -> tftypes.AttributePath -> SchemaResult)
    (path : tftypes.AttributePath) (kv : string * Attribute AttrType) : SchemaResult :=
  rec (snd kv) (fst kv) (tftypes.WithAttributeName path (fst kv)).

(** [e] is the error of the first child of [a], in iteration order, whose
    conversion fails. *)
Definition firstChildError (a : Attribute AttrType) (path : tftypes.AttributePath)
    (e : tftypes.AttributePathError) : Prop :=
  exists na pre kv post,
    Attributes a = Some na
    /\ GetAttributes na = pre ++ kv :: post
    /\ Forall (fun kv' => snd (childResult tfprotov6SchemaAttribute path kv') = None) pre
    /\ snd (childResult tfprotov6SchemaAttribute path kv) = Some e.

(** Names strictly ascending, byte by byte. *)
Definition sortedByName (l : list tfprotov6.SchemaAttribute) : Prop :=
  StronglySorted (fun x y => String.ltb (tfprotov6.Name x) (tfprotov6.Name y) = true) l.

(** The same tree without any validator or plan modifier, at any depth. *)
Definition stripHooks_body (rec : Attribute AttrType -> Attribute AttrType)
    (a : Attribute AttrType) : Attribute AttrType :=
  mkAttribute (Type_ a)
    match Attributes a with
    | Some na =>
        Some (mkNestedAttributes (map (fun kv => (fst kv, rec (snd kv))) (GetAttributes na))
                (GetNestingMode na) (GetMinItems na) (GetMaxItems na))
    | None => None
    end
    (Description a) (MarkdownDescription a) (Required a) (Optional a) (Computed a)
    (Sensitive a) (DeprecationMessage a) [] [].

Fixpoint stripHooks (a : Attribute AttrType) {struct a} : Attribute AttrType :=
  stripHooks_body stripHooks a.

(** Step 5 of the spec's plan-modification walk, for the single mode:
    [modifyPlan] enters every child, at the path extended by its name. *)
Definition modifyPlanEntersChildren (a : Attribute AttrType)
    (req : ModifyAttributePlanRequest.t) (resp : ModifyAttributePlanResponse.t) : Prop :=
  forall na n c,
    Attributes a = Some na ->
    GetNestingMode na = NestingModeSingle ->
    In (n, c) (GetAttributes na) ->
    In (Enter (tftypes.WithAttributeName (ModifyAttributePlanRequest.AttributePath req) n))
       (snd (modifyPlan a req resp)).

(** The stop rule of the spec's pipeline: only an error that a plan modifier
    produced stops it.  So when the three values resolve without error and no
    plan modifier of the attribute changes the diagnostics, every plan
    modifier is called. *)
Definition modifyPlanStopsOnlyOnModifierErrors (a : Attribute AttrType)
    (req : ModifyAttributePlanRequest.t) (resp : ModifyAttributePlanResponse.t) : Prop :=
  let path := ModifyAttributePlanRequest.AttributePath req in
  diagnostics.DiagsHasErrors
    (snd (GetAttribute (ModifyAttributePlanRequest.Config req) path)) = false ->
  diagnostics.DiagsHasErrors
    (snd (GetAttribute (ModifyAttributePlanRequest.State req) path)) = false ->
  diagnostics.DiagsHasErrors
    (snd (GetAttribute (ModifyAttributePlanRequest.Plan req) path)) = false ->
  (forall m r s,
      In m (PlanModifiers a) ->
      ModifyAttributePlanResponse.Diagnostics (Modify m r s)
      = ModifyAttributePlanResponse.Diagnostics s) ->
  forall i m,
    nth_error (PlanModifiers a) i = Some m ->
    exists r, In (RunPlanModifier i r) (snd (modifyPlan a req resp)).

(** The spec's recommendation for the set mode: validating a set-nested
    branch adds a diagnostic. *)
Definition validateReportsSetNesting (a : Attribute AttrType)
    (req : ValidateAttributeRequest.t) (resp : ValidateAttributeResponse.t) : Prop :=
  forall na,
    Attributes a = Some na ->
    GetNestingMode na = NestingModeSet ->
    ValidateAttributeResponse.Diagnostics (fst (validate a req resp))
    <> ValidateAttributeResponse.Diagnostics resp.

(** Step 5 of the spec's validation walk, read for every attribute: with a
    deprecation message and a resolved value that is not null, the last
    diagnostic is the deprecation warning. *)
Definition validateWarnsOfDeprecation (a : Attribute AttrType)
    (req : ValidateAttributeRequest.t) (resp : ValidateAttributeResponse.t) : Prop :=
  forall v tf diags,
    DeprecationMessage a <> EmptyString ->
    GetAttribute (ValidateAttributeRequest.Config req)
      (ValidateAttributeRequest.AttributePath req) = (Some v, diags) ->
    attr.ToTerraformValue v = (Some tf, None) ->
    exists before,
      ValidateAttributeResponse.Diagnostics (fst (validate a req resp))
      = before ++ [deprecationWarning (ValidateAttributeRequest.AttributePath req)
                     (DeprecationMessage a)].

(** The three resolutions of [modifyPlan], when none reports an error. *)
Definition resolvedResponse (resp : ModifyAttributePlanResponse.t)
    (dc ds dp : list tfprotov6.Diagnostic) : ModifyAttributePlanResponse.t :=
  appendPlanDiagnostics (appendPlanDiagnostics (appendPlanDiagnostics resp dc) ds) dp.

Definition resolutionLog (path : tftypes.AttributePath) : Log :=
  [Enter path; Resolve FromConfig path; Resolve FromState path; Resolve FromPlan path].

Definition withPlanModifiers (ms : AttributePlanModifiers) (a : Attribute AttrType)
    : Attribute AttrType :=
  mkAttribute (Type_ a) (Attributes a) (Description a) (MarkdownDescription a)
    (Required a) (Optional a) (Computed a) (Sensitive a) (DeprecationMessage a)
    (Validators a) ms.

Definition withValidators (vs : list AttributeValidator) (a : Attribute AttrType)
    : Attribute AttrType :=
  mkAttribute (Type_ a) (Attributes a) (Description a) (MarkdownDescription a)
    (Required a) (Optional a) (Computed a) (Sensitive a) (DeprecationMessage a)
    vs (PlanModifiers a).

Definition withAttributes (attributes : option (NestedAttributes AttrType))
    (a : Attribute AttrType) : Attribute AttrType :=
  mkAttribute (Type_ a) attributes (Description a) (MarkdownDescription a)
    (Required a) (Optional a) (Computed a) (Sensitive a) (DeprecationMessage a)
    (Validators a) (PlanModifiers a).

Definition withDeprecationMessage (msg : string) (a : Attribute AttrType)
    : Attribute AttrType :=
  mkAttribute (Type_ a) (Attributes a) (Description a) (MarkdownDescription a)
    (Required a) (Optional a) (Computed a) (Sensitive a) msg
    (Validators a) (PlanModifiers a).

(** The path an event is about. *)
Definition eventPath (e : Event) : tftypes.AttributePath :=
  match e with
  | Enter p => p
  | Resolve _ p => p
  | RunValidator _ req => ValidateAttributeRequest.AttributePath req
  | RunPlanModifier _ req => ModifyAttributePlanRequest.AttributePath req
  end.

(** An attribute that is neither a pure leaf nor a pure branch. *)
Definition bothOrNeither (a : Attribute AttrType) : bool :=
  (attributesSet a && notNil (Type_ a)) || (attributesUnset a && isNil (Type_ a)).

(** A branch whose nesting mode is none of the four. *)
Definition unrecognizedBranch (a : Attribute AttrType) : bool :=
  isNil (Type_ a)
  && match Attributes a with
     | Some na => Nat.ltb 0 (length (GetAttributes na))
                  && isNil (wireNestingMode (GetNestingMode na))
     | None => false
     end.

Definition structurallyInvalid (a : Attribute AttrType) : bool :=
  bothOrNeither a || unrecognizedBranch a.

(** Some attribute of the tree is structurally invalid. *)
Definition invalidTree_body (rec : Attribute AttrType -> bool) (a : Attribute AttrType) : bool :=
  structurallyInvalid a
  || match Attributes a with
     | Some na => existsb (fun kv => rec (snd kv)) (GetAttributes na)
     | None => false
     end.

Fixpoint invalidTree (a : Attribute AttrType) {struct a} : bool :=
  invalidTree_body invalidTree a.

(** The keys of a Go map are distinct; an association list stands for a map
    when its names are. *)
Fixpoint distinct (l : list string) : bool :=
  match l with
  | [] => true
  | x :: l' => negb (existsb (String.eqb x) l') && distinct l'
  end.

Definition uniqueNames_body (rec : Attribute AttrType -> bool) (a : Attribute AttrType) : bool :=
  match Attributes a with
  | Some na =>
      distinct (map fst (GetAttributes na))
      && forallb (fun kv => rec (snd kv)) (GetAttributes na)
  | None => true
  end.

Fixpoint uniqueNames (a : Attribute AttrType) {struct a} : bool :=
  uniqueNames_body uniqueNames a.

Fixpoint all2 {A B : Type} (R : A -> B -> Prop) (l : list A) (l' : list B) {struct l} : Prop :=
  match l, l' with
  | [], [] => True
  | x :: r, y :: r' => R x y /\ all2 R r r'
  | _, _ => False
  end.

(** Two presentations of one schema tree: the same fields everywhere, the
    children of every branch enumerated in possibly different orders, as two
    iterations over the same Go maps may do. *)
Definition sameTree_body (rec : Attribute AttrType -> Attribute AttrType -> Prop)
    (a a' : Attribute AttrType) : Prop :=
  Type_ a = Type_ a'
  /\ Description a = Description a'
  /\ MarkdownDescription a = MarkdownDescription a'
  /\ Required a = Required a'
  /\ Optional a = Optional a'
  /\ Computed a = Computed a'
  /\ Sensitive a = Sensitive a'
  /\ DeprecationMessage a = DeprecationMessage a'
  /\ Validators a = Validators a'
  /\ PlanModifiers a = PlanModifiers a'
  /\ match Attributes a, Attributes a' with
     | None, None => True
     | Some na, Some na' =>
         GetNestingMode na = GetNestingMode na'
         /\ GetMinItems na = GetMinItems na'
         /\ GetMaxItems na = GetMaxItems na'
         /\ exists l', Permutation l' (GetAttributes na')
              /\ all2 (fun x y => fst x = fst y /\ rec (snd x) (snd y))
                   (GetAttributes na) l'
     | _, _ => False
     end.

Fixpoint sameTree (a a' : Attribute AttrType) {struct a} : Prop :=
  sameTree_body sameTree a a'.

(** The resolved value has the container type the nesting mode asks for,
    so that the [switch] of [validate] does not return. *)
Definition nestingWalkable (a : Attribute AttrType) (cfg : option attr.Value) : bool :=
  match Attributes a with
  | None => true
  | Some na =>
      let nm := GetNestingMode na in
      if N.eqb nm NestingModeList then notNil (attr.asList cfg)
      else if N.eqb nm NestingModeSet then true
      else if N.eqb nm NestingModeMap then notNil (attr.asMap cfg)
      else N.eqb nm NestingModeSingle
  end.

End AttributeFunctions.

(** ** Example schemas and collaborators *)

Definition exampleAccessor (v : option attr.Value) (diags : list tfprotov6.Diagnostic)
    : Accessor :=
  mkAccessor (fun _ => (v, diags)).

Definition resolutionWarning : tfprotov6.Diagnostic :=
  tfprotov6.mkDiagnostic tfprotov6.DiagnosticSeverityWarning
    "Value Resolution" "value read with a warning" None.

(** Accessors that resolve every path to the string "x", silently or with
    a warning. *)
Definition exampleConfig : Config :=
  exampleAccessor (Some (types.StringValue "x")) [].

Definition warningConfig : Config :=
  exampleAccessor (Some (types.StringValue "x")) [resolutionWarning].

Definition nullConfig : Config :=
  exampleAccessor (Some types.NullString) [].

Definition emptyValidateResponse : ValidateAttributeResponse.t :=
  ValidateAttributeResponse.mk [].

Definition emptyPlanResponse : ModifyAttributePlanResponse.t :=
  ModifyAttributePlanResponse.mk None [].

Definition validateRequestAt (path : tftypes.AttributePath) (config : Config)
    : ValidateAttributeRequest.t :=
  ValidateAttributeRequest.mk path None config.

Definition planRequestAt (path : tftypes.AttributePath) (config : Config) (state : State)
    (plan : Plan) : ModifyAttributePlanRequest.t :=
  ModifyAttributePlanRequest.mk path config state plan None None None
    (exampleAccessor None []).

(** A validator that reports the path it is given. *)
Definition notingValidator : AttributeValidator :=
  mkAttributeValidator (fun req resp =>
    ValidateAttributeResponse.mk
      (ValidateAttributeResponse.Diagnostics resp
         ++ [tfprotov6.mkDiagnostic tfprotov6.DiagnosticSeverityWarning
               "Noted" "validator ran"
               (Some (ValidateAttributeRequest.AttributePath req))])).

(** [M1 sets value to X] and [M2 appends "-suffix"], as in the spec's
    scenario, and a modifier that fails. *)
Definition setsPlanTo (s : string) : AttributePlanModifier :=
  mkAttributePlanModifier (fun _ resp =>
    ModifyAttributePlanResponse.mk (Some (types.StringValue s))
      (ModifyAttributePlanResponse.Diagnostics resp)).

Definition appendsSuffix : AttributePlanModifier :=
  mkAttributePlanModifier (fun req resp =>
    match ModifyAttributePlanRequest.AttributePlan req with
    | Some (attr.Other ty (Some (attr.KnownValue s)) err) =>
        ModifyAttributePlanResponse.mk
          (Some (attr.Other ty (Some (attr.KnownValue (s ++ "-suffix"))) err))
          (ModifyAttributePlanResponse.Diagnostics resp)
    | _ => resp
    end).

Definition failingModifier : AttributePlanModifier :=
  mkAttributePlanModifier (fun req resp =>
    ModifyAttributePlanResponse.mk (ModifyAttributePlanRequest.AttributePlan req)
      (ModifyAttributePlanResponse.Diagnostics resp
         ++ [tfprotov6.mkDiagnostic tfprotov6.DiagnosticSeverityError
               "Plan Modification Failed" "modifier failed"
               (Some (ModifyAttributePlanRequest.AttributePath req))])).

Definition stringAttribute : Attribute types.Primitive :=
  mkAttribute (Some types.StringType) None EmptyString EmptyString
    true false false false EmptyString [] [].

(** Neither a type nor nested attributes. *)
Definition undefinedAttribute : Attribute types.Primitive :=
  mkAttribute None None EmptyString EmptyString
    false true false false EmptyString [notingValidator] [].

Definition describedAttribute : Attribute types.Primitive :=
  mkAttribute (Some types.StringType) None "plain text" "*markdown* text"
    false true false false EmptyString [] [].

Definition deprecatedAttribute : Attribute types.Primitive :=
  mkAttribute (Some types.StringType) None EmptyString EmptyString
    false true false false "use bar instead" [] [].

Definition pipelineAttribute : Attribute types.Primitive :=
  mkAttribute (Some types.StringType) None EmptyString EmptyString
    false true true false EmptyString []
    [setsPlanTo "X"; appendsSuffix; failingModifier; setsPlanTo "Y"].

Definition nestedOf (mode : NestingMode) (attrs : list (string * Attribute types.Primitive))
    : Attribute types.Primitive :=
  mkAttribute None (Some (mkNestedAttributes attrs mode 0%Z 0%Z)) EmptyString EmptyString
    false true false false EmptyString [notingValidator] [].

Definition singleNested : Attribute types.Primitive :=
  nestedOf NestingModeSingle [("b", stringAttribute); ("a", describedAttribute)].

(** The same schema, its map iterated in the other order. *)
Definition singleNestedReordered : Attribute types.Primitive :=
  nestedOf NestingModeSingle [("a", describedAttribute); ("b", stringAttribute)].

(** Two plan modifiers that report nothing, and a response that holds an
    error before the call. *)
Definition quietPipelineAttribute : Attribute types.Primitive :=
  withPlanModifiers [setsPlanTo "X"; appendsSuffix] pipelineAttribute.

Definition earlierError : tfprotov6.Diagnostic :=
  tfprotov6.mkDiagnostic tfprotov6.DiagnosticSeverityError
    "Earlier Error" "reported before the call" None.

Definition erroredPlanResponse : ModifyAttributePlanResponse.t :=
  ModifyAttributePlanResponse.mk None [earlierError].

(** A branch whose child has a plan modifier. *)
Definition nestedWithChildModifier : Attribute types.Primitive :=
  nestedOf NestingModeSingle [("x", pipelineAttribute)].

(** A list-nested branch with the children "a" and "b", and a list of two
    elements for it. *)
Definition listNested : Attribute types.Primitive :=
  mkAttribute None
    (Some (mkNestedAttributes [("a", stringAttribute); ("b", stringAttribute)]
             NestingModeList 0%Z 0%Z))
    EmptyString EmptyString false true false false EmptyString [] [].

Definition listConfig : Config :=
  exampleAccessor
    (Some (attr.List [types.StringValue "one"; types.StringValue "two"]
             (Some (attr.KnownValue "list")) None))
    [].

(** A set-nested branch whose only child is ill-defined. *)
Definition setNested : Attribute types.Primitive :=
  mkAttribute None
    (Some (mkNestedAttributes [("x", undefinedAttribute)] NestingModeSet 0%Z 0%Z))
    EmptyString EmptyString false true false false EmptyString [] [].

(** A deprecated list-nested branch. *)
Definition deprecatedListNested : Attribute types.Primitive :=
  mkAttribute None
    (Some (mkNestedAttributes [("x", stringAttribute)] NestingModeList 0%Z 0%Z))
    EmptyString EmptyString false true false false "use bar instead" [] [].

(** A branch with a failing child after a valid one. *)
Definition nestedWithInvalidChild : Attribute types.Primitive :=
  nestedOf NestingModeSingle [("ok", stringAttribute); ("bad", undefinedAttribute)].

(** The same attribute as [singleNested], with other hooks. *)
Definition singleNestedOtherHooks : Attribute types.Primitive :=
  withValidators [] (withPlanModifiers [failingModifier] singleNested).

(** A rendering of paths for the examples: the names and keys, dotted. *)
Definition examplePathStep (s : tftypes.AttributePathStep) : string :=
  match s with
  | tftypes.AttributeName n => n
  | tftypes.ElementKeyInt i => NilZero.string_of_int (Z.to_int i)
  | tftypes.ElementKeyString k => k
  end.

Definition examplePathStringer : tftypes.PathStringer :=
  tftypes.Build_PathStringer (fun p => String.concat "." (map examplePathStep p)).


(** ** The path step, and the vocabulary of further properties *)

(** The two delegates of [Attribute.ApplyTerraform5AttributePathStep]: the
    method of the same name on [attr.Type] and on [NestedAttributes].  Both
    are outside [attribute.go]; [Result] stands for their [interface{}]. *)
Class PathStepper (AttrType : Type) : Type := {
  StepResult : Type;
  Type_ApplyTerraform5AttributePathStep :
    AttrType -> tftypes.AttributePathStep -> option StepResult * option string;
  Attributes_ApplyTerraform5AttributePathStep :
    NestedAttributes AttrType -> tftypes.AttributePathStep ->
    option StepResult * option string
}.

Section AttributeFunctionsMore.
Context {AttrType : Type} `{!attr.Type_ AttrType} `{!tftypes.PathStringer} `{!sort.Sorter}.
Context `{!PathStepper AttrType}.

(** [Attribute.ApplyTerraform5AttributePathStep]. *)
Definition ApplyTerraform5AttributePathStep (a : Attribute AttrType)
    (step : tftypes.AttributePathStep) : option StepResult * option string :=
  match Type_ a with
  | Some ty => Type_ApplyTerraform5AttributePathStep ty step
  | None =>
      match Attributes a with
      | Some attributes => Attributes_ApplyTerraform5AttributePathStep attributes step
      | None => (None, Some "Attribute has no type or nested attributes")
      end
  end.

(** The wire attribute [s] under another name. *)
Definition renamed (name : string) (s : tfprotov6.SchemaAttribute) : tfprotov6.SchemaAttribute :=
  tfprotov6.mkSchemaAttribute name (tfprotov6.Type_ s) (tfprotov6.NestedType s)
    (tfprotov6.Description s) (tfprotov6.Required s) (tfprotov6.Optional s)
    (tfprotov6.Computed s) (tfprotov6.Sensitive s) (tfprotov6.DescriptionKind s)
    (tfprotov6.Deprecated s).

(** [d] is the attribute found under [a] by following the names [names]
    through the nested attributes. *)
Fixpoint reaches (a : Attribute AttrType) (names : list string) (d : Attribute AttrType)
    : Prop :=
  match names with
  | [] => d = a
  | n :: rest =>
      exists na c,
        Attributes a = Some na /\ In (n, c) (GetAttributes na) /\ reaches c rest d
  end.

(** The three messages of [tfprotov6SchemaAttribute] for an attribute. *)
Definition definitionError (d : Attribute AttrType) (msg : string) : Prop :=
  msg = "can't have both Attributes and Type set"
  \/ msg = "must have Attributes or Type set"
  \/ exists na,
       Attributes d = Some na
       /\ msg = ("unrecognized nesting mode " ++ fmt_v_NestingMode (GetNestingMode na))%string.

(** An event at [path] or below it, and an event strictly below it when it
    enters an attribute. *)
Definition below (path : tftypes.AttributePath) (e : Event) : Prop :=
  exists suffix, eventPath e = path ++ suffix.

Definition inside (path : tftypes.AttributePath) (e : Event) : Prop :=
  match e with
  | Enter q => exists step suffix, q = path ++ step :: suffix
  | _ => below path e
  end.

(** The attributes entered at a given depth, in the order of the log. *)
Definition entersAtDepth (depth : nat) (log : Log) : list tftypes.AttributePath :=
  flat_map (fun e => match e with
                     | Enter q => if Nat.eqb (length q) depth then [q] else []
                     | _ => []
                     end) log.

(** The numbers of the plan modifiers called, in the order of the log. *)
Definition modifiersRun (log : Log) : list nat :=
  flat_map (fun e => match e with RunPlanModifier i _ => [i] | _ => [] end) log.

(** The requests given to the plan modifiers, in the order of the log. *)
Definition modifierRequests (log : Log) : list ModifyAttributePlanRequest.t :=
  flat_map (fun e => match e with RunPlanModifier _ r => [r] | _ => [] end) log.

(** A hook that only appends to the diagnostics it is given. *)
Definition validatorAppends (v : AttributeValidator) : Prop :=
  forall req resp, exists more,
    ValidateAttributeResponse.Diagnostics (Validate v req resp)
    = ValidateAttributeResponse.Diagnostics resp ++ more.

Definition modifierAppends (m : AttributePlanModifier) : Prop :=
  forall req resp, exists more,
    ModifyAttributePlanResponse.Diagnostics (Modify m req resp)
    = ModifyAttributePlanResponse.Diagnostics resp ++ more.

Fixpoint allOf {A : Type} (P : A -> Prop) (l : list A) {struct l} : Prop :=
  match l with
  | [] => True
  | x :: r => P x /\ allOf P r
  end.

(** Every validator of the tree only appends. *)
Definition validatorsAppend_body (rec : Attribute AttrType -> Prop) (a : Attribute AttrType)
    : Prop :=
  allOf validatorAppends (Validators a)
  /\ match Attributes a with
     | Some na => allOf (fun kv => rec (snd kv)) (GetAttributes na)
     | None => True
     end.

Fixpoint validatorsAppend (a : Attribute AttrType) {struct a} : Prop :=
  validatorsAppend_body validatorsAppend a.

(** The property of the walk the loops hand down: the log starts by
    entering the attribute and goes on inside it. *)
Definition walksInside (c : Attribute AttrType) : Prop :=
  forall req resp,
    exists rest,
      snd (validate c req resp) = Enter (ValidateAttributeRequest.AttributePath req) :: rest
      /\ Forall (inside (ValidateAttributeRequest.AttributePath req)) rest.

(** An attribute whose validation only appends to the diagnostics. *)
Definition appendsOnly (c : Attribute AttrType) : Prop :=
  forall req resp, exists more,
    ValidateAttributeResponse.Diagnostics (fst (validate c req resp))
    = ValidateAttributeResponse.Diagnostics resp ++ more.

End AttributeFunctionsMore.

(** Further collaborators of the examples: delegates of the path step that
    say which of the two was asked, a config whose value fails to convert,
    and a deprecated attribute with a validator. *)
Definition examplePathStepper : PathStepper types.Primitive :=
  Build_PathStepper types.Primitive string
    (fun _ _ => (Some "step of the type", None))
    (fun _ _ => (Some "step of the nested attributes", None)).

Definition unconvertibleConfig : Config :=
  exampleAccessor
    (Some (attr.Other "types.String" (Some (attr.KnownValue "x")) (Some "cannot convert")))
    [].

Definition deprecatedNoted : Attribute types.Primitive :=
  mkAttribute (Some types.StringType) None EmptyString EmptyString
    false true false false "use bar instead" [notingValidator] [].

(** ** Properties *)
Section AttributeProperties.
Context {AttrType : Type} `{!attr.Type_ AttrType} `{!tftypes.PathStringer}.
Context `{!sort.Sorter} `{!sort.SorterLaws}.

Lemma Equal_unfold (a o : Attribute AttrType) : Equal a o = Equal_body Equal a o.
Proof. destruct a; reflexivity. Qed.

Lemma tfprotov6SchemaAttribute_unfold (a : Attribute AttrType) name path :
  tfprotov6SchemaAttribute a name path
  = tfprotov6SchemaAttribute_body tfprotov6SchemaAttribute a name path.
Proof. destruct a; reflexivity. Qed.

Lemma validate_unfold (a : Attribute AttrType) req resp :
  validate a req resp = validate_body validate a req resp.
Proof. destruct a; reflexivity. Qed.

Lemma invalidTree_unfold (a : Attribute AttrType) :
  invalidTree a = invalidTree_body invalidTree a.
Proof. destruct a; reflexivity. Qed.

Lemma uniqueNames_unfold (a : Attribute AttrType) :
  uniqueNames a = uniqueNames_body uniqueNames a.
Proof. destruct a; reflexivity. Qed.

Lemma sameTree_unfold (a a' : Attribute AttrType) :
  sameTree a a' = sameTree_body sameTree a a'.
Proof. destruct a; reflexivity. Qed.

(** Induction on the schema tree: a property holds of every attribute as
    soon as it holds of an attribute whose children all have it. *)
Lemma Attribute_tree_ind (P : Attribute AttrType -> Prop) :
  (forall a,
      (forall na, Attributes a = Some na ->
                  Forall (fun kv => P (snd kv)) (GetAttributes na)) ->
      P a) ->
  forall a, P a.
Proof.
  intros step.
  fix IH 1.
  intros a. apply step.
  destruct a as [ty attrs d md r o c se dm vs pm]; simpl.
  intros na Hna. destruct attrs as [na'|]; [|discriminate].
  injection Hna as <-.
  destruct na' as [cs nm mn mx]; simpl.
  induction cs as [|[n ch] cs IHcs]; constructor.
  - simpl. apply IH.
  - exact IHcs.
Qed.

Lemma attributesUnset_negb (a : Attribute AttrType) :
  attributesUnset a = negb (attributesSet a).
Proof.
  unfold attributesUnset, attributesSet.
  destruct (Attributes a) as [na|]; [|reflexivity].
  destruct (length (GetAttributes na)) as [|[|n]]; reflexivity.
Qed.

(** *** Logs of the loops *)

Lemma runValidators_log idx (vs : list AttributeValidator) req resp :
  snd (runValidators idx vs req resp)
  = map (fun i => RunValidator i req) (seq idx (length vs)).
Proof.
  revert idx resp. induction vs as [|v vs IH]; intros idx resp; simpl; [reflexivity|].
  specialize (IH (S idx) (Validate v req resp)).
  destruct (runValidators (S idx) vs req (Validate v req resp)) as [r l].
  simpl in *. now rewrite IH.
Qed.



(** C4: an attribute with both or neither of its value type and its nested
    attributes populated gets exactly one diagnostic from [validate], added
    after those the response already holds: of error severity, with summary
    "Invalid Attribute Definition", anchored at the current path, and with
    the detail of the case at hand, which ends in the sentence that the
    provider is at fault.  Nothing else happens: no value is resolved, no
    validator runs, no child is entered. *)
Theorem validate_invalid_definition (a : Attribute AttrType) req resp :
  bothOrNeither a = true ->
  exists d,
    validate a req resp
    = (ValidateAttributeResponse.mk (ValidateAttributeResponse.Diagnostics resp ++ [d]),
       [Enter (ValidateAttributeRequest.AttributePath req)])
    /\ tfprotov6.Severity d = tfprotov6.DiagnosticSeverityError
    /\ tfprotov6.Summary d = "Invalid Attribute Definition"
    /\ tfprotov6.Attribute d = Some (ValidateAttributeRequest.AttributePath req)
    /\ (isNil (Type_ a) = true ->
        tfprotov6.Detail d
        = "Attribute must define either Attributes or Type. This is always a problem with the provider and should be reported to the provider developer.")
    /\ (isNil (Type_ a) = false ->
        tfprotov6.Detail d
        = "Attribute cannot define both Attributes and Type. This is always a problem with the provider and should be reported to the provider developer.")
    /\ exists what,
         tfprotov6.Detail d
         = (what ++ "This is always a problem with the provider and should be reported to the provider developer.")%string.
Proof.
  intros Hinv. rewrite validate_unfold. unfold validate_body.
  unfold bothOrNeither in Hinv.
  destruct (attributesUnset a && isNil (Type_ a)) eqn:Hneither.
  - apply andb_prop in Hneither as [_ Hnil].
    eexists. split; [reflexivity|]. repeat split.
    + intros Habs. congruence.
    + exists "Attribute must define either Attributes or Type. ". reflexivity.
  - rewrite orb_false_r in Hinv. rewrite Hinv.
    apply andb_prop in Hinv as [_ Hset]. unfold notNil in Hset.
    apply negb_true_iff in Hset.
    eexists. split; [reflexivity|]. repeat split.
    + intros Habs. congruence.
    + exists "Attribute cannot define both Attributes and Type. ". reflexivity.
Qed.

(** *** The plan-modifier pipeline *)

Lemma runPlanModifiers_paths idx (ms : AttributePlanModifiers) req resp :
  Forall (fun e => eventPath e = ModifyAttributePlanRequest.AttributePath req)
         (snd (runPlanModifiers idx ms req resp)).
Proof.
  revert idx req resp. induction ms as [|m ms IH]; intros idx req resp; simpl.
  - constructor.
  - destruct (diagnostics.DiagsHasErrors _).
    + simpl. repeat constructor.
    + specialize (IH (S idx)
                     (setAttributePlan
                        (ModifyAttributePlanResponse.AttributePlan (Modify m req resp)) req)
                     (Modify m req resp)).
      destruct (runPlanModifiers (S idx) ms _ _) as [r l]. simpl in *.
      constructor; [reflexivity|exact IH].
Qed.

Lemma runPlanModifiers_cons idx m (ms : AttributePlanModifiers) req resp :
  runPlanModifiers idx (m :: ms) req resp
  = let r1 := Modify m req resp in
    if diagnostics.DiagsHasErrors (ModifyAttributePlanResponse.Diagnostics r1)
    then (r1, [RunPlanModifier idx req])
    else
      let R :=
        runPlanModifiers (S idx) ms
          (setAttributePlan (ModifyAttributePlanResponse.AttributePlan r1) req) r1 in
      (fst R, RunPlanModifier idx req :: snd R).
Proof.
  simpl. destruct (diagnostics.DiagsHasErrors _); [reflexivity|].
  destruct (runPlanModifiers (S idx) ms _ _). reflexivity.
Qed.

(** Running [pre ++ post] is running [pre] and then, unless that left an
    error, [post] on the plan value [pre] produced. *)
Lemma runPlanModifiers_app idx (pre post : AttributePlanModifiers) req resp :
  pre <> [] ->
  runPlanModifiers idx (pre ++ post) req resp
  = let R := runPlanModifiers idx pre req resp in
    if diagnostics.DiagsHasErrors (ModifyAttributePlanResponse.Diagnostics (fst R))
    then R
    else
      let R' :=
        runPlanModifiers (idx + length pre) post
          (setAttributePlan (ModifyAttributePlanResponse.AttributePlan (fst R)) req)
          (fst R) in
      (fst R', snd R ++ snd R').
Proof.
  revert idx req resp. induction pre as [|m pre IH]; intros idx req resp Hne; [congruence|].
  rewrite <- app_comm_cons, !runPlanModifiers_cons. cbv zeta.
  set (r1 := Modify m req resp).
  destruct (diagnostics.DiagsHasErrors (ModifyAttributePlanResponse.Diagnostics r1)) eqn:He.
  - simpl. rewrite He. reflexivity.
  - destruct pre as [|m' pre'].
    + simpl. rewrite He. replace (idx + 1) with (S idx) by lia. reflexivity.
    + rewrite IH by discriminate. cbv zeta.
      set (R := runPlanModifiers (S idx) (m' :: pre') _ r1).
      cbn [fst snd].
      destruct (diagnostics.DiagsHasErrors
                  (ModifyAttributePlanResponse.Diagnostics (fst R))); [reflexivity|].
      replace (idx + length (m :: m' :: pre')) with (S idx + length (m' :: pre'))
        by (simpl; lia).
      reflexivity.
Qed.

Lemma modifyPlan_resolved (a : Attribute AttrType) req resp cfg st pl dc ds dp :
  GetAttribute (ModifyAttributePlanRequest.Config req)
    (ModifyAttributePlanRequest.AttributePath req) = (cfg, dc) ->
  diagnostics.DiagsHasErrors dc = false ->
  GetAttribute (ModifyAttributePlanRequest.State req)
    (ModifyAttributePlanRequest.AttributePath req) = (st, ds) ->
  diagnostics.DiagsHasErrors ds = false ->
  GetAttribute (ModifyAttributePlanRequest.Plan req)
    (ModifyAttributePlanRequest.AttributePath req) = (pl, dp) ->
  diagnostics.DiagsHasErrors dp = false ->
  modifyPlan a req resp
  = (fst (runPlanModifiers 0 (PlanModifiers a) (modifyRequest req cfg st pl)
            (resolvedResponse resp dc ds dp)),
     resolutionLog (ModifyAttributePlanRequest.AttributePath req)
       ++ snd (runPlanModifiers 0 (PlanModifiers a) (modifyRequest req cfg st pl)
                 (resolvedResponse resp dc ds dp))).
Proof.
  intros Hc Hdc Hs Hds Hp Hdp. unfold modifyPlan.
  rewrite Hc, Hdc, Hs, Hds, Hp, Hdp.
  unfold resolvedResponse, resolutionLog.
  destruct (runPlanModifiers 0 (PlanModifiers a) _ _) as [r l]. reflexivity.
Qed.

(** C1, as the code has it: [modifyPlan] stays at the attribute it is called
    on.  Every call it makes is at the path of the request, and its outcome
    is the same whatever the nested attributes are: no child is entered and
    no plan value is threaded through children. *)
Theorem modifyPlan_stays_at_its_path (a : Attribute AttrType) req resp :
  Forall (fun e => eventPath e = ModifyAttributePlanRequest.AttributePath req)
         (snd (modifyPlan a req resp))
  /\ forall attributes, modifyPlan (withAttributes attributes a) req resp = modifyPlan a req resp.
Proof.
  split; [|reflexivity].
  unfold modifyPlan.
  destruct (GetAttribute (ModifyAttributePlanRequest.Config req) _) as [cfg dc].
  destruct (diagnostics.DiagsHasErrors dc); [repeat constructor|].
  destruct (GetAttribute (ModifyAttributePlanRequest.State req) _) as [st ds].
  destruct (diagnostics.DiagsHasErrors ds); [repeat constructor|].
  destruct (GetAttribute (ModifyAttributePlanRequest.Plan req) _) as [pl dp].
  destruct (diagnostics.DiagsHasErrors dp); [repeat constructor|].
  pose proof (runPlanModifiers_paths 0 (PlanModifiers a) (modifyRequest req cfg st pl)
                (appendPlanDiagnostics
                   (appendPlanDiagnostics (appendPlanDiagnostics resp dc) ds) dp)) as Hp.
  destruct (runPlanModifiers 0 (PlanModifiers a) _ _) as [r l]. simpl in *.
  repeat (constructor; [reflexivity|]). exact Hp.
Qed.

(** The pipeline, split at any of its plan modifiers. *)
Lemma pipeline_split (a : Attribute AttrType) req resp cfg st pl dc ds dp pre m post :
  GetAttribute (ModifyAttributePlanRequest.Config req)
    (ModifyAttributePlanRequest.AttributePath req) = (cfg, dc) ->
  diagnostics.DiagsHasErrors dc = false ->
  GetAttribute (ModifyAttributePlanRequest.State req)
    (ModifyAttributePlanRequest.AttributePath req) = (st, ds) ->
  diagnostics.DiagsHasErrors ds = false ->
  GetAttribute (ModifyAttributePlanRequest.Plan req)
    (ModifyAttributePlanRequest.AttributePath req) = (pl, dp) ->
  diagnostics.DiagsHasErrors dp = false ->
  PlanModifiers a = pre ++ m :: post ->
  let before := modifyPlan (withPlanModifiers pre a) req resp in
  let input :=
    match pre with
    | [] => modifyRequest req cfg st pl
    | _ :: _ =>
        setAttributePlan (ModifyAttributePlanResponse.AttributePlan (fst before))
          (modifyRequest req cfg st pl)
    end in
  let after :=
    (Modify m input (fst before), snd before ++ [RunPlanModifier (length pre) input]) in
  (pre <> [] ->
   diagnostics.DiagsHasErrors (ModifyAttributePlanResponse.Diagnostics (fst before)) = true ->
   modifyPlan a req resp = before)
  /\ (pre = [] \/
      diagnostics.DiagsHasErrors (ModifyAttributePlanResponse.Diagnostics (fst before)) = false ->
      modifyPlan (withPlanModifiers (pre ++ [m]) a) req resp = after
      /\ (diagnostics.DiagsHasErrors (ModifyAttributePlanResponse.Diagnostics (fst after)) = true ->
          modifyPlan a req resp = after)
      /\ (post = [] -> modifyPlan a req resp = after)).
Proof.
  intros Hc Hdc Hs Hds Hp Hdp Hms before input after.
  assert (Hbefore : before
            = (fst (runPlanModifiers 0 pre (modifyRequest req cfg st pl)
                      (resolvedResponse resp dc ds dp)),
               resolutionLog (ModifyAttributePlanRequest.AttributePath req)
                 ++ snd (runPlanModifiers 0 pre (modifyRequest req cfg st pl)
                           (resolvedResponse resp dc ds dp))))
    by (subst before; now apply modifyPlan_resolved).
  rewrite (modifyPlan_resolved a req resp cfg st pl dc ds dp Hc Hdc Hs Hds Hp Hdp).
  rewrite (modifyPlan_resolved (withPlanModifiers (pre ++ [m]) a) req resp
             cfg st pl dc ds dp Hc Hdc Hs Hds Hp Hdp).
  rewrite Hms. cbn [withPlanModifiers PlanModifiers].
  subst after input. rewrite Hbefore. cbn [fst snd].
  set (req0 := modifyRequest req cfg st pl) in *.
  set (resp0 := resolvedResponse resp dc ds dp) in *.
  destruct pre as [|m0 pre0].
  - (* [m] is the first modifier *)
    split; [congruence|]. intros _.
    cbn [app length]. rewrite !runPlanModifiers_cons. cbv zeta.
    cbn [runPlanModifiers fst snd]. rewrite app_nil_r.
    destruct (diagnostics.DiagsHasErrors
                (ModifyAttributePlanResponse.Diagnostics (Modify m req0 resp0))) eqn:He.
    + split; [reflexivity|]. split; intros _; reflexivity.
    + split; [reflexivity|]. split.
      * intros Habs. cbn [fst] in Habs. congruence.
      * intros ->. cbn [runPlanModifiers fst snd]. reflexivity.
  - set (R := runPlanModifiers 0 (m0 :: pre0) req0 resp0).
    split.
    + intros _ Herr.
      rewrite (runPlanModifiers_app 0 (m0 :: pre0) (m :: post)) by discriminate.
      cbv zeta. fold R. rewrite Herr. reflexivity.
    + intros [Habs|Hok]; [discriminate|].
      rewrite (runPlanModifiers_app 0 (m0 :: pre0) [m]) by discriminate.
      rewrite (runPlanModifiers_app 0 (m0 :: pre0) (m :: post)) by discriminate.
      cbv zeta. fold R. rewrite Hok.
      rewrite !runPlanModifiers_cons. cbv zeta. cbn [Nat.add].
      set (input := setAttributePlan (ModifyAttributePlanResponse.AttributePlan (fst R)) req0).
      cbn [runPlanModifiers fst snd].
      destruct (diagnostics.DiagsHasErrors
                  (ModifyAttributePlanResponse.Diagnostics (Modify m input (fst R)))) eqn:He;
        cbn [fst snd]; rewrite <- !app_assoc.
      * split; [reflexivity|]. split; intros _; reflexivity.
      * split; [reflexivity|]. split; [intros Habs; congruence|].
        intros ->. cbn [runPlanModifiers fst snd]. reflexivity.
Qed.

(** C2: when the three values resolve without error, [modifyPlan] is a
    strict pipeline over [a.PlanModifiers].  Without plan modifiers it
    returns the response with the diagnostics of the three resolutions
    appended.  Split the sequence at any modifier [m], [pre ++ m :: post],
    and let [before] be the outcome of the modifiers [pre] alone.  If [pre]
    is not empty and the response it left holds an error, whoever reported
    it, that is the outcome of the whole call: [m] and [post] do not run.
    Otherwise [m] is the next call, number [length pre], on the response
    [pre] left and on the request of the caller with the resolved config and
    state values and with the plan value [pre] produced (the resolved plan
    value when [m] is the first); if the response [m] returns holds an
    error, the outcome of the whole call is that response, whatever [post]
    is; and so it is when [m] is the last modifier. *)
Theorem modifyPlan_pipeline (a : Attribute AttrType) req resp cfg st pl dc ds dp pre m post :
  GetAttribute (ModifyAttributePlanRequest.Config req)
    (ModifyAttributePlanRequest.AttributePath req) = (cfg, dc) ->
  diagnostics.DiagsHasErrors dc = false ->
  GetAttribute (ModifyAttributePlanRequest.State req)
    (ModifyAttributePlanRequest.AttributePath req) = (st, ds) ->
  diagnostics.DiagsHasErrors ds = false ->
  GetAttribute (ModifyAttributePlanRequest.Plan req)
    (ModifyAttributePlanRequest.AttributePath req) = (pl, dp) ->
  diagnostics.DiagsHasErrors dp = false ->
  PlanModifiers a = pre ++ m :: post ->
  let path := ModifyAttributePlanRequest.AttributePath req in
  let before := modifyPlan (withPlanModifiers pre a) req resp in
  let input :=
    ModifyAttributePlanRequest.mk path
      (ModifyAttributePlanRequest.Config req)
      (ModifyAttributePlanRequest.State req)
      (ModifyAttributePlanRequest.Plan req)
      cfg st
      match pre with
      | [] => pl
      | _ :: _ => ModifyAttributePlanResponse.AttributePlan (fst before)
      end
      (ModifyAttributePlanRequest.ProviderMeta req) in
  let after :=
    (Modify m input (fst before), snd before ++ [RunPlanModifier (length pre) input]) in
  (pre = [] ->
   before
   = (ModifyAttributePlanResponse.mk (ModifyAttributePlanResponse.AttributePlan resp)
        (ModifyAttributePlanResponse.Diagnostics resp ++ dc ++ ds ++ dp),
      [Enter path; Resolve FromConfig path; Resolve FromState path; Resolve FromPlan path]))
  /\ (pre <> [] ->
      diagnostics.DiagsHasErrors (ModifyAttributePlanResponse.Diagnostics (fst before)) = true ->
      modifyPlan a req resp = before)
  /\ (pre = [] \/
      diagnostics.DiagsHasErrors (ModifyAttributePlanResponse.Diagnostics (fst before)) = false ->
      modifyPlan (withPlanModifiers (pre ++ [m]) a) req resp = after
      /\ (diagnostics.DiagsHasErrors (ModifyAttributePlanResponse.Diagnostics (fst after)) = true ->
          modifyPlan a req resp = after)
      /\ (post = [] -> modifyPlan a req resp = after)).
Proof.
  intros Hc Hdc Hs Hds Hp Hdp Hms path before input after.
  pose proof (pipeline_split a req resp cfg st pl dc ds dp pre m post
                Hc Hdc Hs Hds Hp Hdp Hms) as Hsplit.
  cbv zeta in Hsplit. split.
  - intros ->. subst before.
    rewrite (modifyPlan_resolved (withPlanModifiers [] a) req resp cfg st pl dc ds dp
               Hc Hdc Hs Hds Hp Hdp).
    cbn [withPlanModifiers PlanModifiers runPlanModifiers fst snd].
    unfold resolvedResponse, appendPlanDiagnostics, resolutionLog.
    cbn [ModifyAttributePlanResponse.AttributePlan ModifyAttributePlanResponse.Diagnostics].
    now rewrite <- !app_assoc, app_nil_r.
  - destruct pre as [|m0 pre0]; exact Hsplit.
Qed.

(** *** Conversion to the wire schema *)

Section ConvertNested.
Variable rec : Attribute AttrType -> string -> tftypes.AttributePath -> SchemaResult.
Variable path : tftypes.AttributePath.

Lemma convertNested_all_ok (attrs : list (string * Attribute AttrType)) acc :
  Forall (fun kv => snd (childResult rec path kv) = None) attrs ->
  convertNested rec path attrs acc
  = (acc ++ map (fun kv => fst (childResult rec path kv)) attrs, None).
Proof.
  revert acc. induction attrs as [|[n c] attrs IH]; intros acc Hall; simpl.
  - now rewrite app_nil_r.
  - inversion Hall as [|? ? Hc Hrest]; subst. unfold childResult in Hc. simpl in Hc.
    unfold childResult at 1. simpl.
    destruct (rec c n (tftypes.WithAttributeName path n)) as [s e]. simpl in *. subst e.
    rewrite IH by assumption. now rewrite <- app_assoc.
Qed.

Lemma convertNested_first_error (pre post : list (string * Attribute AttrType)) kv e acc :
  Forall (fun kv => snd (childResult rec path kv) = None) pre ->
  snd (childResult rec path kv) = Some e ->
  snd (convertNested rec path (pre ++ kv :: post) acc) = Some e.
Proof.
  revert acc. induction pre as [|[n c] pre IH]; intros acc Hall He; simpl.
  - destruct kv as [n c]. unfold childResult in He. simpl in He.
    destruct (rec c n (tftypes.WithAttributeName path n)) as [s e']. simpl in *.
    subst e'. reflexivity.
  - inversion Hall as [|? ? Hc Hrest]; subst. unfold childResult in Hc. simpl in Hc.
    destruct (rec c n (tftypes.WithAttributeName path n)) as [s e']. simpl in *. subst e'.
    now apply IH.
Qed.

(** The loop ends without error when every child converts, and otherwise
    with the error of the first child that does not. *)
Lemma convertNested_cases (attrs : list (string * Attribute AttrType)) acc :
  Forall (fun kv => snd (childResult rec path kv) = None) attrs
  \/ exists pre kv post e,
       attrs = pre ++ kv :: post
       /\ Forall (fun kv => snd (childResult rec path kv) = None) pre
       /\ snd (childResult rec path kv) = Some e
       /\ snd (convertNested rec path attrs acc) = Some e.
Proof.
  induction attrs as [|kv attrs IH].
  - left. constructor.
  - destruct (snd (childResult rec path kv)) as [e|] eqn:He.
    + right. exists [], kv, attrs, e. repeat split; try constructor; try assumption.
      now apply (convertNested_first_error [] attrs kv e acc); [constructor|].
    + destruct IH as [Hall|(pre & kv' & post & e & -> & Hpre & Hkv & _)].
      * left. now constructor.
      * right. exists (kv :: pre), kv', post, e. repeat split; try assumption.
        -- now constructor.
        -- apply (convertNested_first_error (kv :: pre) post kv' e acc); [now constructor|assumption].
Qed.

End ConvertNested.

Lemma isNil_true {A : Type} (x : option A) : isNil x = true <-> x = None.
Proof. destruct x; simpl; split; congruence. Qed.

(** A valid leaf, or a valid branch with its nested attributes and the wire
    value of its nesting mode. *)
Lemma valid_shape (a : Attribute AttrType) :
  structurallyInvalid a = false ->
  (exists ty, Type_ a = Some ty /\ attributesSet a = false)
  \/ (exists na nesting,
        Type_ a = None /\ Attributes a = Some na
        /\ wireNestingMode (GetNestingMode na) = Some nesting
        /\ attributesSet a = true).
Proof.
  unfold structurallyInvalid, bothOrNeither, unrecognizedBranch.
  rewrite attributesUnset_negb. unfold attributesSet.
  destruct (Type_ a) as [ty|]; simpl.
  - rewrite andb_true_r, andb_false_r, !orb_false_r. intros Hs.
    left. exists ty. split; [reflexivity|exact Hs].
  - rewrite andb_false_r, andb_true_r. simpl.
    destruct (Attributes a) as [na|]; simpl; [|discriminate].
    destruct (Nat.ltb 0 (length (GetAttributes na))); simpl; [|discriminate].
    destruct (wireNestingMode (GetNestingMode na)) as [nesting|] eqn:Hw; simpl; [|discriminate].
    intros _. right. exists na, nesting. repeat split; assumption.
Qed.

Lemma convert_leaf (a : Attribute AttrType) name path ty :
  Type_ a = Some ty -> attributesSet a = false ->
  tfprotov6SchemaAttribute a name path
  = (Some (tfprotov6.setType (Some (attr.TerraformType ty)) (schemaAttributeHeader a name)),
     None).
Proof.
  intros Hty Hset. rewrite tfprotov6SchemaAttribute_unfold.
  unfold tfprotov6SchemaAttribute_body. rewrite Hty, Hset. simpl.
  now rewrite andb_false_r.
Qed.

Lemma convert_branch (a : Attribute AttrType) name path na nesting :
  Type_ a = None -> Attributes a = Some na ->
  wireNestingMode (GetNestingMode na) = Some nesting ->
  attributesSet a = true ->
  tfprotov6SchemaAttribute a name path
  = match snd (convertNested tfprotov6SchemaAttribute path (GetAttributes na) []) with
    | Some e => (None, Some e)
    | None =>
        (Some (tfprotov6.setNestedType
                 (Some (tfprotov6.mkSchemaObject
                          (sort.Slice lessByName
                             (fst (convertNested tfprotov6SchemaAttribute path
                                     (GetAttributes na) [])))
                          nesting (GetMinItems na) (GetMaxItems na)))
                 (schemaAttributeHeader a name)),
         None)
    end.
Proof.
  intros Hty Hna Hw Hset. rewrite tfprotov6SchemaAttribute_unfold.
  unfold tfprotov6SchemaAttribute_body.
  rewrite attributesUnset_negb, Hty, Hset, Hna, Hw. simpl.
  destruct (convertNested tfprotov6SchemaAttribute path (GetAttributes na) [])
    as [children [e|]]; reflexivity.
Qed.

(** The function returns a schema or an error, never both and never
    neither. *)
Lemma convert_dichotomy (a : Attribute AttrType) name path :
  (exists s, tfprotov6SchemaAttribute a name path = (Some s, None))
  \/ (exists e, tfprotov6SchemaAttribute a name path = (None, Some e)).
Proof.
  destruct (structurallyInvalid a) eqn:Hinv.
  - right. rewrite tfprotov6SchemaAttribute_unfold. unfold tfprotov6SchemaAttribute_body.
    unfold structurallyInvalid, bothOrNeither, unrecognizedBranch in Hinv.
    destruct (attributesSet a && notNil (Type_ a)); [eexists; reflexivity|].
    destruct (attributesUnset a && isNil (Type_ a)); [eexists; reflexivity|].
    simpl in Hinv.
    destruct (Type_ a); [discriminate|].
    destruct (Attributes a) as [na|]; [|discriminate]. simpl in Hinv.
    apply andb_prop in Hinv as [_ Hw]. apply isNil_true in Hw. rewrite Hw.
    eexists; reflexivity.
  - destruct (valid_shape a Hinv) as [(ty & Hty & Hset)|(na & nesting & Hty & Hna & Hw & Hset)].
    + left. rewrite (convert_leaf a name path ty Hty Hset). eexists; reflexivity.
    + rewrite (convert_branch a name path na nesting Hty Hna Hw Hset).
      destruct (snd (convertNested _ _ _ _)); [right|left]; eexists; reflexivity.
Qed.

Lemma convert_error_iff (a : Attribute AttrType) name path :
  isNil (fst (tfprotov6SchemaAttribute a name path))
  = notNil (snd (tfprotov6SchemaAttribute a name path)).
Proof.
  destruct (convert_dichotomy a name path) as [[s ->]|[e ->]]; reflexivity.
Qed.

Lemma convert_both (a : Attribute AttrType) name path :
  attributesSet a && notNil (Type_ a) = true ->
  tfprotov6SchemaAttribute a name path
  = (None, Some (tftypes.NewErrorf path "can't have both Attributes and Type set")).
Proof.
  intros Hb. rewrite tfprotov6SchemaAttribute_unfold.
  unfold tfprotov6SchemaAttribute_body. now rewrite Hb.
Qed.

Lemma convert_neither (a : Attribute AttrType) name path :
  attributesUnset a && isNil (Type_ a) = true ->
  tfprotov6SchemaAttribute a name path
  = (None, Some (tftypes.NewErrorf path "must have Attributes or Type set")).
Proof.
  intros Hn. rewrite tfprotov6SchemaAttribute_unfold.
  unfold tfprotov6SchemaAttribute_body. rewrite Hn.
  destruct (attributesSet a && notNil (Type_ a)) eqn:Hb; [|reflexivity].
  apply andb_prop in Hb as [_ Hb]. apply andb_prop in Hn as [_ Hn].
  unfold notNil in Hb. rewrite Hn in Hb. discriminate.
Qed.

Lemma convert_unrecognized (a : Attribute AttrType) name path :
  unrecognizedBranch a = true ->
  exists na,
    Attributes a = Some na
    /\ wireNestingMode (GetNestingMode na) = None
    /\ tfprotov6SchemaAttribute a name path
       = (None, Some (tftypes.NewErrorf path
                        ("unrecognized nesting mode " ++ fmt_v_NestingMode (GetNestingMode na))%string)).
Proof.
  unfold unrecognizedBranch. intros Hu.
  apply andb_prop in Hu as [Hty Hu]. apply isNil_true in Hty.
  destruct (Attributes a) as [na|] eqn:Hna; [|discriminate].
  apply andb_prop in Hu as [Hlen Hw]. apply isNil_true in Hw.
  exists na. split; [reflexivity|]. split; [exact Hw|].
  rewrite tfprotov6SchemaAttribute_unfold. unfold tfprotov6SchemaAttribute_body.
  rewrite attributesUnset_negb. unfold attributesSet. rewrite Hty, Hna, Hlen, Hw.
  reflexivity.
Qed.

Lemma convert_invalid_node (a : Attribute AttrType) name path :
  structurallyInvalid a = true ->
  exists e, tfprotov6SchemaAttribute a name path = (None, Some e)
            /\ tftypes.Path e = path.
Proof.
  unfold structurallyInvalid, bothOrNeither. intros Hinv.
  apply orb_prop in Hinv as [Hinv|Hu].
  - apply orb_prop in Hinv as [Hb|Hn].
    + rewrite (convert_both a name path Hb). eexists; split; reflexivity.
    + rewrite (convert_neither a name path Hn). eexists; split; reflexivity.
  - destruct (convert_unrecognized a name path Hu) as (na & _ & _ & ->).
    eexists; split; reflexivity.
Qed.

(** For a valid attribute, the error is that of the first failing child. *)
Lemma convert_child_error (a : Attribute AttrType) name path e :
  structurallyInvalid a = false ->
  snd (tfprotov6SchemaAttribute a name path) = Some e <-> firstChildError a path e.
Proof.
  intros Hv.
  destruct (valid_shape a Hv) as [(ty & Hty & Hset)|(na & nesting & Hty & Hna & Hw & Hset)].
  - rewrite (convert_leaf a name path ty Hty Hset). simpl. split; [discriminate|].
    intros (na & pre & kv & post & Hna & Hcs & _).
    unfold attributesSet in Hset. rewrite Hna, Hcs, length_app in Hset.
    simpl in Hset. apply Nat.ltb_ge in Hset. lia.
  - rewrite (convert_branch a name path na nesting Hty Hna Hw Hset).
    destruct (convertNested_cases tfprotov6SchemaAttribute path (GetAttributes na) [])
      as [Hall|(pre & kv & post & e' & Hcs & Hpre & Hkv & Herr)].
    + rewrite (convertNested_all_ok _ _ _ _ Hall). simpl. split; [discriminate|].
      intros (na' & pre & kv & post & Hna' & Hcs & _ & Hkv).
      rewrite Hna in Hna'. injection Hna' as <-.
      rewrite Hcs in Hall. apply Forall_app in Hall as [_ Hall].
      inversion Hall as [|? ? Hk _]; subst. congruence.
    + rewrite Herr. simpl. split.
      * intros [= <-]. exists na, pre, kv, post. repeat split; assumption.
      * intros (na' & pre' & kv' & post' & Hna' & Hcs' & Hpre' & Hkv').
        rewrite Hna in Hna'. injection Hna' as <-.
        pose proof (convertNested_first_error tfprotov6SchemaAttribute path
                      pre' post' kv' e [] Hpre' Hkv') as Herr'.
        rewrite <- Hcs', Herr in Herr'. exact Herr'.
Qed.

(** The conversion fails exactly on the trees that hold a structurally
    invalid attribute. *)
Lemma convert_fails_iff_invalidTree (a : Attribute AttrType) :
  forall name path,
    isNil (fst (tfprotov6SchemaAttribute a name path)) = invalidTree a.
Proof.
  induction a as [a IH] using Attribute_tree_ind. intros name path.
  rewrite invalidTree_unfold. unfold invalidTree_body.
  destruct (structurallyInvalid a) eqn:Hinv.
  - destruct (convert_invalid_node a name path Hinv) as (e & -> & _). reflexivity.
  - simpl.
    destruct (valid_shape a Hinv) as [(ty & Hty & Hset)|(na & nesting & Hty & Hna & Hw & Hset)].
    + rewrite (convert_leaf a name path ty Hty Hset). simpl.
      unfold attributesSet in Hset.
      destruct (Attributes a) as [na|]; [|reflexivity].
      destruct (GetAttributes na); [reflexivity|discriminate].
    + rewrite convert_error_iff.
      assert (Hchild : forall kv, In kv (GetAttributes na) ->
                invalidTree (snd kv)
                = notNil (snd (childResult tfprotov6SchemaAttribute path kv))).
      { intros kv Hin. specialize (IH na Hna). rewrite Forall_forall in IH.
        rewrite <- (IH kv Hin (fst kv) (tftypes.WithAttributeName path (fst kv))).
        apply convert_error_iff. }
      rewrite Hna.
      destruct (snd (tfprotov6SchemaAttribute a name path)) as [e|] eqn:He.
      * apply (convert_child_error a name path e Hinv) in He.
        destruct He as (na' & pre & kv & post & Hna' & Hcs & _ & Hkv).
        rewrite Hna in Hna'. injection Hna' as <-.
        simpl. symmetry. apply existsb_exists. exists kv. split.
        -- rewrite Hcs. apply in_or_app. right. now left.
        -- rewrite Hchild by (rewrite Hcs; apply in_or_app; right; now left).
           now rewrite Hkv.
      * simpl. symmetry. apply not_true_is_false. intros Hex.
        apply existsb_exists in Hex as (kv & Hin & Hkv).
        rewrite (Hchild kv Hin) in Hkv.
        destruct (snd (childResult tfprotov6SchemaAttribute path kv)) as [e|] eqn:Hk;
          [|discriminate].
        apply in_split in Hin as (l1 & l2 & Hcs).
        destruct (convertNested_cases tfprotov6SchemaAttribute path l1 [])
          as [Hall|(pre & kv' & post & e' & Hl1 & Hpre & Hkv' & _)].
        -- assert (Hf : firstChildError a path e)
             by (exists na, l1, kv, l2; repeat split; assumption).
           apply (convert_child_error a name path e Hinv) in Hf. congruence.
        -- assert (Hf : firstChildError a path e').
           { exists na, pre, kv', (post ++ kv :: l2). repeat split; try assumption.
             rewrite Hcs, Hl1, <- app_assoc. reflexivity. }
           apply (convert_child_error a name path e' Hinv) in Hf. congruence.
Qed.

(** C5: [tfprotov6SchemaAttribute] returns a schema and no error, or an
    error and no schema; it returns an error exactly when the tree holds a
    structurally invalid attribute.  For the attribute itself the error
    carries the path and states the condition: both a type and nested
    attributes, neither of them, or an unrecognized nesting mode.  For a
    valid attribute the error is the one of the first child whose conversion
    fails. *)
Theorem tfprotov6SchemaAttribute_errors (a : Attribute AttrType) name path :
  let r := tfprotov6SchemaAttribute a name path in
  ((exists s, r = (Some s, None)) \/ (exists e, r = (None, Some e)))
  /\ notNil (snd r) = invalidTree a
  /\ (attributesSet a && notNil (Type_ a) = true ->
      r = (None, Some (tftypes.mkAttributePathError path
                         "can't have both Attributes and Type set")))
  /\ (attributesUnset a && isNil (Type_ a) = true ->
      r = (None, Some (tftypes.mkAttributePathError path
                         "must have Attributes or Type set")))
  /\ (unrecognizedBranch a = true ->
      exists na,
        Attributes a = Some na
        /\ r = (None, Some (tftypes.mkAttributePathError path
                              ("unrecognized nesting mode "
                                 ++ fmt_v_NestingMode (GetNestingMode na))%string)))
  /\ (structurallyInvalid a = false ->
      forall e, snd r = Some e <-> firstChildError a path e).
Proof.
  cbv zeta. repeat split.
  - apply convert_dichotomy.
  - rewrite <- convert_error_iff. apply convert_fails_iff_invalidTree.
  - apply convert_both.
  - apply convert_neither.
  - intros Hu. destruct (convert_unrecognized a name path Hu) as (na & Hna & _ & Hr).
    exists na. split; assumption.
  - now apply convert_child_error.
  - now apply convert_child_error.
Qed.

(** A schema that is returned is the header of the attribute, with either a
    type or a nested object filled in. *)
Lemma convert_success_header (a : Attribute AttrType) name path s :
  tfprotov6SchemaAttribute a name path = (Some s, None) ->
  tfprotov6.setType None (tfprotov6.setNestedType None s) = schemaAttributeHeader a name.
Proof.
  intros Hs.
  assert (Hhead : tfprotov6.Type_ (schemaAttributeHeader a name) = None
                  /\ tfprotov6.NestedType (schemaAttributeHeader a name) = None).
  { unfold schemaAttributeHeader.
    destruct (negb (DeprecationMessage a =? "")), (negb (Description a =? "")),
      (negb (MarkdownDescription a =? "")); split; reflexivity. }
  destruct Hhead as [Ht Hn].
  destruct (structurallyInvalid a) eqn:Hinv.
  - destruct (convert_invalid_node a name path Hinv) as (e & He & _). congruence.
  - destruct (valid_shape a Hinv) as [(ty & Hty & Hset)|(na & nesting & Hty & Hna & Hw & Hset)].
    + rewrite (convert_leaf a name path ty Hty Hset) in Hs. injection Hs as <-.
      destruct (schemaAttributeHeader a name). simpl in *. now subst.
    + rewrite (convert_branch a name path na nesting Hty Hna Hw Hset) in Hs.
      destruct (snd (convertNested _ _ _ _)); [discriminate|]. injection Hs as <-.
      destruct (schemaAttributeHeader a name). simpl in *. now subst.
Qed.

Lemma convert_success_name (a : Attribute AttrType) name path s :
  tfprotov6SchemaAttribute a name path = (Some s, None) -> tfprotov6.Name s = name.
Proof.
  intros Hs. apply convert_success_header in Hs.
  apply (f_equal tfprotov6.Name) in Hs. simpl in Hs. rewrite Hs.
  unfold schemaAttributeHeader.
  destruct (negb (DeprecationMessage a =? "")), (negb (Description a =? "")),
    (negb (MarkdownDescription a =? "")); reflexivity.
Qed.

(** C8: in the wire schema that is emitted, the description is the markdown
    description, tagged markdown, whenever the attribute has one, also when
    it has a plain description as well, which is then ignored; it is the
    plain description, tagged plain, when that is the only one set. *)
Theorem tfprotov6SchemaAttribute_description (a : Attribute AttrType) name path s :
  tfprotov6SchemaAttribute a name path = (Some s, None) ->
  (MarkdownDescription a <> EmptyString -> Description a <> EmptyString ->
   tfprotov6.Description s = MarkdownDescription a
   /\ tfprotov6.DescriptionKind s = tfprotov6.StringKindMarkdown)
  /\ (MarkdownDescription a <> EmptyString -> Description a = EmptyString ->
      tfprotov6.Description s = MarkdownDescription a
      /\ tfprotov6.DescriptionKind s = tfprotov6.StringKindMarkdown)
  /\ (MarkdownDescription a = EmptyString -> Description a <> EmptyString ->
      tfprotov6.Description s = Description a
      /\ tfprotov6.DescriptionKind s = tfprotov6.StringKindPlain).
Proof.
  intros Hs. apply convert_success_header in Hs.
  assert (Hd : tfprotov6.Description s
               = tfprotov6.Description (schemaAttributeHeader a name))
    by (rewrite <- Hs; reflexivity).
  assert (Hk : tfprotov6.DescriptionKind s
               = tfprotov6.DescriptionKind (schemaAttributeHeader a name))
    by (rewrite <- Hs; reflexivity).
  rewrite Hd, Hk. unfold schemaAttributeHeader.
  split; [|split]; intros Hm Hp.
  - apply String.eqb_neq in Hm. rewrite Hm. simpl. split; reflexivity.
  - apply String.eqb_neq in Hm. rewrite Hm. simpl. split; reflexivity.
  - apply String.eqb_neq in Hp. rewrite Hm, Hp. simpl. split; reflexivity.
Qed.

(** *** The order on names and the sorted list of children *)

Lemma ascii_compare_refl (c : ascii) : Ascii.compare c c = Eq.
Proof. unfold Ascii.compare. apply N.compare_refl. Qed.

Lemma ascii_compare_lt_trans (a b c : ascii) :
  Ascii.compare a b = Lt -> Ascii.compare b c = Lt -> Ascii.compare a c = Lt.
Proof.
  unfold Ascii.compare. rewrite !N.compare_lt_iff. apply N.lt_trans.
Qed.

Lemma string_compare_refl (s : string) : String.compare s s = Eq.
Proof. induction s as [|c s IH]; simpl; [reflexivity|]. now rewrite ascii_compare_refl. Qed.

Lemma string_compare_lt_trans (s1 s2 s3 : string) :
  String.compare s1 s2 = Lt -> String.compare s2 s3 = Lt -> String.compare s1 s3 = Lt.
Proof.
  revert s2 s3. induction s1 as [|c1 s1 IH]; intros [|c2 s2] [|c3 s3]; simpl;
    try congruence.
  destruct (Ascii.compare c1 c2) eqn:H12; try discriminate;
    destruct (Ascii.compare c2 c3) eqn:H23; try discriminate; intros Ha Hb.
  - apply Ascii.compare_eq_iff in H12, H23. subst.
    rewrite ascii_compare_refl. now apply (IH s2).
  - apply Ascii.compare_eq_iff in H12. subst. now rewrite H23.
  - apply Ascii.compare_eq_iff in H23. subst. now rewrite H12.
  - now rewrite (ascii_compare_lt_trans _ _ _ H12 H23).
Qed.

Lemma ltb_irrefl (s : string) : String.ltb s s = false.
Proof. unfold String.ltb. now rewrite string_compare_refl. Qed.

Lemma ltb_trans (s1 s2 s3 : string) :
  String.ltb s1 s2 = true -> String.ltb s2 s3 = true -> String.ltb s1 s3 = true.
Proof.
  unfold String.ltb.
  destruct (String.compare s1 s2) eqn:H12; try discriminate.
  destruct (String.compare s2 s3) eqn:H23; try discriminate.
  now rewrite (string_compare_lt_trans _ _ _ H12 H23).
Qed.

Lemma ltb_total (s1 s2 : string) :
  s1 <> s2 -> String.ltb s1 s2 = false -> String.ltb s2 s1 = true.
Proof.
  unfold String.ltb. intros Hne. rewrite (String.compare_antisym s2 s1).
  destruct (String.compare s1 s2) eqn:Hc; try discriminate; simpl; [|reflexivity].
  apply String.compare_eq_iff in Hc. contradiction.
Qed.

Lemma ltb_false_trans (s1 s2 s3 : string) :
  String.ltb s2 s1 = false -> String.ltb s3 s2 = false -> String.ltb s3 s1 = false.
Proof.
  intros H21 H32. apply not_true_is_false. intros H31.
  destruct (string_dec s1 s2) as [->|Hne12]; [congruence|].
  destruct (string_dec s2 s3) as [->|Hne23]; [congruence|].
  pose proof (ltb_total s2 s1 (not_eq_sym Hne12) H21) as H12.
  pose proof (ltb_total s3 s2 (not_eq_sym Hne23) H32) as H23.
  pose proof (ltb_trans _ _ _ (ltb_trans _ _ _ H12 H23) H31) as Habs.
  rewrite ltb_irrefl in Habs. discriminate.
Qed.

Lemma ltb_asym (s1 s2 : string) : String.ltb s1 s2 = true -> String.ltb s2 s1 = false.
Proof.
  intros H12. apply not_true_is_false. intros H21.
  pose proof (ltb_trans _ _ _ H12 H21) as Habs. rewrite ltb_irrefl in Habs. discriminate.
Qed.

Lemma sortedByName_cons_inv x l :
  sortedByName (x :: l) ->
  sortedByName l /\ Forall (fun y => String.ltb (tfprotov6.Name x) (tfprotov6.Name y) = true) l.
Proof. intros Hs. inversion Hs; subst. split; assumption. Qed.

(** Two lists sorted by name that hold the same entries are the same
    list. *)
Lemma sorted_permutation_unique (l1 l2 : list tfprotov6.SchemaAttribute) :
  sortedByName l1 -> sortedByName l2 -> Permutation l1 l2 -> l1 = l2.
Proof.
  revert l2. induction l1 as [|x l1 IH]; intros l2 Hs1 Hs2 Hp.
  - apply Permutation_nil in Hp. now subst.
  - destruct l2 as [|y l2]; [apply Permutation_sym, Permutation_nil in Hp; discriminate|].
    apply sortedByName_cons_inv in Hs1 as [Hs1 Hx].
    apply sortedByName_cons_inv in Hs2 as [Hs2 Hy].
    assert (Hxy : x = y).
    { assert (Hinx : In x (y :: l2)) by (eapply Permutation_in; [exact Hp|now left]).
      assert (Hiny : In y (x :: l1))
        by (eapply Permutation_in; [apply Permutation_sym; exact Hp|now left]).
      destruct Hinx as [->|Hinx]; [reflexivity|].
      destruct Hiny as [->|Hiny]; [reflexivity|].
      rewrite Forall_forall in Hx, Hy.
      pose proof (ltb_trans _ _ _ (Hx y Hiny) (Hy x Hinx)) as Habs.
      rewrite ltb_irrefl in Habs. discriminate. }
    subst y. f_equal. apply IH; try assumption.
    now apply Permutation_cons_inv in Hp.
Qed.

(** On entries with distinct names, a list in which no entry is greater
    than a later one ascends strictly. *)
Lemma not_greater_sortedByName (l : list tfprotov6.SchemaAttribute) :
  NoDup (map tfprotov6.Name l) ->
  StronglySorted (fun x y => lessByName (Some y) (Some x) = false) l ->
  sortedByName l.
Proof.
  unfold sortedByName.
  induction l as [|x l IH]; intros Hnd Hs; [constructor|].
  inversion Hnd as [|? ? Hnin Hnd']; subst.
  inversion Hs as [|? ? Hs' Hx]; subst.
  constructor; [now apply IH|].
  rewrite Forall_forall in *. intros y Hy.
  apply ltb_total; [|exact (Hx y Hy)].
  intros Heq. apply Hnin. rewrite <- Heq. now apply in_map.
Qed.

Lemma StronglySorted_map_Some (R : option tfprotov6.SchemaAttribute ->
                                   option tfprotov6.SchemaAttribute -> Prop) l :
  StronglySorted R (map Some l) -> StronglySorted (fun x y => R (Some x) (Some y)) l.
Proof.
  induction l as [|x l IH]; intros Hs; [constructor|].
  simpl in Hs. inversion Hs as [|? ? Hs' Hx]; subst.
  constructor; [now apply IH|].
  rewrite Forall_forall in *. intros y Hy. apply Hx. now apply in_map.
Qed.

(** What a sorter that meets the contract makes of entries none of which
    is nil and whose names are distinct: the same entries, ascending. *)
Lemma Slice_children (ss : list tfprotov6.SchemaAttribute) :
  NoDup (map tfprotov6.Name ss) ->
  exists ss',
    sort.Slice lessByName (map Some ss) = map Some ss'
    /\ Permutation ss ss'
    /\ sortedByName ss'.
Proof.
  intros Hnd.
  pose proof (sort.Slice_permutation _ lessByName (map Some ss)) as Hperm.
  apply Permutation_map_inv in Hperm as (ss' & Heq & Hp).
  exists ss'. split; [exact Heq|]. split; [exact Hp|].
  apply not_greater_sortedByName.
  - eapply Permutation_NoDup; [|exact Hnd]. now apply Permutation_map.
  - apply (StronglySorted_map_Some (fun x y => lessByName y x = false)).
    rewrite <- Heq. apply sort.Slice_sorted.
    + intros x y Hx Hy. apply in_map_iff in Hx as (sx & <- & _).
      apply in_map_iff in Hy as (sy & <- & _). simpl. apply ltb_asym.
    + intros x y z Hx Hy Hz. apply in_map_iff in Hx as (sx & <- & _).
      apply in_map_iff in Hy as (sy & <- & _). apply in_map_iff in Hz as (sz & <- & _).
      simpl. apply ltb_false_trans.
Qed.

(** The sorted children do not depend on the order in which they were
    appended. *)
Lemma Slice_children_invariant (ss1 ss2 : list tfprotov6.SchemaAttribute) :
  NoDup (map tfprotov6.Name ss1) -> Permutation ss1 ss2 ->
  sort.Slice lessByName (map Some ss1) = sort.Slice lessByName (map Some ss2).
Proof.
  intros Hnd Hp.
  assert (Hnd2 : NoDup (map tfprotov6.Name ss2))
    by (eapply Permutation_NoDup; [|exact Hnd]; now apply Permutation_map).
  destruct (Slice_children ss1 Hnd) as (o1 & -> & Hp1 & Hs1).
  destruct (Slice_children ss2 Hnd2) as (o2 & -> & Hp2 & Hs2).
  f_equal. apply sorted_permutation_unique; try assumption.
  rewrite <- Hp1, <- Hp2. exact Hp.
Qed.

(** *** Independence of the iteration order *)

Lemma distinct_NoDup (l : list string) : distinct l = true <-> NoDup l.
Proof.
  induction l as [|x l IH]; simpl.
  - split; [constructor|reflexivity].
  - rewrite andb_true_iff, negb_true_iff, IH. split.
    + intros [Hx Hl]. constructor; [|exact Hl]. intros Hin.
      assert (Hex : existsb (String.eqb x) l = true)
        by (apply existsb_exists; exists x; split; [exact Hin|apply String.eqb_refl]).
      congruence.
    + intros Hnd. inversion Hnd as [|? ? Hnin Hl]; subst. split; [|exact Hl].
      apply not_true_is_false. intros Hex.
      apply existsb_exists in Hex as (y & Hin & Hy).
      apply String.eqb_eq in Hy. now subst.
Qed.

Lemma uniqueNames_children (a : Attribute AttrType) na :
  uniqueNames a = true -> Attributes a = Some na ->
  NoDup (map fst (GetAttributes na))
  /\ Forall (fun kv => uniqueNames (snd kv) = true) (GetAttributes na).
Proof.
  rewrite uniqueNames_unfold. unfold uniqueNames_body. intros Hu Hna.
  rewrite Hna in Hu. apply andb_prop in Hu as [Hd Hc]. split.
  - now apply distinct_NoDup.
  - rewrite forallb_forall in Hc. now apply Forall_forall.
Qed.

Lemma all2_length {A B : Type} (R : A -> B -> Prop) l l' :
  all2 R l l' -> length l = length l'.
Proof.
  revert l'. induction l as [|x l IH]; intros [|y l']; simpl; try tauto.
  intros [_ Hr]. f_equal. now apply IH.
Qed.

(** The children that convert, with the schemas they yield. *)
Lemma children_schemas (path : tftypes.AttributePath) (attrs : list (string * Attribute AttrType)) :
  Forall (fun kv => snd (childResult tfprotov6SchemaAttribute path kv) = None) attrs ->
  exists ss,
    map (childResult tfprotov6SchemaAttribute path) attrs = map (fun x => (Some x, None)) ss
    /\ map tfprotov6.Name ss = map fst attrs.
Proof.
  induction attrs as [|[n c] attrs IH]; intros Hall.
  - exists []. split; reflexivity.
  - inversion Hall as [|? ? Hc Hrest]; subst.
    destruct (IH Hrest) as (ss & Hss & Hnames).
    unfold childResult in Hc. simpl in Hc.
    destruct (convert_dichotomy c n (tftypes.WithAttributeName path n)) as [[s Hs]|[e He]].
    + exists (s :: ss). simpl. unfold childResult at 1. simpl. rewrite Hs, Hss. split.
      * reflexivity.
      * now rewrite (convert_success_name _ _ _ _ Hs), Hnames.
    + rewrite He in Hc. discriminate.
Qed.

Lemma convert_branch_of_children (a : Attribute AttrType) name path na nesting ss :
  Type_ a = None -> Attributes a = Some na ->
  wireNestingMode (GetNestingMode na) = Some nesting ->
  attributesSet a = true ->
  map (childResult tfprotov6SchemaAttribute path) (GetAttributes na)
  = map (fun x => (Some x, None)) ss ->
  tfprotov6SchemaAttribute a name path
  = (Some (tfprotov6.setNestedType
             (Some (tfprotov6.mkSchemaObject (sort.Slice lessByName (map Some ss))
                      nesting (GetMinItems na) (GetMaxItems na)))
             (schemaAttributeHeader a name)),
     None).
Proof.
  intros Hty Hna Hw Hset Hmap.
  assert (Hall : Forall (fun kv => snd (childResult tfprotov6SchemaAttribute path kv) = None)
                   (GetAttributes na)).
  { apply Forall_forall. intros kv Hin.
    apply (in_map (childResult tfprotov6SchemaAttribute path)) in Hin.
    rewrite Hmap in Hin. apply in_map_iff in Hin as (x & Hx & _). now rewrite <- Hx. }
  rewrite (convert_branch a name path na nesting Hty Hna Hw Hset).
  rewrite (convertNested_all_ok _ _ _ _ Hall). cbn [fst snd app].
  replace (map (fun kv => fst (childResult tfprotov6SchemaAttribute path kv)) (GetAttributes na))
    with (map Some ss).
  - reflexivity.
  - rewrite <- (map_map (childResult tfprotov6SchemaAttribute path) fst), Hmap, map_map.
    reflexivity.
Qed.

Lemma convert_branch_children (a : Attribute AttrType) name path na nesting s :
  Type_ a = None -> Attributes a = Some na ->
  wireNestingMode (GetNestingMode na) = Some nesting ->
  attributesSet a = true ->
  tfprotov6SchemaAttribute a name path = (Some s, None) ->
  exists ss,
    map (childResult tfprotov6SchemaAttribute path) (GetAttributes na)
    = map (fun x => (Some x, None)) ss
    /\ map tfprotov6.Name ss = map fst (GetAttributes na)
    /\ s = tfprotov6.setNestedType
             (Some (tfprotov6.mkSchemaObject (sort.Slice lessByName (map Some ss))
                      nesting (GetMinItems na) (GetMaxItems na)))
             (schemaAttributeHeader a name).
Proof.
  intros Hty Hna Hw Hset Hs.
  destruct (convertNested_cases tfprotov6SchemaAttribute path (GetAttributes na) [])
    as [Hall|(pre & kv & post & e & _ & _ & _ & Herr)].
  - destruct (children_schemas path _ Hall) as (ss & Hmap & Hnames).
    exists ss. repeat split; try assumption.
    rewrite (convert_branch_of_children a name path na nesting ss Hty Hna Hw Hset Hmap) in Hs.
    now injection Hs as <-.
  - rewrite (convert_branch a name path na nesting Hty Hna Hw Hset), Herr in Hs.
    discriminate.
Qed.

Lemma sameTree_header (a a' : Attribute AttrType) name :
  sameTree a a' -> schemaAttributeHeader a' name = schemaAttributeHeader a name.
Proof.
  rewrite sameTree_unfold. unfold sameTree_body.
  intros (_ & Hd & Hm & Hr & Ho & Hc & Hs & Hdm & _).
  unfold schemaAttributeHeader. now rewrite Hd, Hm, Hr, Ho, Hc, Hs, Hdm.
Qed.

Lemma sameTree_attributesSet (a a' : Attribute AttrType) :
  sameTree a a' -> attributesSet a' = attributesSet a.
Proof.
  rewrite sameTree_unfold. unfold sameTree_body, attributesSet.
  intros (_ & _ & _ & _ & _ & _ & _ & _ & _ & _ & Hn).
  destruct (Attributes a) as [na|], (Attributes a') as [na'|]; try tauto.
  destruct Hn as (_ & _ & _ & l' & Hp & Hall).
  apply all2_length in Hall. apply Permutation_length in Hp. now rewrite <- Hp, <- Hall.
Qed.

(** Converting another presentation of the same tree yields the same
    schema. *)
Lemma convert_sameTree (a : Attribute AttrType) :
  forall a' name path s,
    uniqueNames a = true -> sameTree a a' ->
    tfprotov6SchemaAttribute a name path = (Some s, None) ->
    tfprotov6SchemaAttribute a' name path = (Some s, None).
Proof.
  induction a as [a IH] using Attribute_tree_ind.
  intros a' name path s Hu Hsame Hs.
  pose proof (sameTree_header a a' name Hsame) as Hhead.
  pose proof (sameTree_attributesSet a a' Hsame) as Hset'.
  pose proof Hsame as Hsame0.
  rewrite sameTree_unfold in Hsame. unfold sameTree_body in Hsame.
  destruct Hsame as (Hty' & _ & _ & _ & _ & _ & _ & _ & _ & _ & Hn).
  destruct (structurallyInvalid a) eqn:Hinv.
  { destruct (convert_invalid_node a name path Hinv) as (e & He & _). congruence. }
  destruct (valid_shape a Hinv) as [(ty & Hty & Hset)|(na & nesting & Hty & Hna & Hw & Hset)].
  - rewrite (convert_leaf a name path ty Hty Hset) in Hs.
    rewrite (convert_leaf a' name path ty); [now rewrite Hhead|congruence|congruence].
  - rewrite Hna in Hn. destruct (Attributes a') as [na'|] eqn:Hna'; [|contradiction].
    destruct Hn as (Hnm & Hmin & Hmax & l' & Hperm & Hall).
    destruct (convert_branch_children a name path na nesting s Hty Hna Hw Hset Hs)
      as (ss & Hmap & Hnames & ->).
    destruct (uniqueNames_children a na Hu Hna) as [Hnd Huc].
    specialize (IH na Hna).
    assert (Hmap' : map (childResult tfprotov6SchemaAttribute path) l'
                    = map (fun x => (Some x, None)) ss).
    { clear Hperm Hnames Hnd Hna Hset Hs.
      revert l' ss Hall Hmap.
      induction (GetAttributes na) as [|[n c] cs IHcs]; intros [|[n' c'] l'] ss Hall Hmap;
        simpl in Hall; try contradiction.
      - exact Hmap.
      - destruct ss as [|x ss]; [discriminate|].
        simpl in Hmap. injection Hmap as Hx Hrest.
        destruct Hall as [[Hnn Hcc] Hall]. simpl in Hnn, Hcc. subst n'.
        inversion IH as [|? ? IHc IHrest]; subst.
        inversion Huc as [|? ? Huc1 Hucs]; subst.
        simpl. f_equal.
        + unfold childResult in *. simpl in *.
          now apply (IHc c' n (tftypes.WithAttributeName path n) x Huc1 Hcc).
        + now apply IHcs. }
    assert (Hp : Permutation (map (childResult tfprotov6SchemaAttribute path) (GetAttributes na'))
                   (map (childResult tfprotov6SchemaAttribute path) l'))
      by (apply Permutation_map; now apply Permutation_sym).
    rewrite Hmap' in Hp.
    apply Permutation_map_inv in Hp as (ss' & Hmap'' & Hpss).
    rewrite (convert_branch_of_children a' name path na' nesting ss').
    + rewrite Hhead, <- Hmin, <- Hmax.
      rewrite (Slice_children_invariant ss ss'); [reflexivity| |exact Hpss].
      now rewrite Hnames.
    + congruence.
    + exact Hna'.
    + now rewrite <- Hnm.
    + congruence.
    + exact Hmap''.
Qed.

(** C6: the children of a branch are emitted in a canonical order, whatever
    sort meets the contract of [sort.Slice].  None of the emitted entries is
    nil and their names, those of the children, ascend strictly in the
    byte-wise lexicographic order; the comparison given to the sort places a
    nil entry before any other; no other arrangement of the same entries is
    sorted; and converting any other presentation of the same tree, whose
    maps are iterated in other orders, yields the very same schema. *)
Theorem tfprotov6SchemaAttribute_canonical_order (a : Attribute AttrType) name path s obj :
  uniqueNames a = true ->
  tfprotov6SchemaAttribute a name path = (Some s, None) ->
  tfprotov6.NestedType s = Some obj ->
  (exists na ss,
      Attributes a = Some na
      /\ tfprotov6.Attributes obj = map Some ss
      /\ sortedByName ss
      /\ Permutation (map tfprotov6.Name ss) (map fst (GetAttributes na))
      /\ forall ss', sortedByName ss' -> Permutation ss' ss -> ss' = ss)
  /\ (forall y, lessByName None y = true)
  /\ (forall a', sameTree a a' -> tfprotov6SchemaAttribute a' name path = (Some s, None)).
Proof.
  intros Hu Hs Hobj. split; [|split].
  - destruct (structurallyInvalid a) eqn:Hinv.
    { destruct (convert_invalid_node a name path Hinv) as (e & He & _). congruence. }
    destruct (valid_shape a Hinv) as [(ty & Hty & Hset)|(na & nesting & Hty & Hna & Hw & Hset)].
    + pose proof (convert_success_header a name path s Hs) as Hh.
      rewrite (convert_leaf a name path ty Hty Hset) in Hs. injection Hs as <-.
      simpl in Hobj. rewrite <- Hh in Hobj. simpl in Hobj. discriminate.
    + destruct (convert_branch_children a name path na nesting s Hty Hna Hw Hset Hs)
        as (ss & Hmap & Hnames & ->).
      simpl in Hobj. injection Hobj as <-. simpl.
      destruct (uniqueNames_children a na Hu Hna) as [Hnd _].
      rewrite <- Hnames in Hnd.
      destruct (Slice_children ss Hnd) as (sorted & Heq & Hperm & Hsorted).
      exists na, sorted. repeat split.
      * exact Hna.
      * exact Heq.
      * exact Hsorted.
      * rewrite <- Hnames. apply Permutation_map. now apply Permutation_sym.
      * intros ss' Hsorted' Hperm'. now apply sorted_permutation_unique.
  - reflexivity.
  - intros a' Hsame. now apply (convert_sameTree a a' name path s).
Qed.

(** *** Structural equality *)

Lemma stripHooks_unfold (a : Attribute AttrType) :
  stripHooks a = stripHooks_body stripHooks a.
Proof. destruct a; reflexivity. Qed.

Lemma lookup_In {A : Type} (m : list (string * A)) k v :
  NoDup (map fst m) -> In (k, v) m -> lookup k m = Some v.
Proof.
  induction m as [|[k' v'] m IH]; intros Hnd Hin; [destruct Hin|].
  simpl in *. inversion Hnd as [|? ? Hnin Hnd']; subst.
  destruct Hin as [Heq|Hin].
  - injection Heq as -> ->. now rewrite String.eqb_refl.
  - destruct (String.eqb k' k) eqn:Hk.
    + apply String.eqb_eq in Hk. subst k'. exfalso. apply Hnin.
      apply in_map_iff. exists (k, v). split; [reflexivity|exact Hin].
    + now apply IH.
Qed.

Lemma lookup_map {A B : Type} (f : A -> B) (m : list (string * A)) k :
  lookup k (map (fun kv => (fst kv, f (snd kv))) m) = option_map f (lookup k m).
Proof.
  induction m as [|[k' v'] m IH]; simpl; [reflexivity|].
  destruct (String.eqb k' k); [reflexivity|exact IH].
Qed.

Lemma forallb_map_ext {A B : Type} (f : B -> bool) (g : A -> B) (h : A -> bool) l :
  (forall x, In x l -> f (g x) = h x) -> forallb f (map g l) = forallb h l.
Proof.
  induction l as [|x l IH]; intros Hext; simpl; [reflexivity|].
  rewrite Hext by now left. f_equal. apply IH. intros y Hy. apply Hext. now right.
Qed.

(** [Equal] is reflexive on maps with distinct names when the equality of
    value types is. *)
Lemma Equal_refl (a : Attribute AttrType) :
  (forall t : AttrType, attr.Equal t t = true) ->
  uniqueNames a = true -> Equal a a = true.
Proof.
  intros Hrefl. induction a as [a IH] using Attribute_tree_ind. intros Hu.
  rewrite Equal_unfold. unfold Equal_body.
  rewrite !String.eqb_refl, !Bool.eqb_reflx. simpl.
  assert (Hn : match Attributes a with
               | Some na => negb (NestedAttributes_Equal Equal na na)
               | None => false
               end = false).
  { destruct (Attributes a) as [na|] eqn:Hna; [|reflexivity].
    destruct (uniqueNames_children a na Hu Hna) as [Hnd Huc].
    specialize (IH na eq_refl). rewrite Forall_forall in IH, Huc.
    unfold NestedAttributes_Equal.
    rewrite N.eqb_refl, !Z.eqb_refl, Nat.eqb_refl. simpl.
    apply negb_false_iff. apply forallb_forall. intros [k v] Hin. simpl.
    rewrite (lookup_In _ k v Hnd Hin).
    apply (IH (k, v) Hin). apply (Huc (k, v) Hin). }
  destruct (Type_ a) as [ty|]; simpl.
  - rewrite Hrefl. simpl. destruct (Attributes a); simpl in *; now rewrite ?Hn.
  - destruct (Attributes a); simpl in *; now rewrite ?Hn.
Qed.

(** Validators and plan modifiers, at any depth, have no part in [Equal]. *)
Lemma Equal_stripHooks (a : Attribute AttrType) :
  forall b, Equal (stripHooks a) (stripHooks b) = Equal a b.
Proof.
  induction a as [a IH] using Attribute_tree_ind. intros b.
  rewrite (Equal_unfold a b), (Equal_unfold (stripHooks a)).
  rewrite (stripHooks_unfold a), (stripHooks_unfold b).
  unfold Equal_body, stripHooks_body. cbn [Type_ Attributes Description MarkdownDescription
    Required Optional Computed Sensitive DeprecationMessage].
  assert (Hn : match Attributes a, Attributes b with
               | Some na, Some nb =>
                   NestedAttributes_Equal Equal
                     (mkNestedAttributes
                        (map (fun kv => (fst kv, stripHooks (snd kv))) (GetAttributes na))
                        (GetNestingMode na) (GetMinItems na) (GetMaxItems na))
                     (mkNestedAttributes
                        (map (fun kv => (fst kv, stripHooks (snd kv))) (GetAttributes nb))
                        (GetNestingMode nb) (GetMinItems nb) (GetMaxItems nb))
                   = NestedAttributes_Equal Equal na nb
               | _, _ => True
               end).
  { destruct (Attributes a) as [na|] eqn:Hna; [|exact I].
    destruct (Attributes b) as [nb|]; [|exact I].
    specialize (IH na eq_refl). rewrite Forall_forall in IH.
    unfold NestedAttributes_Equal. cbn [GetAttributes GetNestingMode GetMinItems GetMaxItems].
    rewrite !length_map. f_equal.
    apply forallb_map_ext. intros [k v] Hin. cbn [fst snd].
    rewrite lookup_map. destruct (lookup k (GetAttributes nb)) as [v'|]; [|reflexivity].
    simpl. apply (IH (k, v) Hin). }
  destruct (Attributes a) as [na|], (Attributes b) as [nb|]; simpl; try reflexivity.
  now rewrite Hn.
Qed.

(** C9: two attributes with the same value type, nested attributes,
    descriptions, flags and deprecation message are [Equal], whatever the
    validators and plan modifiers of either; and at any depth of the tree
    the validators and plan modifiers have no part in the comparison.  The
    equality of value types is taken to be reflexive, and the names of a map
    distinct. *)
Theorem Equal_ignores_validators_and_plan_modifiers (a b : Attribute AttrType) :
  (forall t : AttrType, attr.Equal t t = true) ->
  uniqueNames a = true ->
  Type_ a = Type_ b ->
  Attributes a = Attributes b ->
  Description a = Description b ->
  MarkdownDescription a = MarkdownDescription b ->
  Required a = Required b ->
  Optional a = Optional b ->
  Computed a = Computed b ->
  Sensitive a = Sensitive b ->
  DeprecationMessage a = DeprecationMessage b ->
  Equal a b = true
  /\ (forall vs pms vs' pms',
         Equal (withValidators vs (withPlanModifiers pms a))
               (withValidators vs' (withPlanModifiers pms' b)) = true)
  /\ Equal (stripHooks a) (stripHooks b) = Equal a b.
Proof.
  intros Hrefl Hu Hty Hat Hd Hm Hr Ho Hc Hs Hdm.
  assert (Hab : Equal a b = true).
  { rewrite Equal_unfold. unfold Equal_body.
    rewrite <- Hty, <- Hat, <- Hd, <- Hm, <- Hr, <- Ho, <- Hc, <- Hs, <- Hdm.
    pose proof (Equal_refl a Hrefl Hu) as Haa.
    rewrite Equal_unfold in Haa. exact Haa. }
  split; [exact Hab|]. split.
  - intros vs pms vs' pms'. rewrite <- Hab. rewrite !Equal_unfold. reflexivity.
  - apply Equal_stripHooks.
Qed.

(** *** The validation walk *)

Lemma branch_not_bothOrNeither (a : Attribute AttrType) na :
  Type_ a = None -> Attributes a = Some na -> GetAttributes na <> [] ->
  bothOrNeither a = false.
Proof.
  intros Hty Hna Hne. unfold bothOrNeither. rewrite attributesUnset_negb.
  unfold attributesSet. rewrite Hty, Hna.
  destruct (GetAttributes na); [congruence|reflexivity].
Qed.

Lemma validate_resolved (a : Attribute AttrType) req resp cfg diags :
  bothOrNeither a = false ->
  GetAttribute (ValidateAttributeRequest.Config req)
    (ValidateAttributeRequest.AttributePath req) = (cfg, diags) ->
  diagnostics.DiagsHasErrors diags = false ->
  let path := ValidateAttributeRequest.AttributePath req in
  let resolved :=
    validateResolved validate a
      (ValidateAttributeRequest.mk path cfg (ValidateAttributeRequest.Config req))
      (appendDiagnostics resp diags) in
  validate a req resp
  = (fst resolved, Enter path :: Resolve FromConfig path :: snd resolved).
Proof.
  intros Hv Hcfg Hok. cbv zeta.
  rewrite validate_unfold. unfold validate_body.
  unfold bothOrNeither in Hv. apply orb_false_elim in Hv as [Hb Hn].
  rewrite Hn, Hb, Hcfg, Hok.
  destruct (validateResolved _ _ _ _) as [r l]. reflexivity.
Qed.

Lemma validate_resolution_error (a : Attribute AttrType) req resp cfg diags :
  bothOrNeither a = false ->
  GetAttribute (ValidateAttributeRequest.Config req)
    (ValidateAttributeRequest.AttributePath req) = (cfg, diags) ->
  diagnostics.DiagsHasErrors diags = true ->
  validate a req resp
  = (appendDiagnostics resp diags,
     [Enter (ValidateAttributeRequest.AttributePath req);
      Resolve FromConfig (ValidateAttributeRequest.AttributePath req)]).
Proof.
  intros Hv Hcfg Herr.
  rewrite validate_unfold. unfold validate_body.
  unfold bothOrNeither in Hv. apply orb_false_elim in Hv as [Hb Hn].
  now rewrite Hn, Hb, Hcfg, Herr.
Qed.

Lemma runValidators_paths idx (vs : list AttributeValidator) req resp :
  Forall (fun e => eventPath e = ValidateAttributeRequest.AttributePath req)
         (snd (runValidators idx vs req resp)).
Proof.
  rewrite runValidators_log. apply Forall_forall. intros e Hin.
  apply in_map_iff in Hin as (i & <- & _). reflexivity.
Qed.

(** C3, as the code has it: on a valid branch whose nesting mode is set,
    [validate] leaves the children alone and says nothing about the mode.
    Once the value is resolved without error it runs the validators of the
    attribute and goes to the deprecation check: every call it makes is at
    the path of the request, the children have no influence on the outcome,
    and an attribute with no validator and no deprecation message gets no
    diagnostic beyond those of the resolution. *)
Theorem validate_set_nesting_is_skipped (a : Attribute AttrType) req resp na cfg diags :
  Type_ a = None ->
  Attributes a = Some na ->
  GetAttributes na <> [] ->
  GetNestingMode na = NestingModeSet ->
  GetAttribute (ValidateAttributeRequest.Config req)
    (ValidateAttributeRequest.AttributePath req) = (cfg, diags) ->
  diagnostics.DiagsHasErrors diags = false ->
  let path := ValidateAttributeRequest.AttributePath req in
  let validated :=
    runValidators 0 (Validators a)
      (ValidateAttributeRequest.mk path cfg (ValidateAttributeRequest.Config req))
      (appendDiagnostics resp diags) in
  validate a req resp
  = (validateDeprecation a path cfg (fst validated),
     Enter path :: Resolve FromConfig path :: snd validated)
  /\ Forall (fun e => eventPath e = path) (snd (validate a req resp))
  /\ (forall attrs,
         attrs <> [] ->
         validate (withAttributes
                     (Some (mkNestedAttributes attrs NestingModeSet
                              (GetMinItems na) (GetMaxItems na))) a) req resp
         = validate a req resp)
  /\ (Validators a = [] -> DeprecationMessage a = EmptyString ->
      validate a req resp
      = (appendDiagnostics resp diags, [Enter path; Resolve FromConfig path])).
Proof.
  intros Hty Hna Hne Hset Hcfg Hok path validated.
  assert (Hv : bothOrNeither a = false)
    by (apply (branch_not_bothOrNeither a na); assumption).
  assert (Heq : validate a req resp
                = (validateDeprecation a path cfg (fst validated),
                   Enter path :: Resolve FromConfig path :: snd validated)).
  { rewrite (validate_resolved a req resp cfg diags Hv Hcfg Hok). cbv zeta.
    unfold validateResolved. fold path. fold validated.
    destruct validated as [r l]. rewrite Hna. unfold validateNestingMode.
    rewrite Hset. simpl. now rewrite app_nil_r. }
  split; [exact Heq|]. split; [|split].
  - rewrite Heq. simpl. constructor; [reflexivity|]. constructor; [reflexivity|].
    apply (runValidators_paths 0 (Validators a)
             (ValidateAttributeRequest.mk path cfg (ValidateAttributeRequest.Config req))).
  - intros attrs Hne'. rewrite Heq.
    set (a' := withAttributes _ a).
    assert (Hv' : bothOrNeither a' = false)
      by (apply (branch_not_bothOrNeither a' _ Hty eq_refl); exact Hne').
    rewrite (validate_resolved a' req resp cfg diags Hv' Hcfg Hok). cbv zeta.
    unfold validateResolved. subst a'. cbn [withAttributes Validators Attributes].
    fold path. fold validated. destruct validated as [r l].
    unfold validateNestingMode. simpl. now rewrite app_nil_r.
  - intros Hvs Hdm. rewrite Heq. subst validated. rewrite Hvs. simpl.
    unfold validateDeprecation. rewrite Hdm. reflexivity.
Qed.

Lemma validateNestingMode_continue (a : Attribute AttrType) na req resp :
  Attributes a = Some na ->
  nestingWalkable a (ValidateAttributeRequest.AttributeConfig req) = true ->
  fst (fst (validateNestingMode validate na req resp)) = Continue.
Proof.
  intros Hna Hw. unfold nestingWalkable in Hw. rewrite Hna in Hw.
  unfold validateNestingMode.
  destruct (N.eqb (GetNestingMode na) NestingModeList).
  { destruct (attr.asList _); [|discriminate].
    destruct (validateListElems _ _ _ _ _ _ _). reflexivity. }
  destruct (N.eqb (GetNestingMode na) NestingModeSet); [reflexivity|].
  destruct (N.eqb (GetNestingMode na) NestingModeMap).
  { destruct (attr.asMap _); [|discriminate].
    destruct (validateMapElems _ _ _ _ _ _). reflexivity. }
  rewrite Hw. destruct (validateNested _ _ _ _ _). reflexivity.
Qed.

(** When the [switch] on the nesting mode falls through, the outcome is the
    deprecation check applied to the outcome for the same attribute without
    a deprecation message. *)
Lemma validateResolved_deprecation (a : Attribute AttrType) req resp :
  nestingWalkable a (ValidateAttributeRequest.AttributeConfig req) = true ->
  let plain := validateResolved validate (withDeprecationMessage EmptyString a) req resp in
  validateResolved validate a req resp
  = (validateDeprecation a (ValidateAttributeRequest.AttributePath req)
       (ValidateAttributeRequest.AttributeConfig req) (fst plain),
     snd plain).
Proof.
  intros Hw. cbv zeta. unfold validateResolved.
  cbn [withDeprecationMessage Validators Attributes].
  destruct (runValidators 0 (Validators a) req resp) as [r1 l1].
  destruct (Attributes a) as [na|] eqn:Hna.
  - pose proof (validateNestingMode_continue a na req r1 Hna Hw) as Hc.
    destruct (validateNestingMode validate na req r1) as [[flow r2] l2].
    simpl in Hc. subst flow. reflexivity.
  - reflexivity.
Qed.

(** C7, as the code has it: for an attribute with a deprecation message
    whose validation reaches the deprecation check (a valid definition, a
    value resolved without error, a container of the type the nesting mode
    asks for), [validate] is the validation of the same attribute without the
    message, followed by exactly one more diagnostic when the value is not
    null and converts: a warning anchored at the path whose detail is the
    message.  Nothing is added for a nil or null value.  What the validators
    and the children reported plays no part. *)
Theorem validate_deprecation_warning (a : Attribute AttrType) req resp cfg diags :
  bothOrNeither a = false ->
  DeprecationMessage a <> EmptyString ->
  GetAttribute (ValidateAttributeRequest.Config req)
    (ValidateAttributeRequest.AttributePath req) = (cfg, diags) ->
  diagnostics.DiagsHasErrors diags = false ->
  nestingWalkable a cfg = true ->
  let path := ValidateAttributeRequest.AttributePath req in
  let plain := validate (withDeprecationMessage EmptyString a) req resp in
  (forall v tf,
      cfg = Some v -> attr.ToTerraformValue v = (Some tf, None) ->
      validate a req resp
      = (appendDiagnostics (fst plain)
           [tfprotov6.mkDiagnostic tfprotov6.DiagnosticSeverityWarning
              "Attribute Deprecated" (DeprecationMessage a) (Some path)],
         snd plain))
  /\ (cfg = None -> validate a req resp = plain)
  /\ (forall v,
         cfg = Some v -> attr.ToTerraformValue v = (None, None) ->
         validate a req resp = plain).
Proof.
  intros Hv Hdm Hcfg Hok Hw path plain.
  assert (Hplain : plain
            = (fst (validateResolved validate (withDeprecationMessage EmptyString a)
                      (ValidateAttributeRequest.mk path cfg (ValidateAttributeRequest.Config req))
                      (appendDiagnostics resp diags)),
               Enter path :: Resolve FromConfig path
                 :: snd (validateResolved validate (withDeprecationMessage EmptyString a)
                           (ValidateAttributeRequest.mk path cfg
                              (ValidateAttributeRequest.Config req))
                           (appendDiagnostics resp diags))))
    by (subst plain; now apply validate_resolved).
  rewrite (validate_resolved a req resp cfg diags Hv Hcfg Hok). cbv zeta. fold path.
  rewrite validateResolved_deprecation by exact Hw. cbv zeta.
  cbn [ValidateAttributeRequest.AttributePath ValidateAttributeRequest.AttributeConfig fst snd].
  rewrite Hplain. cbn [fst snd].
  apply String.eqb_neq in Hdm.
  unfold validateDeprecation. rewrite Hdm. simpl.
  split; [|split].
  - intros v tf -> Htf. simpl. rewrite Htf. reflexivity.
  - intros ->. reflexivity.
  - intros v -> Htf. simpl. rewrite Htf. reflexivity.
Qed.



(** What the walk logs after the validators: the calls of the [switch]. *)
Lemma validateResolved_log (a : Attribute AttrType) req resp :
  snd (validateResolved validate a req resp)
  = snd (runValidators 0 (Validators a) req resp)
    ++ match Attributes a with
       | Some na =>
           snd (validateNestingMode validate na req
                  (fst (runValidators 0 (Validators a) req resp)))
       | None => []
       end.
Proof.
  unfold validateResolved.
  destruct (runValidators 0 (Validators a) req resp) as [r1 l1]. cbn [fst snd].
  destruct (Attributes a) as [na|].
  - destruct (validateNestingMode validate na req r1) as [[[|] r2] l2]; reflexivity.
  - reflexivity.
Qed.


End AttributeProperties.

(** ** Further properties *)
Section AttributePropertiesMore.
Context {AttrType : Type} `{!attr.Type_ AttrType} `{!tftypes.PathStringer}.
Context `{!sort.Sorter} `{!sort.SorterLaws} `{!PathStepper AttrType}.

(** *** Conversion: what a schema holds *)

Lemma header_fields (a : Attribute AttrType) name :
  tfprotov6.Name (schemaAttributeHeader a name) = name
  /\ tfprotov6.Required (schemaAttributeHeader a name) = Required a
  /\ tfprotov6.Optional (schemaAttributeHeader a name) = Optional a
  /\ tfprotov6.Computed (schemaAttributeHeader a name) = Computed a
  /\ tfprotov6.Sensitive (schemaAttributeHeader a name) = Sensitive a
  /\ tfprotov6.Deprecated (schemaAttributeHeader a name)
     = negb (String.eqb (DeprecationMessage a) EmptyString).
Proof.
  unfold schemaAttributeHeader.
  destruct (negb (DeprecationMessage a =? "")), (negb (Description a =? "")),
    (negb (MarkdownDescription a =? "")); repeat split; reflexivity.
Qed.

(** X1: a schema that is returned carries the name it was asked for and the
    four flags of the attribute unchanged; it is marked deprecated exactly
    when the deprecation message is not empty, whatever the message says; and
    with neither description set its description is empty and of the plain
    kind. *)
Theorem tfprotov6SchemaAttribute_flags (a : Attribute AttrType) name path s :
  tfprotov6SchemaAttribute a name path = (Some s, None) ->
  tfprotov6.Name s = name
  /\ tfprotov6.Required s = Required a
  /\ tfprotov6.Optional s = Optional a
  /\ tfprotov6.Computed s = Computed a
  /\ tfprotov6.Sensitive s = Sensitive a
  /\ (tfprotov6.Deprecated s = true <-> DeprecationMessage a <> EmptyString)
  /\ (Description a = EmptyString -> MarkdownDescription a = EmptyString ->
      tfprotov6.Description s = EmptyString
      /\ tfprotov6.DescriptionKind s = tfprotov6.StringKindPlain).
Proof.
  intros Hs. apply convert_success_header in Hs.
  destruct (header_fields a name) as (Hn & Hr & Ho & Hc & Hse & Hd).
  rewrite <- Hs in Hn, Hr, Ho, Hc, Hse, Hd. simpl in *.
  repeat (split; [assumption|]). split.
  - rewrite Hd, negb_true_iff. apply String.eqb_neq.
  - intros Hp Hm.
    assert (Hdesc : tfprotov6.Description s
                    = tfprotov6.Description (schemaAttributeHeader a name))
      by (rewrite <- Hs; reflexivity).
    assert (Hkind : tfprotov6.DescriptionKind s
                    = tfprotov6.DescriptionKind (schemaAttributeHeader a name))
      by (rewrite <- Hs; reflexivity).
    rewrite Hdesc, Hkind. unfold schemaAttributeHeader. rewrite Hp, Hm. simpl.
    destruct (negb (DeprecationMessage a =? "")); split; reflexivity.
Qed.

(** X2: a schema that is returned has a type or a nested object, never
    both.  For a leaf it is the wire type of the attribute's type.  For a
    branch the object carries the wire value of the nesting mode (single for
    single, list for list, set for set, map for map) and the bounds of the
    nested attributes, every child converts, and the entries of the object
    are the schemas of the children, none lost and none repeated. *)
Theorem tfprotov6SchemaAttribute_shape (a : Attribute AttrType) name path s :
  tfprotov6SchemaAttribute a name path = (Some s, None) ->
  (exists ty,
      Type_ a = Some ty
      /\ tfprotov6.Type_ s = Some (attr.TerraformType ty)
      /\ tfprotov6.NestedType s = None)
  \/ (exists na nesting obj ss,
         Type_ a = None /\ Attributes a = Some na
         /\ wireNestingMode (GetNestingMode na) = Some nesting
         /\ tfprotov6.Type_ s = None
         /\ tfprotov6.NestedType s = Some obj
         /\ tfprotov6.Nesting obj = nesting
         /\ tfprotov6.MinItems obj = GetMinItems na
         /\ tfprotov6.MaxItems obj = GetMaxItems na
         /\ map (childResult tfprotov6SchemaAttribute path) (GetAttributes na)
            = map (fun x => (Some x, None)) ss
         /\ Permutation (tfprotov6.Attributes obj) (map Some ss)
         /\ length (tfprotov6.Attributes obj) = length (GetAttributes na)
         /\ ((GetNestingMode na = NestingModeSingle
              /\ tfprotov6.Nesting obj = tfprotov6.SchemaObjectNestingModeSingle)
             \/ (GetNestingMode na = NestingModeList
                 /\ tfprotov6.Nesting obj = tfprotov6.SchemaObjectNestingModeList)
             \/ (GetNestingMode na = NestingModeSet
                 /\ tfprotov6.Nesting obj = tfprotov6.SchemaObjectNestingModeSet)
             \/ (GetNestingMode na = NestingModeMap
                 /\ tfprotov6.Nesting obj = tfprotov6.SchemaObjectNestingModeMap))).
Proof.
  intros Hs.
  assert (Hhead : tfprotov6.Type_ (schemaAttributeHeader a name) = None
                  /\ tfprotov6.NestedType (schemaAttributeHeader a name) = None).
  { unfold schemaAttributeHeader.
    destruct (negb (DeprecationMessage a =? "")), (negb (Description a =? "")),
      (negb (MarkdownDescription a =? "")); split; reflexivity. }
  destruct Hhead as [Ht Hn].
  destruct (structurallyInvalid a) eqn:Hinv.
  { destruct (convert_invalid_node a name path Hinv) as (e & He & _). congruence. }
  destruct (valid_shape a Hinv) as [(ty & Hty & Hset)|(na & nesting & Hty & Hna & Hw & Hset)].
  - left. exists ty. rewrite (convert_leaf a name path ty Hty Hset) in Hs.
    injection Hs as <-. simpl. repeat split; assumption.
  - right.
    destruct (convert_branch_children a name path na nesting s Hty Hna Hw Hset Hs)
      as (ss & Hmap & Hnames & ->).
    exists na, nesting, (tfprotov6.mkSchemaObject (sort.Slice lessByName (map Some ss))
                          nesting (GetMinItems na) (GetMaxItems na)), ss.
    simpl. split; [assumption|]. split; [assumption|]. split; [assumption|].
    split; [assumption|]. split; [reflexivity|]. split; [reflexivity|].
    split; [reflexivity|]. split; [reflexivity|]. split; [assumption|].
    split; [apply sort.Slice_permutation|]. split.
    + rewrite (Permutation_length (sort.Slice_permutation _ lessByName (map Some ss))).
      rewrite length_map, <- (length_map tfprotov6.Name), Hnames. apply length_map.
    + unfold wireNestingMode in Hw.
      destruct (N.eqb (GetNestingMode na) NestingModeSingle) eqn:Hm1.
      { apply N.eqb_eq in Hm1. injection Hw as <-. now left. }
      destruct (N.eqb (GetNestingMode na) NestingModeList) eqn:Hm2.
      { apply N.eqb_eq in Hm2. injection Hw as <-. right. now left. }
      destruct (N.eqb (GetNestingMode na) NestingModeSet) eqn:Hm3.
      { apply N.eqb_eq in Hm3. injection Hw as <-. right. right. now left. }
      destruct (N.eqb (GetNestingMode na) NestingModeMap) eqn:Hm4; [|discriminate].
      apply N.eqb_eq in Hm4. injection Hw as <-. right. right. now right.
Qed.

Lemma header_renamed (a : Attribute AttrType) name name' :
  schemaAttributeHeader a name' = renamed name' (schemaAttributeHeader a name).
Proof.
  unfold schemaAttributeHeader.
  destruct (negb (DeprecationMessage a =? "")), (negb (Description a =? "")),
    (negb (MarkdownDescription a =? "")); reflexivity.
Qed.

(** X3: on success the path plays no part and the name only names: the
    same attribute converted under another name and at another path yields
    the same schema, renamed. *)
Theorem tfprotov6SchemaAttribute_path_and_name (a : Attribute AttrType) :
  forall name path s name' path',
    tfprotov6SchemaAttribute a name path = (Some s, None) ->
    tfprotov6SchemaAttribute a name' path' = (Some (renamed name' s), None).
Proof.
  induction a as [a IH] using Attribute_tree_ind.
  intros name path s name' path' Hs.
  destruct (structurallyInvalid a) eqn:Hinv.
  { destruct (convert_invalid_node a name path Hinv) as (e & He & _). congruence. }
  destruct (valid_shape a Hinv) as [(ty & Hty & Hset)|(na & nesting & Hty & Hna & Hw & Hset)].
  - rewrite (convert_leaf a name path ty Hty Hset) in Hs. injection Hs as <-.
    rewrite (convert_leaf a name' path' ty Hty Hset), (header_renamed a name name').
    reflexivity.
  - destruct (convert_branch_children a name path na nesting s Hty Hna Hw Hset Hs)
      as (ss & Hmap & _ & ->).
    specialize (IH na Hna).
    assert (Hmap' : map (childResult tfprotov6SchemaAttribute path') (GetAttributes na)
                    = map (fun x => (Some x, None)) ss).
    { clear Hna Hset Hs. revert ss Hmap.
      induction (GetAttributes na) as [|[n c] cs IHcs]; intros ss Hmap.
      - exact Hmap.
      - destruct ss as [|x ss]; [discriminate|].
        simpl in Hmap. injection Hmap as Hx Hrest.
        inversion IH as [|? ? IHc IHrest]; subst.
        simpl. f_equal.
        + unfold childResult in *. simpl in *.
          rewrite (IHc n (tftypes.WithAttributeName path n) x n
                     (tftypes.WithAttributeName path' n) Hx).
          pose proof (convert_success_name c n _ x Hx) as Hname.
          destruct x. simpl in *. now subst.
        + now apply IHcs. }
    rewrite (convert_branch_of_children a name' path' na nesting ss Hty Hna Hw Hset Hmap').
    now rewrite (header_renamed a name name').
Qed.

(** X4: an error that is returned is about one attribute of the tree that
    is structurally invalid: the attribute reached from the converted one by
    some names through the nested attributes.  The path of the error is the
    given path extended by those names, and its message is one of the three
    messages of that attribute. *)
Theorem tfprotov6SchemaAttribute_error_location (a : Attribute AttrType) :
  forall name path e,
    snd (tfprotov6SchemaAttribute a name path) = Some e ->
    exists names d,
      reaches a names d
      /\ structurallyInvalid d = true
      /\ tftypes.Path e = path ++ map tftypes.AttributeName names
      /\ definitionError d (tftypes.Error e).
Proof.
  induction a as [a IH] using Attribute_tree_ind.
  intros name path e He.
  destruct (structurallyInvalid a) eqn:Hinv.
  - exists [], a. split; [reflexivity|]. split; [exact Hinv|].
    unfold structurallyInvalid, bothOrNeither in Hinv.
    apply orb_prop in Hinv as [Hinv|Hu].
    + apply orb_prop in Hinv as [Hb|Hn].
      * rewrite (convert_both a name path Hb) in He. injection He as <-. simpl.
        rewrite app_nil_r. split; [reflexivity|]. now left.
      * rewrite (convert_neither a name path Hn) in He. injection He as <-. simpl.
        rewrite app_nil_r. split; [reflexivity|]. right. now left.
    + destruct (convert_unrecognized a name path Hu) as (na & Hna & _ & Hr).
      rewrite Hr in He. injection He as <-. simpl.
      rewrite app_nil_r. split; [reflexivity|]. right. right. now exists na.
  - apply (convert_child_error a name path e Hinv) in He.
    destruct He as (na & pre & [n c] & post & Hna & Hcs & _ & Hkv).
    assert (Hin : In (n, c) (GetAttributes na))
      by (rewrite Hcs; apply in_or_app; right; now left).
    specialize (IH na Hna). rewrite Forall_forall in IH.
    destruct (IH (n, c) Hin n (tftypes.WithAttributeName path n) e Hkv)
      as (names & d & Hreach & Hd & Hpath & Hmsg).
    exists (n :: names), d. split; [|split; [exact Hd|split; [|exact Hmsg]]].
    + simpl. exists na, c. repeat split; assumption.
    + rewrite Hpath. unfold tftypes.WithAttributeName. now rewrite <- app_assoc.
Qed.

Lemma convertNested_ext (f g : Attribute AttrType -> Attribute AttrType)
    (path : tftypes.AttributePath) (attrs : list (string * Attribute AttrType)) :
  Forall (fun kv => forall name p,
            tfprotov6SchemaAttribute (f (snd kv)) name p
            = tfprotov6SchemaAttribute (g (snd kv)) name p) attrs ->
  forall acc,
    convertNested tfprotov6SchemaAttribute path
      (map (fun kv => (fst kv, f (snd kv))) attrs) acc
    = convertNested tfprotov6SchemaAttribute path
        (map (fun kv => (fst kv, g (snd kv))) attrs) acc.
Proof.
  induction attrs as [|[n c] attrs IH]; intros Hall acc; [reflexivity|].
  inversion Hall as [|? ? Hc Hrest]; subst. simpl in *.
  rewrite Hc.
  destruct (tfprotov6SchemaAttribute (g c) n (tftypes.WithAttributeName path n)) as [s [e|]];
    [reflexivity|]. now apply IH.
Qed.

(** X5: validators and plan modifiers, at any depth of the tree, have no
    part in the conversion: the tree stripped of them converts to the same
    schema, or fails with the same error. *)
Theorem tfprotov6SchemaAttribute_ignores_hooks (a : Attribute AttrType) :
  forall name path,
    tfprotov6SchemaAttribute (stripHooks a) name path = tfprotov6SchemaAttribute a name path.
Proof.
  induction a as [a IH] using Attribute_tree_ind. intros name path.
  rewrite (tfprotov6SchemaAttribute_unfold a), (tfprotov6SchemaAttribute_unfold (stripHooks a)).
  rewrite (stripHooks_unfold a).
  unfold tfprotov6SchemaAttribute_body.
  assert (Hhead : schemaAttributeHeader (stripHooks_body stripHooks a) name
                  = schemaAttributeHeader a name) by reflexivity.
  assert (Hset : attributesSet (stripHooks_body stripHooks a) = attributesSet a).
  { unfold attributesSet, stripHooks_body. simpl.
    destruct (Attributes a) as [na|]; [|reflexivity]. simpl. now rewrite length_map. }
  rewrite !attributesUnset_negb, Hhead, Hset.
  change (Type_ (stripHooks_body stripHooks a)) with (Type_ a).
  destruct (attributesSet a && notNil (Type_ a)); [reflexivity|].
  destruct (negb (attributesSet a) && isNil (Type_ a)); [reflexivity|].
  destruct (Type_ a) as [ty|]; [reflexivity|].
  unfold stripHooks_body at 1. cbn [Attributes].
  destruct (Attributes a) as [na|] eqn:Hna; [|reflexivity].
  cbn [GetMinItems GetMaxItems GetNestingMode GetAttributes].
  destruct (wireNestingMode (GetNestingMode na)) as [nesting|]; [|reflexivity].
  specialize (IH na eq_refl).
  pose proof (convertNested_ext stripHooks (fun c => c) path (GetAttributes na)) as Hext.
  rewrite Hext.
  - replace (map (fun kv : string * Attribute AttrType => (fst kv, snd kv)) (GetAttributes na))
      with (GetAttributes na); [reflexivity|].
    clear. induction (GetAttributes na) as [|[n c] l IHl]; [reflexivity|].
    simpl. now rewrite <- IHl.
  - eapply Forall_impl; [|exact IH]. intros kv Hkv n p. apply Hkv.
Qed.

(** *** The path step *)

(** X6: whenever an attribute converts to a wire schema,
    [ApplyTerraform5AttributePathStep] hands the step to the part the schema
    shows: to the type of a leaf and to the nested attributes of a branch.
    The error of its own, for an attribute with neither, is never the answer
    for an attribute that converts. *)
Theorem ApplyTerraform5AttributePathStep_delegates (a : Attribute AttrType) name path s step :
  tfprotov6SchemaAttribute a name path = (Some s, None) ->
  (forall wireType,
      tfprotov6.Type_ s = Some wireType ->
      exists ty,
        Type_ a = Some ty
        /\ ApplyTerraform5AttributePathStep a step
           = Type_ApplyTerraform5AttributePathStep ty step)
  /\ (forall obj,
         tfprotov6.NestedType s = Some obj ->
         exists na,
           Attributes a = Some na
           /\ ApplyTerraform5AttributePathStep a step
              = Attributes_ApplyTerraform5AttributePathStep na step)
  /\ (tfprotov6.Type_ s <> None \/ tfprotov6.NestedType s <> None).
Proof.
  intros Hs.
  assert (Hhead : tfprotov6.Type_ (schemaAttributeHeader a name) = None
                  /\ tfprotov6.NestedType (schemaAttributeHeader a name) = None).
  { unfold schemaAttributeHeader.
    destruct (negb (DeprecationMessage a =? "")), (negb (Description a =? "")),
      (negb (MarkdownDescription a =? "")); split; reflexivity. }
  destruct Hhead as [Ht Hn].
  destruct (structurallyInvalid a) eqn:Hinv.
  { destruct (convert_invalid_node a name path Hinv) as (e & He & _). congruence. }
  destruct (valid_shape a Hinv) as [(ty & Hty & Hset)|(na & nesting & Hty & Hna & Hw & Hset)].
  - rewrite (convert_leaf a name path ty Hty Hset) in Hs. injection Hs as <-. simpl.
    split; [|split].
    + intros w _. exists ty. split; [exact Hty|].
      unfold ApplyTerraform5AttributePathStep. now rewrite Hty.
    + intros obj Hobj. congruence.
    + left. discriminate.
  - destruct (convert_branch_children a name path na nesting s Hty Hna Hw Hset Hs)
      as (ss & _ & _ & ->). simpl.
    split; [|split].
    + intros w Hwire. congruence.
    + intros obj' _. exists na. split; [exact Hna|].
      unfold ApplyTerraform5AttributePathStep. now rewrite Hty, Hna.
    + right. discriminate.
Qed.

(** *** The validation walk: where it goes *)

Lemma below_refl path e : eventPath e = path -> below path e.
Proof. intros He. exists []. now rewrite app_nil_r. Qed.

Lemma inside_below path e : inside path e -> below path e.
Proof.
  destruct e; simpl; try exact (fun H => H).
  intros (step & suffix & ->). now exists (step :: suffix).
Qed.

Lemma below_extend path more e : below (path ++ more) e -> below path e.
Proof. intros [suffix He]. exists (more ++ suffix). now rewrite He, app_assoc. Qed.

Lemma inside_extend path more e : inside (path ++ more) e -> inside path e.
Proof.
  destruct e; simpl; try apply below_extend.
  intros (step & suffix & ->). rewrite <- app_assoc.
  destruct more as [|m more]; simpl; eauto.
Qed.

Lemma below_inside_step path step more e :
  below (path ++ step :: more) e -> inside path e.
Proof.
  intros Hb. destruct e; simpl; try (now apply (below_extend path (step :: more))).
  destruct Hb as [suffix He]. simpl in He. rewrite He, <- app_assoc. simpl. eauto.
Qed.

Lemma validateNested_inside path more config (attrs : list (string * Attribute AttrType)) resp :
  Forall (fun kv => walksInside (snd kv)) attrs ->
  Forall (inside path) (snd (validateNested validate (path ++ more) config attrs resp)).
Proof.
  revert resp. induction attrs as [|[n c] attrs IH]; intros resp Hall; simpl; [constructor|].
  inversion Hall as [|? ? Hc Hrest]; subst. simpl in Hc.
  destruct (Hc (ValidateAttributeRequest.mk (tftypes.WithAttributeName (path ++ more) n)
                  None config)
               (ValidateAttributeResponse.mk (ValidateAttributeResponse.Diagnostics resp)))
    as (rest & Hlog & Hin).
  destruct (validate c _ _) as [r1 l1]. simpl in Hlog. subst l1.
  specialize (IH (ValidateAttributeResponse.mk (ValidateAttributeResponse.Diagnostics r1)) Hrest).
  destruct (validateNested validate (path ++ more) config attrs _) as [r2 l2]. simpl in *.
  unfold tftypes.WithAttributeName in *. rewrite <- app_assoc in *.
  constructor.
  - destruct more as [|m more]; simpl; eauto.
  - apply Forall_app. split; [|exact IH].
    eapply Forall_impl; [|exact Hin]. intros e He. now apply inside_extend in He.
Qed.

Lemma validateListElems_inside path config (attrs : list (string * Attribute AttrType))
    idx elems resp :
  Forall (fun kv => walksInside (snd kv)) attrs ->
  Forall (inside path) (snd (validateListElems validate path config attrs idx elems resp)).
Proof.
  intros Hall. revert idx resp.
  induction elems as [|v elems IH]; intros idx resp; simpl; [constructor|].
  pose proof (validateNested_inside path [tftypes.ElementKeyInt (Z.of_nat idx)] config
                attrs resp Hall) as Hhere.
  unfold tftypes.WithElementKeyInt.
  destruct (validateNested validate _ config attrs resp) as [r1 l1].
  specialize (IH (S idx) r1).
  destruct (validateListElems validate path config attrs (S idx) elems r1) as [r2 l2].
  simpl in *. apply Forall_app. now split.
Qed.

Lemma validateMapElems_inside path config (attrs : list (string * Attribute AttrType))
    elems resp :
  Forall (fun kv => walksInside (snd kv)) attrs ->
  Forall (inside path) (snd (validateMapElems validate path config attrs elems resp)).
Proof.
  intros Hall. revert resp.
  induction elems as [|[k v] elems IH]; intros resp; simpl; [constructor|].
  pose proof (validateNested_inside path [tftypes.ElementKeyString k] config
                attrs resp Hall) as Hhere.
  unfold tftypes.WithElementKeyString.
  destruct (validateNested validate _ config attrs resp) as [r1 l1].
  specialize (IH r1).
  destruct (validateMapElems validate path config attrs elems r1) as [r2 l2].
  simpl in *. apply Forall_app. now split.
Qed.

Lemma validateNestingMode_inside (na : NestedAttributes AttrType) req resp :
  Forall (fun kv => walksInside (snd kv)) (GetAttributes na) ->
  Forall (inside (ValidateAttributeRequest.AttributePath req))
         (snd (validateNestingMode validate na req resp)).
Proof.
  intros Hall. unfold validateNestingMode.
  destruct (N.eqb (GetNestingMode na) NestingModeList).
  { destruct (attr.asList _) as [elems|]; [|constructor].
    pose proof (validateListElems_inside (ValidateAttributeRequest.AttributePath req)
                  (ValidateAttributeRequest.Config req) (GetAttributes na) 0 elems resp Hall).
    destruct (validateListElems _ _ _ _ _ _ _). assumption. }
  destruct (N.eqb (GetNestingMode na) NestingModeSet); [constructor|].
  destruct (N.eqb (GetNestingMode na) NestingModeMap).
  { destruct (attr.asMap _) as [elems|]; [|constructor].
    pose proof (validateMapElems_inside (ValidateAttributeRequest.AttributePath req)
                  (ValidateAttributeRequest.Config req) (GetAttributes na) elems resp Hall).
    destruct (validateMapElems _ _ _ _ _ _). assumption. }
  destruct (N.eqb (GetNestingMode na) NestingModeSingle); [|constructor].
  pose proof (validateNested_inside (ValidateAttributeRequest.AttributePath req) []
                (ValidateAttributeRequest.Config req) (GetAttributes na) resp Hall) as Hhere.
  rewrite app_nil_r in Hhere.
  destruct (validateNested _ _ _ _ _). assumption.
Qed.

Lemma validate_walksInside (a : Attribute AttrType) : walksInside a.
Proof.
  induction a as [a IH] using Attribute_tree_ind. intros req resp.
  rewrite validate_unfold. unfold validate_body.
  destruct (attributesUnset a && isNil (Type_ a)); [eexists; split; [reflexivity|constructor]|].
  destruct (attributesSet a && notNil (Type_ a)); [eexists; split; [reflexivity|constructor]|].
  destruct (GetAttribute _ _) as [cfg diags].
  destruct (diagnostics.DiagsHasErrors diags).
  { eexists; split; [reflexivity|]. constructor; [|constructor]. now apply below_refl. }
  set (req' := ValidateAttributeRequest.mk _ cfg _).
  pose proof (validateResolved_log a req' (appendDiagnostics resp diags)) as Hlog.
  destruct (validateResolved validate a req' (appendDiagnostics resp diags)) as [r l].
  simpl in Hlog. eexists; split; [reflexivity|].
  constructor; [now apply below_refl|]. rewrite Hlog. apply Forall_app. split.
  - rewrite runValidators_log. apply Forall_forall. intros e He.
    apply in_map_iff in He as (i & <- & _). now apply below_refl.
  - destruct (Attributes a) as [na|] eqn:Hna; [|constructor].
    apply (validateNestingMode_inside na req'). exact (IH na eq_refl).
Qed.

(** X7: [validate] stays in the subtree it is called on.  Its first call is
    entering the attribute at the path of the request; every later call is
    at that path or below it, and no attribute is entered at that path
    again. *)
Theorem validate_stays_below_its_path (a : Attribute AttrType) req resp :
  exists rest,
    snd (validate a req resp) = Enter (ValidateAttributeRequest.AttributePath req) :: rest
    /\ Forall (below (ValidateAttributeRequest.AttributePath req)) rest
    /\ ~ In (Enter (ValidateAttributeRequest.AttributePath req)) rest.
Proof.
  destruct (validate_walksInside a req resp) as (rest & Hlog & Hin).
  exists rest. split; [exact Hlog|]. split.
  - eapply Forall_impl; [|exact Hin]. intros e. apply inside_below.
  - intros Habs. rewrite Forall_forall in Hin. apply Hin in Habs.
    destruct Habs as (step & suffix & Heq).
    apply (f_equal (@length _)) in Heq. rewrite length_app in Heq. simpl in Heq. lia.
Qed.

Lemma entersAtDepth_app depth (l1 l2 : Log) :
  entersAtDepth depth (l1 ++ l2) = entersAtDepth depth l1 ++ entersAtDepth depth l2.
Proof. unfold entersAtDepth. apply flat_map_app. Qed.

Lemma entersAtDepth_inside path (l : Log) depth :
  depth <= length path -> Forall (inside path) l -> entersAtDepth depth l = [].
Proof.
  intros Hd Hin. induction Hin as [|e l He _ IH]; [reflexivity|].
  unfold entersAtDepth in *. simpl. rewrite IH, app_nil_r.
  destruct e; try reflexivity.
  destruct He as (step & suffix & ->). rewrite length_app. simpl.
  destruct (Nat.eqb_spec (length path + S (length suffix)) depth); [lia|reflexivity].
Qed.

Lemma entersAtDepth_validators depth idx (vs : list AttributeValidator) req resp :
  entersAtDepth depth (snd (runValidators idx vs req resp)) = [].
Proof.
  rewrite runValidators_log. generalize (seq idx (length vs)). intros l.
  induction l as [|i l IH]; [reflexivity|]. exact IH.
Qed.

(** The children entered by the loop over the nested attributes: each one
    once, in the order of the iteration. *)
Lemma validateNested_enters_each base config (attrs : list (string * Attribute AttrType)) resp :
  entersAtDepth (S (length base)) (snd (validateNested validate base config attrs resp))
  = map (fun kv => tftypes.WithAttributeName base (fst kv)) attrs.
Proof.
  revert resp. induction attrs as [|[n c] attrs IH]; intros resp; simpl; [reflexivity|].
  destruct (validate_walksInside c
              (ValidateAttributeRequest.mk (tftypes.WithAttributeName base n) None config)
              (ValidateAttributeResponse.mk (ValidateAttributeResponse.Diagnostics resp)))
    as (rest & Hlog & Hin).
  destruct (validate c _ _) as [r1 l1]. simpl in Hlog, Hin. subst l1.
  specialize (IH (ValidateAttributeResponse.mk (ValidateAttributeResponse.Diagnostics r1))).
  destruct (validateNested validate base config attrs _) as [r2 l2]. simpl in *.
  assert (Hlen : length (tftypes.WithAttributeName base n) = S (length base))
    by (unfold tftypes.WithAttributeName; rewrite length_app; simpl; lia).
  change (Enter (tftypes.WithAttributeName base n) :: rest ++ l2)
    with ([Enter (tftypes.WithAttributeName base n)] ++ rest ++ l2).
  rewrite !entersAtDepth_app, IH.
  rewrite (entersAtDepth_inside (tftypes.WithAttributeName base n) rest) by (try lia; assumption).
  rewrite Hlen, Nat.eqb_refl. reflexivity.
Qed.

Lemma validateListElems_enters_each path config (attrs : list (string * Attribute AttrType))
    idx elems resp :
  entersAtDepth (S (S (length path)))
    (snd (validateListElems validate path config attrs idx elems resp))
  = flat_map (fun i => map (fun kv => tftypes.WithAttributeName
                                        (tftypes.WithElementKeyInt path (Z.of_nat i)) (fst kv))
                         attrs)
      (seq idx (length elems)).
Proof.
  revert idx resp. induction elems as [|v elems IH]; intros idx resp; simpl; [reflexivity|].
  pose proof (validateNested_enters_each (tftypes.WithElementKeyInt path (Z.of_nat idx))
                config attrs resp) as Hhere.
  assert (Hlen : length (tftypes.WithElementKeyInt path (Z.of_nat idx)) = S (length path))
    by (unfold tftypes.WithElementKeyInt; rewrite length_app; simpl; lia).
  rewrite Hlen in Hhere.
  destruct (validateNested validate _ config attrs resp) as [r1 l1].
  specialize (IH (S idx) r1).
  destruct (validateListElems validate path config attrs (S idx) elems r1) as [r2 l2].
  simpl in *. now rewrite entersAtDepth_app, Hhere, IH.
Qed.

Lemma validateMapElems_enters_each path config (attrs : list (string * Attribute AttrType))
    elems resp :
  entersAtDepth (S (S (length path)))
    (snd (validateMapElems validate path config attrs elems resp))
  = flat_map (fun key => map (fun kv => tftypes.WithAttributeName
                                          (tftypes.WithElementKeyString path key) (fst kv))
                           attrs)
      (map fst elems).
Proof.
  revert resp. induction elems as [|[k v] elems IH]; intros resp; simpl; [reflexivity|].
  pose proof (validateNested_enters_each (tftypes.WithElementKeyString path k)
                config attrs resp) as Hhere.
  assert (Hlen : length (tftypes.WithElementKeyString path k) = S (length path))
    by (unfold tftypes.WithElementKeyString; rewrite length_app; simpl; lia).
  rewrite Hlen in Hhere.
  destruct (validateNested validate _ config attrs resp) as [r1 l1].
  specialize (IH r1).
  destruct (validateMapElems validate path config attrs elems r1) as [r2 l2].
  simpl in *. now rewrite entersAtDepth_app, Hhere, IH.
Qed.

(** X8: the children a valid branch enters, once its value is resolved
    without error.  In single mode: every child once, in the order of the
    iteration, one step below the path.  In list mode, on a list: for every
    index from 0 in turn, every child once, two steps below.  In map mode,
    on a map: the same for every key.  Whatever the validators and the
    children report, no child is skipped and none is entered twice. *)
Theorem validate_enters_each_child (a : Attribute AttrType) req resp na cfg diags :
  bothOrNeither a = false ->
  Attributes a = Some na ->
  GetAttribute (ValidateAttributeRequest.Config req)
    (ValidateAttributeRequest.AttributePath req) = (cfg, diags) ->
  diagnostics.DiagsHasErrors diags = false ->
  let path := ValidateAttributeRequest.AttributePath req in
  let log := snd (validate a req resp) in
  (GetNestingMode na = NestingModeSingle ->
   entersAtDepth (S (length path)) log
   = map (fun kv => tftypes.WithAttributeName path (fst kv)) (GetAttributes na))
  /\ (forall elems,
         GetNestingMode na = NestingModeList -> attr.asList cfg = Some elems ->
         entersAtDepth (S (S (length path))) log
         = flat_map (fun i => map (fun kv => tftypes.WithAttributeName
                                               (tftypes.WithElementKeyInt path (Z.of_nat i))
                                               (fst kv))
                                (GetAttributes na))
             (seq 0 (length elems)))
  /\ (forall elems,
         GetNestingMode na = NestingModeMap -> attr.asMap cfg = Some elems ->
         entersAtDepth (S (S (length path))) log
         = flat_map (fun key => map (fun kv => tftypes.WithAttributeName
                                                 (tftypes.WithElementKeyString path key)
                                                 (fst kv))
                                  (GetAttributes na))
             (map fst elems)).
Proof.
  intros Hv Hna Hcfg Hok path log. subst log.
  rewrite (validate_resolved a req resp cfg diags Hv Hcfg Hok). cbv zeta. fold path.
  cbn [snd]. rewrite validateResolved_log, Hna.
  set (req' := ValidateAttributeRequest.mk path cfg (ValidateAttributeRequest.Config req)).
  set (r1 := fst (runValidators 0 (Validators a) req' (appendDiagnostics resp diags))).
  assert (Hown : forall depth l,
             length path < depth ->
             entersAtDepth depth
               (Enter path :: Resolve FromConfig path
                  :: snd (runValidators 0 (Validators a) req' (appendDiagnostics resp diags))
                  ++ l)
             = entersAtDepth depth l).
  { intros depth l Hd.
    change (Enter path :: Resolve FromConfig path :: ?x ++ l)
      with ([Enter path; Resolve FromConfig path] ++ x ++ l).
    rewrite !entersAtDepth_app, entersAtDepth_validators.
    unfold entersAtDepth at 1. simpl.
    destruct (Nat.eqb_spec (length path) depth); [lia|reflexivity]. }
  unfold validateNestingMode.
  cbn [ValidateAttributeRequest.AttributePath ValidateAttributeRequest.AttributeConfig
       ValidateAttributeRequest.Config req'].
  split; [|split].
  - intros Hm. rewrite Hown by lia. rewrite Hm. simpl.
    pose proof (validateNested_enters_each path (ValidateAttributeRequest.Config req)
                  (GetAttributes na) r1) as He.
    destruct (validateNested validate path _ (GetAttributes na) r1). exact He.
  - intros elems Hm Hl. rewrite Hown by lia. rewrite Hm, Hl. simpl.
    pose proof (validateListElems_enters_each path (ValidateAttributeRequest.Config req)
                  (GetAttributes na) 0 elems r1) as He.
    destruct (validateListElems validate path _ (GetAttributes na) 0 elems r1). exact He.
  - intros elems Hm Hl. rewrite Hown by lia. rewrite Hm, Hl. simpl.
    pose proof (validateMapElems_enters_each path (ValidateAttributeRequest.Config req)
                  (GetAttributes na) elems r1) as He.
    destruct (validateMapElems validate path _ (GetAttributes na) elems r1). exact He.
Qed.

(** *** The validation walk: what it reports *)

Lemma extends_refl {A : Type} (l : list A) : exists more, l = l ++ more.
Proof. exists []. now rewrite app_nil_r. Qed.

Lemma extends_trans {A : Type} (l1 l2 l3 : list A) :
  (exists more, l2 = l1 ++ more) -> (exists more, l3 = l2 ++ more) ->
  exists more, l3 = l1 ++ more.
Proof. intros [m1 ->] [m2 ->]. exists (m1 ++ m2). now rewrite app_assoc. Qed.

Lemma allOf_Forall {A : Type} (P : A -> Prop) l : allOf P l <-> Forall P l.
Proof.
  induction l as [|x l IH]; simpl; split; intros Hl; try constructor; try tauto.
  all: inversion Hl; subst; tauto.
Qed.

Lemma validatorsAppend_unfold (a : Attribute AttrType) :
  validatorsAppend a = validatorsAppend_body validatorsAppend a.
Proof. destruct a; reflexivity. Qed.

Lemma runValidators_appends idx (vs : list AttributeValidator) req resp :
  allOf validatorAppends vs ->
  exists more,
    ValidateAttributeResponse.Diagnostics (fst (runValidators idx vs req resp))
    = ValidateAttributeResponse.Diagnostics resp ++ more.
Proof.
  revert idx resp. induction vs as [|v vs IH]; intros idx resp Hall; simpl.
  - apply extends_refl.
  - destruct Hall as [Hv Hvs].
    specialize (IH (S idx) (Validate v req resp) Hvs).
    destruct (runValidators (S idx) vs req (Validate v req resp)) as [r l]. simpl in *.
    exact (extends_trans _ _ _ (Hv req resp) IH).
Qed.

(** The property of the walk the loops hand down. *)
Lemma validateNested_appends base config (attrs : list (string * Attribute AttrType)) resp :
  Forall (fun kv => appendsOnly (snd kv)) attrs ->
  exists more,
    ValidateAttributeResponse.Diagnostics (fst (validateNested validate base config attrs resp))
    = ValidateAttributeResponse.Diagnostics resp ++ more.
Proof.
  revert resp. induction attrs as [|[n c] attrs IH]; intros resp Hall; simpl.
  - apply extends_refl.
  - inversion Hall as [|? ? Hc Hrest]; subst. simpl in Hc.
    pose proof (Hc (ValidateAttributeRequest.mk (tftypes.WithAttributeName base n) None config)
                  (ValidateAttributeResponse.mk (ValidateAttributeResponse.Diagnostics resp)))
      as Hhere.
    destruct (validate c _ _) as [r1 l1].
    specialize (IH (ValidateAttributeResponse.mk (ValidateAttributeResponse.Diagnostics r1))
                  Hrest).
    destruct (validateNested validate base config attrs _) as [r2 l2]. simpl in *.
    exact (extends_trans _ _ _ Hhere IH).
Qed.

Lemma validateListElems_appends path config (attrs : list (string * Attribute AttrType))
    idx elems resp :
  Forall (fun kv => appendsOnly (snd kv)) attrs ->
  exists more,
    ValidateAttributeResponse.Diagnostics
      (fst (validateListElems validate path config attrs idx elems resp))
    = ValidateAttributeResponse.Diagnostics resp ++ more.
Proof.
  intros Hall. revert idx resp.
  induction elems as [|v elems IH]; intros idx resp; simpl; [apply extends_refl|].
  pose proof (validateNested_appends (tftypes.WithElementKeyInt path (Z.of_nat idx))
                config attrs resp Hall) as Hhere.
  destruct (validateNested validate _ config attrs resp) as [r1 l1].
  specialize (IH (S idx) r1).
  destruct (validateListElems validate path config attrs (S idx) elems r1) as [r2 l2].
  simpl in *. exact (extends_trans _ _ _ Hhere IH).
Qed.

Lemma validateMapElems_appends path config (attrs : list (string * Attribute AttrType))
    elems resp :
  Forall (fun kv => appendsOnly (snd kv)) attrs ->
  exists more,
    ValidateAttributeResponse.Diagnostics
      (fst (validateMapElems validate path config attrs elems resp))
    = ValidateAttributeResponse.Diagnostics resp ++ more.
Proof.
  intros Hall. revert resp.
  induction elems as [|[k v] elems IH]; intros resp; simpl; [apply extends_refl|].
  pose proof (validateNested_appends (tftypes.WithElementKeyString path k)
                config attrs resp Hall) as Hhere.
  destruct (validateNested validate _ config attrs resp) as [r1 l1].
  specialize (IH r1).
  destruct (validateMapElems validate path config attrs elems r1) as [r2 l2].
  simpl in *. exact (extends_trans _ _ _ Hhere IH).
Qed.

Lemma validateNestingMode_appends (na : NestedAttributes AttrType) req resp :
  Forall (fun kv => appendsOnly (snd kv)) (GetAttributes na) ->
  exists more,
    ValidateAttributeResponse.Diagnostics (snd (fst (validateNestingMode validate na req resp)))
    = ValidateAttributeResponse.Diagnostics resp ++ more.
Proof.
  intros Hall. unfold validateNestingMode.
  destruct (N.eqb (GetNestingMode na) NestingModeList).
  { destruct (attr.asList _) as [elems|]; [|eexists; reflexivity].
    pose proof (validateListElems_appends (ValidateAttributeRequest.AttributePath req)
                  (ValidateAttributeRequest.Config req) (GetAttributes na) 0 elems resp Hall).
    destruct (validateListElems _ _ _ _ _ _ _). assumption. }
  destruct (N.eqb (GetNestingMode na) NestingModeSet); [apply extends_refl|].
  destruct (N.eqb (GetNestingMode na) NestingModeMap).
  { destruct (attr.asMap _) as [elems|]; [|eexists; reflexivity].
    pose proof (validateMapElems_appends (ValidateAttributeRequest.AttributePath req)
                  (ValidateAttributeRequest.Config req) (GetAttributes na) elems resp Hall).
    destruct (validateMapElems _ _ _ _ _ _). assumption. }
  destruct (N.eqb (GetNestingMode na) NestingModeSingle); [|eexists; reflexivity].
  pose proof (validateNested_appends (ValidateAttributeRequest.AttributePath req)
                (ValidateAttributeRequest.Config req) (GetAttributes na) resp Hall).
  destruct (validateNested _ _ _ _ _). assumption.
Qed.

Lemma validateDeprecation_appends (a : Attribute AttrType) path cfg resp :
  exists more,
    ValidateAttributeResponse.Diagnostics (validateDeprecation a path cfg resp)
    = ValidateAttributeResponse.Diagnostics resp ++ more.
Proof.
  unfold validateDeprecation.
  destruct (negb (DeprecationMessage a =? "") && notNil cfg); [|apply extends_refl].
  destruct cfg as [v|]; [|apply extends_refl].
  destruct (attr.ToTerraformValue v) as [tf [e|]]; [eexists; reflexivity|].
  destruct (notNil tf); [eexists; reflexivity|apply extends_refl].
Qed.

(** X9: [validate] never removes or rewrites a diagnostic.  When every
    validator of the tree only appends to the diagnostics it is given, the
    diagnostics after the call are those before it with others appended. *)
Theorem validate_only_appends (a : Attribute AttrType) :
  validatorsAppend a ->
  forall req resp,
    exists more,
      ValidateAttributeResponse.Diagnostics (fst (validate a req resp))
      = ValidateAttributeResponse.Diagnostics resp ++ more.
Proof.
  induction a as [a IH] using Attribute_tree_ind. intros Happ req resp.
  rewrite validatorsAppend_unfold in Happ. destruct Happ as [Hvs Hcs].
  rewrite validate_unfold. unfold validate_body.
  destruct (attributesUnset a && isNil (Type_ a)); [eexists; reflexivity|].
  destruct (attributesSet a && notNil (Type_ a)); [eexists; reflexivity|].
  destruct (GetAttribute _ _) as [cfg diags].
  destruct (diagnostics.DiagsHasErrors diags); [eexists; reflexivity|].
  set (req' := ValidateAttributeRequest.mk _ cfg _).
  assert (Hres : exists more,
             ValidateAttributeResponse.Diagnostics
               (fst (validateResolved validate a req' (appendDiagnostics resp diags)))
             = ValidateAttributeResponse.Diagnostics (appendDiagnostics resp diags) ++ more).
  { unfold validateResolved.
    pose proof (runValidators_appends 0 (Validators a) req' (appendDiagnostics resp diags) Hvs)
      as Hv.
    destruct (runValidators 0 (Validators a) req' (appendDiagnostics resp diags)) as [r1 l1].
    simpl in Hv.
    assert (Hn : exists more,
               ValidateAttributeResponse.Diagnostics
                 (snd (fst match Attributes a with
                           | Some attributes => validateNestingMode validate attributes req' r1
                           | None => (Continue, r1, [])
                           end))
               = ValidateAttributeResponse.Diagnostics r1 ++ more).
    { destruct (Attributes a) as [na|] eqn:Hna; [|apply extends_refl].
      apply validateNestingMode_appends.
      specialize (IH na eq_refl). apply allOf_Forall in Hcs.
      rewrite Forall_forall in *. intros kv Hin req0 resp0.
      exact (IH kv Hin (Hcs kv Hin) req0 resp0). }
    destruct (match Attributes a with
              | Some attributes => validateNestingMode validate attributes req' r1
              | None => (Continue, r1, [])
              end) as [[flow r2] l2]. simpl in Hn.
    destruct flow; simpl.
    - exact (extends_trans _ _ _ (extends_trans _ _ _ Hv Hn)
               (validateDeprecation_appends a _ _ r2)).
    - exact (extends_trans _ _ _ Hv Hn). }
  destruct (validateResolved validate a req' (appendDiagnostics resp diags)) as [r l].
  simpl in *. destruct Hres as [more ->]. exists (diags ++ more). now rewrite app_assoc.
Qed.

(** X10: a branch that cannot be walked.  When the nesting mode is list or
    map and the resolved value is not of that container type, or the mode is
    none of the four, [validate] runs the validators of the attribute and
    then appends exactly one diagnostic: an error "Attribute Validation
    Error" at the path.  It enters no child and the deprecation check is not
    reached, so a deprecated attribute gets no warning. *)
Theorem validate_unwalkable_branch (a : Attribute AttrType) req resp cfg diags :
  bothOrNeither a = false ->
  GetAttribute (ValidateAttributeRequest.Config req)
    (ValidateAttributeRequest.AttributePath req) = (cfg, diags) ->
  diagnostics.DiagsHasErrors diags = false ->
  nestingWalkable a cfg = false ->
  let path := ValidateAttributeRequest.AttributePath req in
  let validated :=
    runValidators 0 (Validators a)
      (ValidateAttributeRequest.mk path cfg (ValidateAttributeRequest.Config req))
      (appendDiagnostics resp diags) in
  exists d,
    validate a req resp
    = (appendDiagnostics (fst validated) [d],
       Enter path :: Resolve FromConfig path :: snd validated)
    /\ tfprotov6.Severity d = tfprotov6.DiagnosticSeverityError
    /\ tfprotov6.Summary d = "Attribute Validation Error"
    /\ tfprotov6.Attribute d = Some path.
Proof.
  intros Hv Hcfg Hok Hw path validated.
  rewrite (validate_resolved a req resp cfg diags Hv Hcfg Hok). cbv zeta. fold path.
  unfold validateResolved. fold validated. destruct validated as [r1 l1].
  unfold nestingWalkable in Hw.
  destruct (Attributes a) as [na|]; [|discriminate].
  unfold validateNestingMode.
  cbn [ValidateAttributeRequest.AttributePath ValidateAttributeRequest.AttributeConfig
       ValidateAttributeRequest.Config].
  destruct (N.eqb (GetNestingMode na) NestingModeList).
  { destruct (attr.asList cfg); [discriminate|]. simpl. rewrite app_nil_r.
    eexists. repeat split. }
  destruct (N.eqb (GetNestingMode na) NestingModeSet); [discriminate|].
  destruct (N.eqb (GetNestingMode na) NestingModeMap).
  { destruct (attr.asMap cfg); [discriminate|]. simpl. rewrite app_nil_r.
    eexists. repeat split. }
  rewrite Hw. simpl. rewrite app_nil_r. eexists. repeat split.
Qed.

(** X11: a value that does not convert.  For an attribute with a
    deprecation message whose validation reaches the deprecation check with a
    value that is not nil, an error of [ToTerraformValue] takes the place of
    the warning: [validate] is the validation of the same attribute without
    the message, followed by one error diagnostic at the path that carries
    the text of the error. *)
Theorem validate_deprecation_conversion_error (a : Attribute AttrType) req resp v tf err diags :
  bothOrNeither a = false ->
  DeprecationMessage a <> EmptyString ->
  GetAttribute (ValidateAttributeRequest.Config req)
    (ValidateAttributeRequest.AttributePath req) = (Some v, diags) ->
  diagnostics.DiagsHasErrors diags = false ->
  nestingWalkable a (Some v) = true ->
  attr.ToTerraformValue v = (tf, Some err) ->
  let path := ValidateAttributeRequest.AttributePath req in
  let plain := validate (withDeprecationMessage EmptyString a) req resp in
  validate a req resp
  = (ValidateAttributeResponse.mk
       (ValidateAttributeResponse.Diagnostics (fst plain)
          ++ [tfprotov6.mkDiagnostic tfprotov6.DiagnosticSeverityError
                "Attribute Validation Error"
                ("Attribute validation cannot convert value. Report this to the provider developer:"
                   ++ newline ++ newline ++ err)%string
                (Some path)]),
     snd plain).
Proof.
  change (ValidateAttributeResponse.mk
            (ValidateAttributeResponse.Diagnostics ?r ++ ?d))
    with (appendDiagnostics r d).
  intros Hv Hdm Hcfg Hok Hw Htf path plain.
  assert (Hplain : plain
            = (fst (validateResolved validate (withDeprecationMessage EmptyString a)
                      (ValidateAttributeRequest.mk path (Some v)
                         (ValidateAttributeRequest.Config req))
                      (appendDiagnostics resp diags)),
               Enter path :: Resolve FromConfig path
                 :: snd (validateResolved validate (withDeprecationMessage EmptyString a)
                           (ValidateAttributeRequest.mk path (Some v)
                              (ValidateAttributeRequest.Config req))
                           (appendDiagnostics resp diags))))
    by (subst plain; now apply validate_resolved).
  rewrite (validate_resolved a req resp (Some v) diags Hv Hcfg Hok). cbv zeta. fold path.
  rewrite validateResolved_deprecation by exact Hw. cbv zeta.
  cbn [ValidateAttributeRequest.AttributePath ValidateAttributeRequest.AttributeConfig fst snd].
  rewrite Hplain. cbn [fst snd].
  apply String.eqb_neq in Hdm.
  unfold validateDeprecation. rewrite Hdm. simpl. rewrite Htf. reflexivity.
Qed.

(** The path of an error extends the given path, strictly when the error
    comes from a child. *)
Lemma convert_error_below (a : Attribute AttrType) :
  forall name path e,
    snd (tfprotov6SchemaAttribute a name path) = Some e ->
    exists suffix,
      tftypes.Path e = path ++ suffix
      /\ (structurallyInvalid a = false -> suffix <> []).
Proof.
  induction a as [a IH] using Attribute_tree_ind.
  intros name path e He.
  destruct (structurallyInvalid a) eqn:Hinv.
  - destruct (convert_invalid_node a name path Hinv) as (e' & He' & Hp).
    rewrite He' in He. injection He as <-.
    exists []. rewrite app_nil_r. split; [exact Hp|discriminate].
  - apply (convert_child_error a name path e Hinv) in He.
    destruct He as (na & pre & [n c] & post & Hna & Hcs & _ & Hkv).
    assert (Hin : In (n, c) (GetAttributes na))
      by (rewrite Hcs; apply in_or_app; right; now left).
    specialize (IH na Hna). rewrite Forall_forall in IH.
    destruct (IH (n, c) Hin n (tftypes.WithAttributeName path n) e Hkv) as (suffix & Hp & _).
    exists (tftypes.AttributeName n :: suffix). split; [|discriminate].
    rewrite Hp. unfold tftypes.WithAttributeName. now rewrite <- app_assoc.
Qed.

(** X12: [validate] and [tfprotov6SchemaAttribute] reject the same
    definitions.  [validate] answers with "Invalid Attribute Definition" and
    nothing else exactly when the conversion fails at the very path it was
    given with one of its two messages about the type and the nested
    attributes. *)
Theorem definition_errors_agree (a : Attribute AttrType) req resp name path :
  (exists d,
      validate a req resp
      = (appendDiagnostics resp [d], [Enter (ValidateAttributeRequest.AttributePath req)])
      /\ tfprotov6.Summary d = "Invalid Attribute Definition")
  <-> (exists e,
          tfprotov6SchemaAttribute a name path = (None, Some e)
          /\ tftypes.Path e = path
          /\ (tftypes.Error e = "can't have both Attributes and Type set"
              \/ tftypes.Error e = "must have Attributes or Type set")).
Proof.
  destruct (bothOrNeither a) eqn:Hbn.
  - split; intros _.
    + unfold bothOrNeither in Hbn. apply orb_prop in Hbn as [Hb|Hn].
      * rewrite (convert_both a name path Hb). eexists. repeat split. now left.
      * rewrite (convert_neither a name path Hn). eexists. repeat split. now right.
    + rewrite validate_unfold. unfold validate_body.
      unfold bothOrNeither in Hbn.
      destruct (attributesUnset a && isNil (Type_ a)); [eexists; split; reflexivity|].
      rewrite orb_false_r in Hbn. rewrite Hbn. eexists; split; reflexivity.
  - split.
    + intros (d & Hd & _). exfalso.
      destruct (GetAttribute (ValidateAttributeRequest.Config req)
                  (ValidateAttributeRequest.AttributePath req)) as [cfg diags] eqn:Hcfg.
      destruct (diagnostics.DiagsHasErrors diags) eqn:Herr.
      * rewrite (validate_resolution_error a req resp cfg diags Hbn Hcfg Herr) in Hd.
        discriminate.
      * rewrite (validate_resolved a req resp cfg diags Hbn Hcfg Herr) in Hd. discriminate.
    + intros (e & He & Hpath & Hmsg). exfalso.
      destruct (unrecognizedBranch a) eqn:Hu.
      * destruct (convert_unrecognized a name path Hu) as (na & _ & _ & Hr).
        rewrite Hr in He. injection He as <-. simpl in Hmsg.
        destruct Hmsg; discriminate.
      * assert (Hvalid : structurallyInvalid a = false)
          by (unfold structurallyInvalid; now rewrite Hbn, Hu).
        assert (Hsnd : snd (tfprotov6SchemaAttribute a name path) = Some e)
          by now rewrite He.
        destruct (convert_error_below a name path e Hsnd) as (suffix & Hp & Hne).
        specialize (Hne Hvalid). rewrite Hpath in Hp.
        apply (f_equal (@length _)) in Hp. rewrite length_app in Hp.
        destruct suffix; [congruence|simpl in Hp; lia].
Qed.

(** *** The plan modifiers: what a call leaves and what it passes on *)

Lemma modifiersRun_app (l1 l2 : Log) :
  modifiersRun (l1 ++ l2) = modifiersRun l1 ++ modifiersRun l2.
Proof. unfold modifiersRun. apply flat_map_app. Qed.

Lemma DiagsHasErrors_app (d1 d2 : list tfprotov6.Diagnostic) :
  diagnostics.DiagsHasErrors (d1 ++ d2)
  = diagnostics.DiagsHasErrors d1 || diagnostics.DiagsHasErrors d2.
Proof. unfold diagnostics.DiagsHasErrors. apply existsb_app. Qed.

Lemma runPlanModifiers_prefix idx (ms : AttributePlanModifiers) req resp :
  exists k,
    k <= length ms
    /\ modifiersRun (snd (runPlanModifiers idx ms req resp)) = seq idx k
    /\ (k < length ms ->
        diagnostics.DiagsHasErrors
          (ModifyAttributePlanResponse.Diagnostics (fst (runPlanModifiers idx ms req resp)))
        = true)
    /\ (ms <> [] -> 0 < k).
Proof.
  revert idx req resp. induction ms as [|m ms IH]; intros idx req resp.
  - exists 0. simpl. repeat split; try lia. congruence.
  - rewrite runPlanModifiers_cons. cbv zeta.
    destruct (diagnostics.DiagsHasErrors
                (ModifyAttributePlanResponse.Diagnostics (Modify m req resp))) eqn:He.
    + exists 1. simpl. repeat split; try lia. intros _. exact He.
    + destruct (IH (S idx)
                  (setAttributePlan
                     (ModifyAttributePlanResponse.AttributePlan (Modify m req resp)) req)
                  (Modify m req resp)) as (k & Hk & Hrun & Herr & _).
      exists (S k). cbn [fst snd length]. repeat split; try lia.
      * unfold modifiersRun in *. simpl. now rewrite Hrun.
      * intros Hlt. apply Herr. lia.
Qed.

(** X13: the plan modifiers that run are the first ones, each once and in
    order: those numbered 0 to k-1 for some k.  When fewer than all of them
    ran (also when none did, because a value did not resolve), the response
    that is returned holds an error diagnostic. *)
Theorem modifyPlan_runs_a_prefix (a : Attribute AttrType) req resp :
  exists k,
    k <= length (PlanModifiers a)
    /\ modifiersRun (snd (modifyPlan a req resp)) = seq 0 k
    /\ (k < length (PlanModifiers a) ->
        diagnostics.DiagsHasErrors
          (ModifyAttributePlanResponse.Diagnostics (fst (modifyPlan a req resp))) = true).
Proof.
  unfold modifyPlan.
  destruct (GetAttribute (ModifyAttributePlanRequest.Config req) _) as [cfg dc].
  destruct (diagnostics.DiagsHasErrors dc) eqn:Hdc.
  { exists 0. simpl. repeat split; try lia. intros _.
    now rewrite DiagsHasErrors_app, Hdc, orb_true_r. }
  destruct (GetAttribute (ModifyAttributePlanRequest.State req) _) as [st ds].
  destruct (diagnostics.DiagsHasErrors ds) eqn:Hds.
  { exists 0. simpl. repeat split; try lia. intros _.
    now rewrite DiagsHasErrors_app, Hds, orb_true_r. }
  destruct (GetAttribute (ModifyAttributePlanRequest.Plan req) _) as [pl dp].
  destruct (diagnostics.DiagsHasErrors dp) eqn:Hdp.
  { exists 0. simpl. repeat split; try lia. intros _.
    now rewrite DiagsHasErrors_app, Hdp, orb_true_r. }
  destruct (runPlanModifiers_prefix 0 (PlanModifiers a) (modifyRequest req cfg st pl)
              (appendPlanDiagnostics
                 (appendPlanDiagnostics (appendPlanDiagnostics resp dc) ds) dp))
    as (k & Hk & Hrun & Herr & _).
  destruct (runPlanModifiers 0 (PlanModifiers a) _ _) as [r l]. simpl in *.
  exists k. repeat split; assumption.
Qed.

(** X14: the plan value of the response is written by the plan modifiers
    alone.  When none of them ran, because there is none or because a value
    did not resolve, the response keeps the plan value the caller put in it
    (the value resolved from the plan is not copied to it) and differs from
    the caller's only by appended diagnostics. *)
Theorem modifyPlan_without_modifier_run (a : Attribute AttrType) req resp :
  (PlanModifiers a = [] -> modifiersRun (snd (modifyPlan a req resp)) = [])
  /\ (modifiersRun (snd (modifyPlan a req resp)) = [] ->
      exists diags, fst (modifyPlan a req resp) = appendPlanDiagnostics resp diags).
Proof.
  unfold modifyPlan.
  destruct (GetAttribute (ModifyAttributePlanRequest.Config req) _) as [cfg dc].
  destruct (diagnostics.DiagsHasErrors dc).
  { split; [reflexivity|]. intros _. now exists dc. }
  destruct (GetAttribute (ModifyAttributePlanRequest.State req) _) as [st ds].
  destruct (diagnostics.DiagsHasErrors ds).
  { split; [reflexivity|]. intros _. exists (dc ++ ds).
    unfold appendPlanDiagnostics. simpl. now rewrite app_assoc. }
  destruct (GetAttribute (ModifyAttributePlanRequest.Plan req) _) as [pl dp].
  destruct (diagnostics.DiagsHasErrors dp).
  { split; [reflexivity|]. intros _. exists (dc ++ ds ++ dp).
    unfold appendPlanDiagnostics. simpl. now rewrite !app_assoc. }
  destruct (runPlanModifiers_prefix 0 (PlanModifiers a) (modifyRequest req cfg st pl)
              (appendPlanDiagnostics
                 (appendPlanDiagnostics (appendPlanDiagnostics resp dc) ds) dp))
    as (k & _ & Hrun & _ & Hpos).
  destruct (PlanModifiers a) as [|m ms] eqn:Hms.
  - split; [reflexivity|]. intros _. simpl. exists (dc ++ ds ++ dp).
    unfold appendPlanDiagnostics. simpl. now rewrite !app_assoc.
  - destruct (runPlanModifiers 0 (m :: ms) _ _) as [r l]. simpl in *.
    split; [discriminate|]. intros Hnone. rewrite Hrun in Hnone.
    specialize (Hpos ltac:(discriminate)). destruct k; [lia|discriminate].
Qed.

Lemma runPlanModifiers_requests idx (ms : AttributePlanModifiers) req resp :
  Forall (fun r => setAttributePlan None r = setAttributePlan None req)
         (modifierRequests (snd (runPlanModifiers idx ms req resp))).
Proof.
  revert idx req resp. induction ms as [|m ms IH]; intros idx req resp.
  - constructor.
  - rewrite runPlanModifiers_cons. cbv zeta.
    destruct (diagnostics.DiagsHasErrors _).
    + simpl. repeat constructor.
    + cbn [snd]. unfold modifierRequests. simpl. constructor; [reflexivity|].
      apply (IH (S idx)
               (setAttributePlan
                  (ModifyAttributePlanResponse.AttributePlan (Modify m req resp)) req)).
Qed.

(** X15: along the pipeline only the plan value changes.  Every plan
    modifier is given the path of the request, its config, state, plan and
    provider meta, and the config and state values resolved at the path; the
    first one is given the resolved plan value. *)
Theorem modifyPlan_requests (a : Attribute AttrType) req resp cfg st pl dc ds dp :
  GetAttribute (ModifyAttributePlanRequest.Config req)
    (ModifyAttributePlanRequest.AttributePath req) = (cfg, dc) ->
  GetAttribute (ModifyAttributePlanRequest.State req)
    (ModifyAttributePlanRequest.AttributePath req) = (st, ds) ->
  GetAttribute (ModifyAttributePlanRequest.Plan req)
    (ModifyAttributePlanRequest.AttributePath req) = (pl, dp) ->
  let requests := modifierRequests (snd (modifyPlan a req resp)) in
  Forall (fun r =>
            exists plan,
              r = ModifyAttributePlanRequest.mk
                    (ModifyAttributePlanRequest.AttributePath req)
                    (ModifyAttributePlanRequest.Config req)
                    (ModifyAttributePlanRequest.State req)
                    (ModifyAttributePlanRequest.Plan req)
                    cfg st plan
                    (ModifyAttributePlanRequest.ProviderMeta req)) requests
  /\ (forall r rest,
         requests = r :: rest -> ModifyAttributePlanRequest.AttributePlan r = pl).
Proof.
  intros Hc Hs Hp requests. subst requests. unfold modifyPlan. rewrite Hc.
  destruct (diagnostics.DiagsHasErrors dc); [split; [constructor|discriminate]|].
  rewrite Hs.
  destruct (diagnostics.DiagsHasErrors ds); [split; [constructor|discriminate]|].
  rewrite Hp.
  destruct (diagnostics.DiagsHasErrors dp); [split; [constructor|discriminate]|].
  pose proof (runPlanModifiers_requests 0 (PlanModifiers a) (modifyRequest req cfg st pl)
                (appendPlanDiagnostics
                   (appendPlanDiagnostics (appendPlanDiagnostics resp dc) ds) dp)) as Hreq.
  destruct (PlanModifiers a) as [|m ms].
  - simpl. split; [constructor|discriminate].
  - rewrite runPlanModifiers_cons in *. cbv zeta in *.
    set (r1 := Modify m _ _) in *.
    destruct (diagnostics.DiagsHasErrors (ModifyAttributePlanResponse.Diagnostics r1)).
    + simpl in *. split.
      * constructor; [|constructor]. now exists pl.
      * intros r rest [= <- _]. reflexivity.
    + destruct (runPlanModifiers 1 ms _ r1) as [r l]. cbn [fst snd] in *. split.
      * unfold modifierRequests in *. simpl in *.
        eapply Forall_impl; [|exact Hreq]. intros r0 Hr0.
        exists (ModifyAttributePlanRequest.AttributePlan r0).
        destruct r0. unfold setAttributePlan, modifyRequest in Hr0. simpl in *.
        injection Hr0 as -> -> -> -> -> -> ->. reflexivity.
      * unfold modifierRequests. simpl. intros r0 rest [= <- _]. reflexivity.
Qed.

Lemma runPlanModifiers_appends idx (ms : AttributePlanModifiers) req resp :
  allOf modifierAppends ms ->
  exists more,
    ModifyAttributePlanResponse.Diagnostics (fst (runPlanModifiers idx ms req resp))
    = ModifyAttributePlanResponse.Diagnostics resp ++ more.
Proof.
  revert idx req resp. induction ms as [|m ms IH]; intros idx req resp Hall.
  - apply extends_refl.
  - destruct Hall as [Hm Hms]. rewrite runPlanModifiers_cons. cbv zeta.
    destruct (diagnostics.DiagsHasErrors _); cbn [fst]; [apply Hm|].
    exact (extends_trans _ _ _ (Hm req resp) (IH _ _ _ Hms)).
Qed.

(** X16: [modifyPlan] never removes or rewrites a diagnostic.  When every
    plan modifier of the attribute only appends to the diagnostics it is
    given, the diagnostics after the call are those before it with others
    appended. *)
Theorem modifyPlan_only_appends (a : Attribute AttrType) req resp :
  allOf modifierAppends (PlanModifiers a) ->
  exists more,
    ModifyAttributePlanResponse.Diagnostics (fst (modifyPlan a req resp))
    = ModifyAttributePlanResponse.Diagnostics resp ++ more.
Proof.
  intros Hall. unfold modifyPlan.
  destruct (GetAttribute (ModifyAttributePlanRequest.Config req) _) as [cfg dc].
  destruct (diagnostics.DiagsHasErrors dc); [eexists; reflexivity|].
  destruct (GetAttribute (ModifyAttributePlanRequest.State req) _) as [st ds].
  destruct (diagnostics.DiagsHasErrors ds).
  { exists (dc ++ ds). simpl. now rewrite app_assoc. }
  destruct (GetAttribute (ModifyAttributePlanRequest.Plan req) _) as [pl dp].
  destruct (diagnostics.DiagsHasErrors dp).
  { exists (dc ++ ds ++ dp). simpl. now rewrite !app_assoc. }
  destruct (runPlanModifiers_appends 0 (PlanModifiers a) (modifyRequest req cfg st pl)
              (appendPlanDiagnostics
                 (appendPlanDiagnostics (appendPlanDiagnostics resp dc) ds) dp) Hall)
    as [more Hmore].
  destruct (runPlanModifiers 0 (PlanModifiers a) _ _) as [r l]. simpl in *.
  exists (dc ++ ds ++ dp ++ more). now rewrite Hmore, !app_assoc.
Qed.

(** *** Structural equality: what it tells *)

(** X17: attributes that are [Equal] agree on every field the comparison
    reads.  Their descriptions, flags and deprecation messages are the same,
    both have a type or neither has, and likewise for nested attributes; their
    types and their nested attributes are equal by their own [Equal]; and
    under any name they make the same wire header. *)
Theorem Equal_agrees_on_fields (a o : Attribute AttrType) :
  Equal a o = true ->
  Description a = Description o
  /\ MarkdownDescription a = MarkdownDescription o
  /\ Required a = Required o
  /\ Optional a = Optional o
  /\ Computed a = Computed o
  /\ Sensitive a = Sensitive o
  /\ DeprecationMessage a = DeprecationMessage o
  /\ isNil (Type_ a) = isNil (Type_ o)
  /\ isNil (Attributes a) = isNil (Attributes o)
  /\ (forall ta to, Type_ a = Some ta -> Type_ o = Some to -> attr.Equal ta to = true)
  /\ (forall na no,
         Attributes a = Some na -> Attributes o = Some no ->
         NestedAttributes_Equal Equal na no = true)
  /\ (forall name, schemaAttributeHeader a name = schemaAttributeHeader o name).
Proof.
  rewrite Equal_unfold. unfold Equal_body. intros He.
  destruct (isNil (Type_ a) && notNil (Type_ o)) eqn:Hk1; [discriminate|].
  destruct (notNil (Type_ a) && isNil (Type_ o)) eqn:Hk2; [discriminate|].
  destruct (match Type_ a, Type_ o with
            | Some ta, Some to => negb (attr.Equal ta to)
            | _, _ => false
            end) eqn:Hk3; [discriminate|].
  destruct (isNil (Attributes a) && notNil (Attributes o)) eqn:Hk4; [discriminate|].
  destruct (notNil (Attributes a) && isNil (Attributes o)) eqn:Hk5; [discriminate|].
  destruct (match Attributes a, Attributes o with
            | Some na, Some no => negb (NestedAttributes_Equal Equal na no)
            | _, _ => false
            end) eqn:Hk6; [discriminate|].
  destruct (String.eqb_spec (Description a) (Description o)) as [Hd|]; [|discriminate].
  destruct (String.eqb_spec (MarkdownDescription a) (MarkdownDescription o)) as [Hm|];
    [|discriminate].
  destruct (Bool.eqb (Required a) (Required o)) eqn:Hr; [|discriminate].
  destruct (Bool.eqb (Optional a) (Optional o)) eqn:Hop; [|discriminate].
  destruct (Bool.eqb (Computed a) (Computed o)) eqn:Hc; [|discriminate].
  destruct (Bool.eqb (Sensitive a) (Sensitive o)) eqn:Hs; [|discriminate].
  destruct (String.eqb_spec (DeprecationMessage a) (DeprecationMessage o)) as [Hdm|];
    [|discriminate].
  apply Bool.eqb_prop in Hr, Hop, Hc, Hs.
  repeat (split; [assumption|]).
  split; [|split; [|split; [|split]]].
  - unfold notNil in *. destruct (Type_ a), (Type_ o); simpl in *; congruence.
  - unfold notNil in *. destruct (Attributes a), (Attributes o); simpl in *; congruence.
  - intros ta to Ha Ho. rewrite Ha, Ho in Hk3. now apply negb_false_iff in Hk3.
  - intros na no Ha Ho. rewrite Ha, Ho in Hk6. now apply negb_false_iff in Hk6.
  - intros name. unfold schemaAttributeHeader. now rewrite Hd, Hm, Hr, Hop, Hc, Hs, Hdm.
Qed.


(** *** Diagnostics of the resolution *)





End AttributePropertiesMore.

(** ** Straight insertion meets the contract of the sort *)

Lemma insert_permutation {A : Type} (less : A -> A -> bool) x l :
  Permutation (sort.insert less x l) (x :: l).
Proof.
  induction l as [|y l IH]; simpl; [reflexivity|].
  destruct (less y x); [|reflexivity].
  rewrite IH. apply perm_swap.
Qed.

Lemma insertionSort_permutation {A : Type} (less : A -> A -> bool) l :
  Permutation (sort.insertionSort less l) l.
Proof.
  induction l as [|x l IH]; simpl; [reflexivity|].
  rewrite insert_permutation. now constructor.
Qed.

Lemma insert_sorted {A : Type} (less : A -> A -> bool) (P : A -> Prop) x l :
  (forall x y, P x -> P y -> less x y = true -> less y x = false) ->
  (forall x y z, P x -> P y -> P z ->
                 less y x = false -> less z y = false -> less z x = false) ->
  P x -> Forall P l ->
  StronglySorted (fun x y => less y x = false) l ->
  StronglySorted (fun x y => less y x = false) (sort.insert less x l).
Proof.
  intros Hasym Htrans Hx.
  induction l as [|y l IH]; intros HP Hs; simpl.
  - repeat constructor.
  - inversion HP as [|? ? Hy HPl]; subst.
    inversion Hs as [|? ? Hs' Hall]; subst.
    destruct (less y x) eqn:Hyx.
    + constructor; [now apply IH|].
      apply Forall_forall. intros z Hz.
      apply (Permutation_in _ (insert_permutation less x l)) in Hz.
      destruct Hz as [<-|Hz]; [now apply Hasym|].
      rewrite Forall_forall in Hall. now apply Hall.
    + constructor; [now constructor|].
      constructor; [exact Hyx|].
      rewrite Forall_forall in *. intros z Hz.
      apply (Htrans x y z); auto.
Qed.

Lemma insertionSorter_laws : @sort.SorterLaws sort.insertionSorter.
Proof.
  split.
  - intros A less l. apply insertionSort_permutation.
  - intros A less l Hasym Htrans. simpl.
    assert (Hgen : forall l', (forall x, In x l' -> In x l) ->
              StronglySorted (fun x y => less y x = false) (sort.insertionSort less l')).
    { induction l' as [|x l' IH]; intros Hsub; simpl; [constructor|].
      apply (insert_sorted less (fun x => In x l)).
      - intros; now apply Hasym.
      - intros a b c Ha Hb Hc. now apply Htrans.
      - apply Hsub. now left.
      - apply Forall_forall. intros z Hz. apply Hsub. right.
        now apply (Permutation_in _ (insertionSort_permutation less l')).
      - apply IH. intros z Hz. apply Hsub. now right. }
    apply Hgen. auto.
Qed.

(** ** The theorems at the example schemas *)
Section Examples.
#[local] Existing Instance types.primitiveType.
#[local] Existing Instance examplePathStringer.
#[local] Existing Instance sort.insertionSorter.
#[local] Existing Instance insertionSorter_laws.

(** The scenarios of the spec. *)

Example scenario_required_string :
  validate stringAttribute
    (validateRequestAt [] (exampleAccessor (Some (types.StringValue "hello")) []))
    emptyValidateResponse
  = (ValidateAttributeResponse.mk [], [Enter []; Resolve FromConfig []]).
Proof. reflexivity. Qed.

Example scenario_undefined_attribute :
  ValidateAttributeResponse.Diagnostics
    (fst (validate undefinedAttribute
            (validateRequestAt [tftypes.AttributeName "foo"] exampleConfig)
            emptyValidateResponse))
  = [invalidDefinitionNeither [tftypes.AttributeName "foo"]].
Proof. reflexivity. Qed.

Example scenario_list_of_two :
  filter (fun e => match e with Enter (_ :: _) => true | _ => false end)
    (snd (validate listNested (validateRequestAt [] listConfig) emptyValidateResponse))
  = [Enter [tftypes.ElementKeyInt 0; tftypes.AttributeName "a"];
     Enter [tftypes.ElementKeyInt 0; tftypes.AttributeName "b"];
     Enter [tftypes.ElementKeyInt 1; tftypes.AttributeName "a"];
     Enter [tftypes.ElementKeyInt 1; tftypes.AttributeName "b"]].
Proof. reflexivity. Qed.

Example scenario_pipeline_ordering :
  ModifyAttributePlanResponse.AttributePlan
    (fst (modifyPlan (withPlanModifiers [setsPlanTo "X"; appendsSuffix] pipelineAttribute)
            (planRequestAt [] exampleConfig exampleConfig exampleConfig)
            emptyPlanResponse))
  = Some (types.StringValue "X-suffix").
Proof. reflexivity. Qed.

Example scenario_sorted_children :
  option_map
    (fun s => match tfprotov6.NestedType s with
              | Some obj => map (option_map tfprotov6.Name) (tfprotov6.Attributes obj)
              | None => []
              end)
    (fst (tfprotov6SchemaAttribute singleNested "root" []))
  = Some [Some "a"; Some "b"].
Proof. reflexivity. Qed.

(** The recursion of the spec is not in the code: [modifyPlan] on a
    single-nested branch whose child "x" has plan modifiers never enters
    "x". *)
Lemma modifyPlan_enters_children_counterexample :
  ~ modifyPlanEntersChildren nestedWithChildModifier
      (planRequestAt [] exampleConfig exampleConfig exampleConfig) emptyPlanResponse.
Proof.
  intros Hclaim.
  specialize (Hclaim _ "x" pipelineAttribute eq_refl eq_refl (or_introl eq_refl)).
  simpl in Hclaim.
  repeat (destruct Hclaim as [Hclaim|Hclaim]; [discriminate|]).
  exact Hclaim.
Qed.

(** The stop rule of the spec is not the one of the code: with an error in
    the response before the call, the second of two plan modifiers that
    report nothing is not called. *)
Lemma modifyPlan_stop_rule_counterexample :
  ~ modifyPlanStopsOnlyOnModifierErrors quietPipelineAttribute
      (planRequestAt [] exampleConfig exampleConfig exampleConfig) erroredPlanResponse.
Proof.
  intros Hclaim.
  assert (Hquiet : forall m r s,
             In m (PlanModifiers quietPipelineAttribute) ->
             ModifyAttributePlanResponse.Diagnostics (Modify m r s)
             = ModifyAttributePlanResponse.Diagnostics s).
  { intros m r s [<-|[<-|[]]]; [reflexivity|].
    unfold appendsSuffix. simpl.
    destruct (ModifyAttributePlanRequest.AttributePlan r) as [[| |ty [[|x]|] err]|];
      reflexivity. }
  destruct (Hclaim eq_refl eq_refl eq_refl Hquiet 1 appendsSuffix eq_refl) as [r Hin].
  simpl in Hin.
  repeat (destruct Hin as [Hin|Hin]; [discriminate|]).
  exact Hin.
Qed.

Lemma modifyPlan_pipeline_witness :
  modifyPlan quietPipelineAttribute
    (planRequestAt [] exampleConfig exampleConfig exampleConfig) erroredPlanResponse
  = (ModifyAttributePlanResponse.mk (Some (types.StringValue "X")) [earlierError],
     [Enter []; Resolve FromConfig []; Resolve FromState []; Resolve FromPlan [];
      RunPlanModifier 0
        (ModifyAttributePlanRequest.mk [] exampleConfig exampleConfig exampleConfig
           (Some (types.StringValue "x")) (Some (types.StringValue "x"))
           (Some (types.StringValue "x")) (exampleAccessor None []))])
  /\ modifyPlan quietPipelineAttribute
       (planRequestAt [] exampleConfig exampleConfig exampleConfig) emptyPlanResponse
     = (ModifyAttributePlanResponse.mk (Some (types.StringValue "X-suffix")) [],
        [Enter []; Resolve FromConfig []; Resolve FromState []; Resolve FromPlan [];
         RunPlanModifier 0
           (ModifyAttributePlanRequest.mk [] exampleConfig exampleConfig exampleConfig
              (Some (types.StringValue "x")) (Some (types.StringValue "x"))
              (Some (types.StringValue "x")) (exampleAccessor None []));
         RunPlanModifier 1
           (ModifyAttributePlanRequest.mk [] exampleConfig exampleConfig exampleConfig
              (Some (types.StringValue "x")) (Some (types.StringValue "x"))
              (Some (types.StringValue "X")) (exampleAccessor None []))]).
Proof.
  split.
  - destruct (modifyPlan_pipeline quietPipelineAttribute
                (planRequestAt [] exampleConfig exampleConfig exampleConfig)
                erroredPlanResponse
                _ _ _ _ _ _ [setsPlanTo "X"] appendsSuffix []
                eq_refl eq_refl eq_refl eq_refl eq_refl eq_refl eq_refl)
      as (_ & Hstop & _).
    rewrite (Hstop ltac:(discriminate) eq_refl). reflexivity.
  - destruct (modifyPlan_pipeline quietPipelineAttribute
                (planRequestAt [] exampleConfig exampleConfig exampleConfig)
                emptyPlanResponse
                _ _ _ _ _ _ [setsPlanTo "X"] appendsSuffix []
                eq_refl eq_refl eq_refl eq_refl eq_refl eq_refl eq_refl)
      as (_ & _ & Hrun).
    destruct (Hrun (or_intror eq_refl)) as (_ & _ & Hlast).
    rewrite (Hlast eq_refl). reflexivity.
Defined.

(** The diagnostic of the spec is not in the code: validating a set-nested
    branch, here one whose only child is ill-defined, yields no diagnostic at
    all. *)
Lemma validate_set_nesting_counterexample :
  ~ validateReportsSetNesting setNested (validateRequestAt [] exampleConfig)
      emptyValidateResponse.
Proof.
  intros Hclaim. apply (Hclaim _ eq_refl eq_refl). reflexivity.
Qed.

Lemma validate_set_nesting_is_skipped_witness :
  validate setNested (validateRequestAt [] warningConfig) emptyValidateResponse
  = (ValidateAttributeResponse.mk [resolutionWarning], [Enter []; Resolve FromConfig []]).
Proof.
  exact (proj2 (proj2 (proj2
           (validate_set_nesting_is_skipped setNested (validateRequestAt [] warningConfig)
              emptyValidateResponse _ _ _ eq_refl eq_refl
              (fun H => nil_cons (eq_sym H)) eq_refl eq_refl eq_refl)))
           eq_refl eq_refl).
Defined.

Lemma validate_invalid_definition_witness :
  validate undefinedAttribute
    (validateRequestAt [tftypes.AttributeName "foo"] exampleConfig)
    (ValidateAttributeResponse.mk [resolutionWarning])
  = (ValidateAttributeResponse.mk
       [resolutionWarning;
        tfprotov6.mkDiagnostic tfprotov6.DiagnosticSeverityError
          "Invalid Attribute Definition"
          "Attribute must define either Attributes or Type. This is always a problem with the provider and should be reported to the provider developer."
          (Some [tftypes.AttributeName "foo"])],
     [Enter [tftypes.AttributeName "foo"]]).
Proof.
  destruct (validate_invalid_definition undefinedAttribute
              (validateRequestAt [tftypes.AttributeName "foo"] exampleConfig)
              (ValidateAttributeResponse.mk [resolutionWarning]) eq_refl)
    as (d & Hrun & Hseverity & Hsummary & Hpath & Hneither & _).
  rewrite Hrun. specialize (Hneither eq_refl).
  destruct d as [severity summary detail attribute]. simpl in *.
  now subst.
Defined.

Lemma tfprotov6SchemaAttribute_errors_witness :
  snd (tfprotov6SchemaAttribute nestedWithInvalidChild "root" [])
  = Some (tftypes.mkAttributePathError [tftypes.AttributeName "bad"]
            "must have Attributes or Type set").
Proof.
  apply (proj2 (proj2 (proj2 (proj2 (proj2
           (tfprotov6SchemaAttribute_errors nestedWithInvalidChild "root" [])))))
           eq_refl).
  exists (mkNestedAttributes [("ok", stringAttribute); ("bad", undefinedAttribute)]
            NestingModeSingle 0%Z 0%Z),
    [("ok", stringAttribute)], ("bad", undefinedAttribute), [].
  repeat split. repeat constructor.
Defined.

Lemma tfprotov6SchemaAttribute_canonical_order_witness :
  tfprotov6SchemaAttribute singleNestedReordered "root" []
  = tfprotov6SchemaAttribute singleNested "root" [].
Proof.
  refine (proj2 (proj2
            (tfprotov6SchemaAttribute_canonical_order singleNested "root" [] _ _
               eq_refl eq_refl eq_refl)) singleNestedReordered _).
  simpl. repeat split.
  exists [("b", stringAttribute); ("a", describedAttribute)]. split.
  - apply perm_swap.
  - simpl. repeat split.
Defined.

(** The deprecation warning is not unconditional: a deprecated list-nested
    attribute whose resolved value is not null and not a list gets the walk
    error and no deprecation warning. *)
Lemma validate_deprecation_counterexample :
  ~ validateWarnsOfDeprecation deprecatedListNested (validateRequestAt [] exampleConfig)
      emptyValidateResponse.
Proof.
  intros Hclaim.
  destruct (Hclaim (types.StringValue "x") (attr.KnownValue "x") []
              ltac:(discriminate) eq_refl eq_refl) as [before Hlast].
  simpl in Hlast.
  destruct before as [|d [|d' before]]; simpl in Hlast; discriminate.
Qed.

Lemma validate_deprecation_warning_witness :
  validate deprecatedAttribute (validateRequestAt [] exampleConfig) emptyValidateResponse
  = (ValidateAttributeResponse.mk
       [tfprotov6.mkDiagnostic tfprotov6.DiagnosticSeverityWarning
          "Attribute Deprecated" "use bar instead" (Some [])],
     [Enter []; Resolve FromConfig []])
  /\ validate deprecatedAttribute (validateRequestAt [] nullConfig) emptyValidateResponse
     = (ValidateAttributeResponse.mk [], [Enter []; Resolve FromConfig []]).
Proof.
  split.
  - exact (proj1 (validate_deprecation_warning deprecatedAttribute
                    (validateRequestAt [] exampleConfig) emptyValidateResponse _ _
                    eq_refl ltac:(discriminate) eq_refl eq_refl eq_refl)
             (types.StringValue "x") (attr.KnownValue "x") eq_refl eq_refl).
  - exact (proj2 (proj2 (validate_deprecation_warning deprecatedAttribute
                    (validateRequestAt [] nullConfig) emptyValidateResponse _ _
                    eq_refl ltac:(discriminate) eq_refl eq_refl eq_refl))
             types.NullString eq_refl eq_refl).
Defined.

Lemma tfprotov6SchemaAttribute_description_witness :
  exists s,
    tfprotov6SchemaAttribute describedAttribute "name" [] = (Some s, None)
    /\ tfprotov6.Description s = "*markdown* text"
    /\ tfprotov6.DescriptionKind s = tfprotov6.StringKindMarkdown.
Proof.
  eexists. split; [reflexivity|].
  exact (proj1 (tfprotov6SchemaAttribute_description describedAttribute "name" [] _ eq_refl)
           ltac:(discriminate) ltac:(discriminate)).
Defined.

Lemma Equal_ignores_validators_and_plan_modifiers_witness :
  Equal singleNested singleNestedOtherHooks = true.
Proof.
  refine (proj1 (Equal_ignores_validators_and_plan_modifiers singleNested
                   singleNestedOtherHooks _ eq_refl eq_refl eq_refl eq_refl eq_refl
                   eq_refl eq_refl eq_refl eq_refl eq_refl)).
  intros []; reflexivity.
Defined.


End Examples.

(** ** The further properties at the example schemas *)
Section FurtherExamples.
#[local] Existing Instance types.primitiveType.
#[local] Existing Instance examplePathStringer.
#[local] Existing Instance sort.insertionSorter.
#[local] Existing Instance insertionSorter_laws.
#[local] Existing Instance examplePathStepper.

Lemma tfprotov6SchemaAttribute_flags_witness :
  exists s,
    tfprotov6SchemaAttribute deprecatedAttribute "old" [] = (Some s, None)
    /\ tfprotov6.Name s = "old"
    /\ tfprotov6.Optional s = true
    /\ tfprotov6.Deprecated s = true.
Proof.
  eexists. split; [reflexivity|].
  destruct (tfprotov6SchemaAttribute_flags deprecatedAttribute "old" [] _ eq_refl)
    as (Hname & _ & Hoptional & _ & _ & Hdeprecated & _).
  split; [exact Hname|]. split; [exact Hoptional|].
  apply Hdeprecated. discriminate.
Defined.

Lemma tfprotov6SchemaAttribute_shape_witness :
  exists s,
    tfprotov6SchemaAttribute singleNested "root" [] = (Some s, None)
    /\ tfprotov6.Type_ s = None
    /\ option_map (fun obj => (tfprotov6.Nesting obj, length (tfprotov6.Attributes obj)))
         (tfprotov6.NestedType s)
       = Some (tfprotov6.SchemaObjectNestingModeSingle, 2).
Proof.
  eexists. split; [reflexivity|].
  destruct (tfprotov6SchemaAttribute_shape singleNested "root" [] _ eq_refl)
    as [(ty & Hty & _)
       |(na & nesting & obj & ss & _ & Hna & _ & Hnone & Hobj & _ & _ & _ & _ & _ & Hlen
         & Hmode)].
  - discriminate Hty.
  - split; [exact Hnone|].
    injection Hna as <-. rewrite Hobj. simpl. rewrite Hlen.
    destruct Hmode as [[_ ->]|[[Habs _]|[[Habs _]|[Habs _]]]];
      [reflexivity|discriminate Habs..].
Defined.

Lemma tfprotov6SchemaAttribute_path_and_name_witness :
  exists s,
    tfprotov6SchemaAttribute singleNested "a" [] = (Some s, None)
    /\ tfprotov6SchemaAttribute singleNested "b" [tftypes.AttributeName "outer"]
       = (Some (renamed "b" s), None).
Proof.
  eexists. split; [reflexivity|].
  exact (tfprotov6SchemaAttribute_path_and_name singleNested "a" [] _ "b"
           [tftypes.AttributeName "outer"] eq_refl).
Defined.

Lemma tfprotov6SchemaAttribute_error_location_witness :
  exists names d,
    reaches nestedWithInvalidChild names d
    /\ structurallyInvalid d = true
    /\ [tftypes.AttributeName "bad"] = [] ++ map tftypes.AttributeName names
    /\ definitionError d "must have Attributes or Type set".
Proof.
  exact (tfprotov6SchemaAttribute_error_location nestedWithInvalidChild "root" []
           (tftypes.mkAttributePathError [tftypes.AttributeName "bad"]
              "must have Attributes or Type set") eq_refl).
Defined.

Lemma ApplyTerraform5AttributePathStep_delegates_witness :
  ApplyTerraform5AttributePathStep stringAttribute (tftypes.AttributeName "x")
  = Type_ApplyTerraform5AttributePathStep types.StringType (tftypes.AttributeName "x")
  /\ exists na,
       Attributes singleNested = Some na
       /\ ApplyTerraform5AttributePathStep singleNested (tftypes.ElementKeyInt 0)
          = Attributes_ApplyTerraform5AttributePathStep na (tftypes.ElementKeyInt 0).
Proof.
  split.
  - destruct (proj1 (ApplyTerraform5AttributePathStep_delegates stringAttribute "s" [] _
                       (tftypes.AttributeName "x") eq_refl) _ eq_refl)
      as (ty & Hty & Hstep).
    injection Hty as <-. exact Hstep.
  - exact (proj1 (proj2 (ApplyTerraform5AttributePathStep_delegates singleNested "root" [] _
                           (tftypes.ElementKeyInt 0) eq_refl)) _ eq_refl).
Defined.

Lemma validate_enters_each_child_witness :
  entersAtDepth 2
    (snd (validate listNested (validateRequestAt [] listConfig) emptyValidateResponse))
  = [[tftypes.ElementKeyInt 0; tftypes.AttributeName "a"];
     [tftypes.ElementKeyInt 0; tftypes.AttributeName "b"];
     [tftypes.ElementKeyInt 1; tftypes.AttributeName "a"];
     [tftypes.ElementKeyInt 1; tftypes.AttributeName "b"]].
Proof.
  exact (proj1 (proj2 (validate_enters_each_child listNested
                         (validateRequestAt [] listConfig) emptyValidateResponse _ _ _
                         eq_refl eq_refl eq_refl eq_refl))
           _ eq_refl eq_refl).
Defined.

Lemma validate_only_appends_witness :
  exists more,
    ValidateAttributeResponse.Diagnostics
      (fst (validate singleNested (validateRequestAt [] warningConfig)
              (ValidateAttributeResponse.mk [resolutionWarning])))
    = [resolutionWarning] ++ more.
Proof.
  apply (validate_only_appends singleNested).
  simpl. unfold validatorsAppend_body. simpl.
  repeat split; intros req resp; eexists; reflexivity.
Defined.

Lemma validate_unwalkable_branch_witness :
  exists d,
    validate deprecatedListNested (validateRequestAt [] exampleConfig) emptyValidateResponse
    = (ValidateAttributeResponse.mk [d], [Enter []; Resolve FromConfig []])
    /\ tfprotov6.Severity d = tfprotov6.DiagnosticSeverityError
    /\ tfprotov6.Summary d = "Attribute Validation Error"
    /\ tfprotov6.Attribute d = Some [].
Proof.
  exact (validate_unwalkable_branch deprecatedListNested (validateRequestAt [] exampleConfig)
           emptyValidateResponse _ _ eq_refl eq_refl eq_refl eq_refl).
Defined.

Lemma validate_deprecation_conversion_error_witness :
  validate deprecatedNoted (validateRequestAt [] unconvertibleConfig)
    (ValidateAttributeResponse.mk [resolutionWarning])
  = (ValidateAttributeResponse.mk
       [resolutionWarning;
        tfprotov6.mkDiagnostic tfprotov6.DiagnosticSeverityWarning
          "Noted" "validator ran" (Some []);
        tfprotov6.mkDiagnostic tfprotov6.DiagnosticSeverityError
          "Attribute Validation Error"
          ("Attribute validation cannot convert value. Report this to the provider developer:"
             ++ newline ++ newline ++ "cannot convert")%string
          (Some [])],
     [Enter []; Resolve FromConfig [];
      RunValidator 0 (ValidateAttributeRequest.mk []
                        (Some (attr.Other "types.String" (Some (attr.KnownValue "x"))
                                 (Some "cannot convert")))
                        unconvertibleConfig)]).
Proof.
  exact (validate_deprecation_conversion_error deprecatedNoted
           (validateRequestAt [] unconvertibleConfig)
           (ValidateAttributeResponse.mk [resolutionWarning]) _ _ _ _
           eq_refl ltac:(discriminate) eq_refl eq_refl eq_refl eq_refl).
Defined.

Lemma modifyPlan_requests_witness :
  Forall (fun r =>
            exists plan,
              r = modifyRequest (planRequestAt [] exampleConfig nullConfig exampleConfig)
                    (Some (types.StringValue "x")) (Some types.NullString) plan)
    (modifierRequests
       (snd (modifyPlan pipelineAttribute
               (planRequestAt [] exampleConfig nullConfig exampleConfig) emptyPlanResponse)))
  /\ length (modifierRequests
               (snd (modifyPlan pipelineAttribute
                       (planRequestAt [] exampleConfig nullConfig exampleConfig)
                       emptyPlanResponse))) = 3.
Proof.
  split; [|reflexivity].
  exact (proj1 (modifyPlan_requests pipelineAttribute
                  (planRequestAt [] exampleConfig nullConfig exampleConfig) emptyPlanResponse
                  _ _ _ _ _ _ eq_refl eq_refl eq_refl)).
Defined.

Lemma modifyPlan_only_appends_witness :
  exists more,
    ModifyAttributePlanResponse.Diagnostics
      (fst (modifyPlan pipelineAttribute
              (planRequestAt [] warningConfig exampleConfig exampleConfig)
              (ModifyAttributePlanResponse.mk None [resolutionWarning])))
    = [resolutionWarning] ++ more.
Proof.
  apply (modifyPlan_only_appends pipelineAttribute).
  simpl. repeat split; intros req resp; try (exists []; simpl; now rewrite app_nil_r).
  - exists []. unfold appendsSuffix. simpl.
    destruct (ModifyAttributePlanRequest.AttributePlan req) as [[| |ty [[|s]|] err]|];
      simpl; now rewrite app_nil_r.
  - eexists. reflexivity.
Defined.

Lemma Equal_agrees_on_fields_witness :
  Optional singleNested = Optional singleNestedOtherHooks
  /\ isNil (Attributes singleNested) = isNil (Attributes singleNestedOtherHooks)
  /\ schemaAttributeHeader singleNested "root" = schemaAttributeHeader singleNestedOtherHooks "root".
Proof.
  assert (Hequal : Equal singleNested singleNestedOtherHooks = true) by reflexivity.
  destruct (Equal_agrees_on_fields singleNested singleNestedOtherHooks Hequal)
    as (_ & _ & _ & Hoptional & _ & _ & _ & _ & Hnil & _ & _ & Hheader).
  split; [exact Hoptional|]. split; [exact Hnil|]. apply Hheader.
Defined.

End FurtherExamples.


End tfsdk.
